(** * Interview bot AI service: scoring, feedback and question generation

    A shallow embedding of [services/answer_analyzer.py],
    [services/feedback_generator.py] and [services/question_generator.py].

    Conventions of the embedding.
    - Python [str] is [string]; the text is taken to be ASCII (a character
      above code 127 is neither a letter, a digit nor white space).
    - Python [int] is [Z].  The scores, Python [float]s, are exact
      rationals [Q], compared with [==]: there the development idealises
      rounding, and the module [Binary64] at the end evaluates in IEEE
      arithmetic the quotients at which a score is stated to be an exact
      value.  The quotas of the question generator are truncated float
      products: those are computed in binary64 ([Float64]), with the
      [OverflowError] of a count too large for a float.
    - A [dict] with a fixed set of keys is a record; the two shapes of the
      analysis dictionary are the two constructors of [Analysis].
    - The module [random] is a state monad over a tape of raw draws; a raised
      exception is the [Raise] result. *)

From Stdlib Require Import String Ascii List ZArith QArith Qminmax Lia Lqa Bool Arith
  Permutation.
From Stdlib Require Import SpecFloat.
From Stdlib Require PrimFloat FloatOps DecimalString.
Import ListNotations.

Local Open Scope string_scope.

(** ** Python string operations *)

Module Str.

Local Open Scope nat_scope.

Definition code (c : ascii) : nat := nat_of_ascii c.

(** [str.isspace] on one ASCII character. *)
Definition is_space (c : ascii) : bool :=
  let n := code c in
  ((9 <=? n) && (n <=? 13)) || ((28 <=? n) && (n <=? 32)).

(** A character matched by [\w]. *)
Definition is_word (c : ascii) : bool :=
  let n := code c in
  ((48 <=? n) && (n <=? 57)) || ((65 <=? n) && (n <=? 90))
  || ((97 <=? n) && (n <=? 122)) || (n =? 95).

Definition lower_char (c : ascii) : ascii :=
  let n := code c in
  if (65 <=? n) && (n <=? 90) then ascii_of_nat (n + 32) else c.

(** [s.lower()] *)
Fixpoint lower (s : string) : string :=
  match s with
  | EmptyString => EmptyString
  | String c t => String (lower_char c) (lower t)
  end.

(** [s.startswith(p)] *)
Fixpoint startswith (p s : string) : bool :=
  match p, s with
  | EmptyString, _ => true
  | String _ _, EmptyString => false
  | String a p', String b s' => Ascii.eqb a b && startswith p' s'
  end.

(** [needle in hay] *)
Fixpoint contains (needle hay : string) : bool :=
  startswith needle hay
  || match hay with
     | EmptyString => false
     | String _ t => contains needle t
     end.

(** [any(p in hay for p in phrases)] *)
Definition any_in (phrases : list string) (hay : string) : bool :=
  existsb (fun p => contains p hay) phrases.

(** [sum(1 for p in phrases if p in hay)] *)
Definition count_present (phrases : list string) (hay : string) : Z :=
  Z.of_nat (List.length (filter (fun p => contains p hay) phrases)).

Fixpoint lstrip (s : string) : string :=
  match s with
  | EmptyString => EmptyString
  | String c t => if is_space c then lstrip t else s
  end.

Fixpoint rstrip (s : string) : string :=
  match s with
  | EmptyString => EmptyString
  | String c t =>
      match rstrip t with
      | EmptyString => if is_space c then EmptyString else String c EmptyString
      | r => String c r
      end
  end.

(** [s.strip()] *)
Definition strip (s : string) : string := rstrip (lstrip s).

(** [s.split(sep)] for a one-character separator: never empty. *)
Fixpoint split_on (sep : ascii) (s : string) : list string :=
  match s with
  | EmptyString => [EmptyString]
  | String c t =>
      if Ascii.eqb c sep then EmptyString :: split_on sep t
      else match split_on sep t with
           | [] => [String c EmptyString]
           | h :: r => String c h :: r
           end
  end.

(** Maximal runs of the characters satisfying [keep]. *)
Fixpoint runs (keep : ascii -> bool) (s : string) : list string :=
  match s with
  | EmptyString => []
  | String c t =>
      if keep c then
        match t with
        | String d _ =>
            if keep d then
              match runs keep t with
              | h :: r => String c h :: r
              | [] => [String c EmptyString]
              end
            else String c EmptyString :: runs keep t
        | EmptyString => [String c EmptyString]
        end
      else runs keep t
  end.

(** [s.split()]: the white-space separated words. *)
Definition split (s : string) : list string :=
  runs (fun c => negb (is_space c)) s.

(** [re.findall(r'\b\w+\b', s)] *)
Definition findall_words (s : string) : list string := runs is_word s.

(** [s.count(sub)] for a non-empty [sub]: occurrences that do not overlap,
    scanned from the left.  [skip] is the number of characters still
    covered by the last occurrence. *)
Fixpoint count_from (skip : nat) (sub s : string) : Z :=
  match s with
  | EmptyString => 0%Z
  | String _ t =>
      match skip with
      | S k => count_from k sub t
      | O => if startswith sub s
             then (1 + count_from (String.length sub - 1) sub t)%Z
             else count_from 0 sub t
      end
  end.

Definition count (sub s : string) : Z := count_from 0 sub s.

Fixpoint drop (n : nat) (s : string) : string :=
  match n, s with
  | O, _ => s
  | S _, EmptyString => EmptyString
  | S k, String _ t => drop k t
  end.

(** [s[-n:]] for [n > 0] *)
Definition last_chars (n : nat) (s : string) : string :=
  drop (String.length s - n) s.

(** [s.endswith(p)] *)
Definition endswith (p s : string) : bool :=
  (String.length p <=? String.length s)
  && String.eqb (drop (String.length s - String.length p) s) p.

(** [len(set(l))] *)
Definition dedup (l : list string) : list string :=
  nodup string_dec l.

(** [len(a.intersection(b))] on the sets of two lists. *)
Definition inter_size (a b : list string) : Z :=
  Z.of_nat (List.length
    (filter (fun x => existsb (String.eqb x) b) (dedup a))).

(** [sep.join(l)] with an empty separator, [n] copies: used for examples. *)
Fixpoint repeat_str (s : string) (n : nat) : string :=
  match n with
  | O => EmptyString
  | S k => s ++ repeat_str s k
  end.

End Str.

(** ** Numbers *)

Local Open Scope Q_scope.

(** [z] as a float. *)
Definition of_int (z : Z) : Q := inject_Z z.

(** [int(x)]: truncation towards zero. *)
Definition int (x : Q) : Z := Z.quot (Qnum x) (Z.pos (Qden x)).

(** [x < y], [x <= y] as tests. *)
Definition Qltb (x y : Q) : bool := negb (Qle_bool y x).
Definition Qleb (x y : Q) : bool := Qle_bool x y.

(** ** The analysis dictionaries *)

Record ContentAnalysis := mkContent {
  word_count : Z;
  sentence_count : Z;
  relevance_score : Q;
  depth_score : Q;
  has_examples : bool
}.

Record WordTypes := mkWordTypes { nouns : Z; verbs : Z; adjectives : Z }.

Record LinguisticAnalysis := mkLinguistic {
  readability_score : Q;
  grade_level : Q;
  avg_sentence_length : Q;
  vocabulary_diversity : Q;
  word_types : WordTypes
}.

Record TechnicalAnalysis := mkTechnical {
  technical_categories : list (string * Z);
  role_technical_score : Z;
  has_code_example : bool;
  overall_technical_score : Q
}.

Record StructureAnalysis := mkStructure {
  star_score : Z;
  star_components : list (string * bool);
  has_logical_flow : bool;
  has_introduction : bool;
  has_conclusion : bool;
  structure_score : Z
}.

Record ConfidenceAnalysis := mkConfidence {
  confidence_score : Z;
  high_confidence_indicators : Z;
  low_confidence_indicators : Z;
  hedge_word_count : Z;
  sentiment_score : Q
}.

Record CompletenessAnalysis := mkCompleteness {
  completeness_word_count : Z;
  length_score : Q;
  addresses_all_parts : bool;
  completeness_score : Q
}.

(** The value of the key ['scores']. *)
Module Scores.
Record t := mk {
  overall_score : Q;
  content_score : Q;
  technical_score : Q;
  structure_score : Q;
  confidence_score : Q;
  completeness_score : Q;
  communication_score : Q
}.
End Scores.

(** The dictionary literal of [analyze], before ['scores'] is stored in it. *)
Record SubAnalyses := mkSub {
  content_analysis : ContentAnalysis;
  linguistic_analysis : LinguisticAnalysis;
  technical_analysis : TechnicalAnalysis;
  structure_analysis : StructureAnalysis;
  confidence_analysis : ConfidenceAnalysis;
  completeness_analysis : CompletenessAnalysis
}.

(** What [analyze] returns: the full dictionary, or the one of
    [_generate_insufficient_answer_analysis], which holds one or three keys
    per sub-dictionary and no ['linguistic_analysis']. *)
Inductive Analysis :=
| FullAnalysis (sub : SubAnalyses) (scores : Scores.t)
| MinimalAnalysis
    (m_relevance_score m_depth_score : Z) (m_word_count : Z)
    (m_overall_technical_score m_structure_score m_confidence_score
       m_completeness_score : Z)
    (scores : Scores.t).

(** The output of a spaCy pipeline on a text, as far as the analyzer reads
    it: [len(doc)], [len(list(doc.sents))], the tokens tagged NOUN, VERB and
    ADJ, and the distinct lower-cased lemmas of the alphabetic tokens. *)
Record SpacyDoc := mkDoc {
  doc_len : Z;
  doc_sents : Z;
  doc_nouns : Z;
  doc_verbs : Z;
  doc_adjs : Z;
  doc_lemmas : Z
}.

(** ** services/answer_analyzer.py *)

Module AnswerAnalyzer.

Section Analyzer.

(** The libraries loaded by [__init__].  [textstat] may raise; [self.nlp]
    and [self.sentiment_analyzer] are [None] when loading failed; the
    analyzer's [polarity_scores(answer)['compound']] may raise too. *)
Variable flesch_reading_ease : string -> option Q.
Variable flesch_kincaid_grade : string -> option Q.
Variable nlp : option (string -> SpacyDoc).
Variable sentiment_analyzer : option (string -> option Q).

Definition confidence_keywords_high : list string :=
  ["confident"; "certain"; "definitely"; "absolutely"; "sure"; "positive"].
Definition confidence_keywords_low : list string :=
  ["maybe"; "perhaps"; "might"; "possibly"; "unsure"; "think"; "guess"].

Definition technical_keywords : list (string * list string) :=
  [ ("architecture", ["design"; "architecture"; "pattern"; "structure"; "framework"]);
    ("performance", ["optimize"; "performance"; "speed"; "efficient"; "scalable"]);
    ("security", ["security"; "authentication"; "authorization"; "encryption"; "vulnerability"]);
    ("testing", ["test"; "testing"; "unit test"; "integration"; "debugging"]);
    ("collaboration", ["team"; "collaborate"; "communication"; "meeting"; "review"]) ].

Definition depth_indicators : list string :=
  ["because"; "therefore"; "however"; "additionally"; "furthermore";
   "for example"; "such as"].

Definition example_phrases : list string :=
  ["for example"; "such as"; "like when"; "instance"].

(** [len([s for s in answer.split('.') if s.strip()])] *)
Definition count_sentences (answer : string) : Z :=
  Z.of_nat (List.length
    (filter (fun s => negb (String.eqb (Str.strip s) ""))
            (Str.split_on "." answer))).

Definition count_words (answer : string) : Z :=
  Z.of_nat (List.length (Str.split answer)).

Definition _analyze_content (answer question category : string)
  : ContentAnalysis :=
  let word_count := count_words answer in
  let sentence_count := count_sentences answer in
  let question_keywords := Str.dedup (Str.findall_words (Str.lower question)) in
  let answer_keywords := Str.dedup (Str.findall_words (Str.lower answer)) in
  let relevance_score :=
    of_int (Str.inter_size question_keywords answer_keywords)
    / of_int (Z.max (Z.of_nat (List.length question_keywords)) 1) * 100 in
  let depth_score :=
    (Str.count_present depth_indicators (Str.lower answer) * 10)%Z in
  {| word_count := word_count;
     sentence_count := sentence_count;
     relevance_score := Qmin 100 relevance_score;
     depth_score := of_int (Z.min 100 depth_score);
     has_examples := Str.any_in example_phrases (Str.lower answer) |}.

Definition count_ending (suffixes : list string) (words : list string) : Z :=
  Z.of_nat (List.length
    (filter (fun w => existsb (fun s => Str.endswith s w) suffixes) words)).

Definition _analyze_linguistics (answer : string) : LinguisticAnalysis :=
  let '(readability, grade) :=
    match flesch_reading_ease answer, flesch_kincaid_grade answer with
    | Some r, Some g => (r, g)
    | _, _ => (50, 10)
    end in
  let '(wt, avg_len, diversity) :=
    match nlp with
    | Some pipeline =>
        let doc := pipeline answer in
        (mkWordTypes (doc_nouns doc) (doc_verbs doc) (doc_adjs doc),
         of_int (doc_len doc) / of_int (Z.max (doc_sents doc) 1),
         of_int (doc_lemmas doc) / of_int (Z.max (doc_len doc) 1))
    | None =>
        let words := Str.split answer in
        let n := Z.of_nat (List.length words) in
        (mkWordTypes (count_ending ["tion"; "ness"] words)
                     (count_ending ["ed"; "ing"] words)
                     (count_ending ["ly"] words),
         of_int n
         / of_int (Z.max (Z.of_nat (List.length (Str.split_on "." answer))) 1),
         of_int (Z.of_nat (List.length (Str.dedup words)))
         / of_int (Z.max n 1))
    end in
  {| readability_score := Qmax 0 (Qmin 100 readability);
     grade_level := grade;
     avg_sentence_length := avg_len;
     vocabulary_diversity := diversity * 100;
     word_types := wt |}.

Definition role_terms : list (string * list string) :=
  [ ("software engineer", ["algorithm"; "data structure"; "api"; "framework"; "library"; "debugging"]);
    ("frontend developer", ["responsive"; "dom"; "css"; "javascript"; "react"; "vue"; "angular"]);
    ("backend developer", ["database"; "server"; "api"; "microservices"; "authentication"; "caching"]);
    ("data scientist", ["model"; "dataset"; "analysis"; "statistics"; "machine learning"; "visualization"]);
    ("devops engineer", ["deployment"; "infrastructure"; "monitoring"; "automation"; "pipeline"; "container"]) ].

Definition _get_role_technical_terms (job_role : string) : list string :=
  let role_lower := Str.lower job_role in
  match find (fun rt => Str.contains (fst rt) role_lower) role_terms with
  | Some rt => snd rt
  | None => ["technology"; "system"; "solution"; "implementation"; "development"]
  end.

Definition Zsum (l : list Z) : Z := fold_right Z.add 0%Z l.

Definition _analyze_technical_content (answer job_role : string)
  : TechnicalAnalysis :=
  let answer_lower := Str.lower answer in
  let technical_scores :=
    map (fun kv => (fst kv,
                    Z.min 100 (Str.count_present (snd kv) answer_lower * 20)))
        technical_keywords in
  let role_term_count :=
    Str.count_present (_get_role_technical_terms job_role) answer_lower in
  {| technical_categories := technical_scores;
     role_technical_score := Z.min 100 (role_term_count * 15);
     has_code_example :=
       Str.any_in ["function"; "class"; "method"; "algorithm";
                   "data structure"; "database"] answer_lower;
     overall_technical_score :=
       of_int (Zsum (map snd technical_scores))
       / of_int (Z.max (Z.of_nat (List.length technical_scores)) 1) |}.

Definition star_indicators : list (string * list string) :=
  [ ("situation", ["situation"; "context"; "background"; "when"; "where"]);
    ("task", ["task"; "responsibility"; "goal"; "objective"; "needed to"]);
    ("action", ["action"; "did"; "implemented"; "developed"; "created"; "decided"]);
    ("result", ["result"; "outcome"; "achieved"; "improved"; "increased"; "successful"]) ].

Definition flow_indicators : list string :=
  ["first"; "then"; "next"; "finally"; "in conclusion"; "therefore"].

Definition conclusion_phrases : list string :=
  ["in conclusion"; "to summarize"; "overall"; "in summary"].

Definition _analyze_structure (answer category : string) : StructureAnalysis :=
  let star_components :=
    if String.eqb category "behavioral" then
      map (fun ci => (fst ci, Str.any_in (snd ci) (Str.lower answer)))
          star_indicators
    else [] in
  let star_score :=
    fold_left (fun (acc : Z) (cb : string * bool) =>
                 if snd cb then (acc + 25)%Z else acc)
              star_components 0%Z in
  let has_logical_flow :=
    (0 <? Str.count_present flow_indicators (Str.lower answer))%Z in
  let has_introduction :=
    if Str.contains "." answer then
      (20 <? String.length (hd "" (Str.split_on "." answer)))%nat
    else false in
  let has_conclusion :=
    Str.any_in conclusion_phrases (Str.last_chars 100 (Str.lower answer)) in
  {| star_score := star_score;
     star_components := star_components;
     has_logical_flow := has_logical_flow;
     has_introduction := has_introduction;
     has_conclusion := has_conclusion;
     structure_score :=
       (star_score + (if has_logical_flow then 25 else 0)
        + (if has_introduction then 15 else 0)
        + (if has_conclusion then 10 else 0))%Z |}.

Definition hedge_words : list string :=
  ["kind of"; "sort of"; "i think"; "i believe"; "probably"; "maybe"].

(** The argument of the clamp in [_analyze_confidence], for given word
    lists. *)
Definition confidence_formula (high low hedge : list string)
    (answer_lower : string) : Z :=
  (Str.count_present high answer_lower * 15
   - Str.count_present low answer_lower * 10
   - Str.count_present hedge answer_lower * 5 + 50)%Z.

Definition _analyze_confidence (answer : string) : ConfidenceAnalysis :=
  let answer_lower := Str.lower answer in
  let high_confidence := Str.count_present confidence_keywords_high answer_lower in
  let low_confidence := Str.count_present confidence_keywords_low answer_lower in
  let hedge_count := Str.count_present hedge_words answer_lower in
  let confidence_score :=
    Z.max 0 (Z.min 100
      (confidence_formula confidence_keywords_high confidence_keywords_low
                          hedge_words answer_lower)) in
  let sentiment_score :=
    match sentiment_analyzer with
    | Some polarity =>
        match polarity answer with
        | Some compound => Qmax 0 (Qmin 100 ((compound + 1) * 50))
        | None => 50
        end
    | None => 50
    end in
  {| confidence_score := confidence_score;
     high_confidence_indicators := high_confidence;
     low_confidence_indicators := low_confidence;
     hedge_word_count := hedge_count;
     sentiment_score := sentiment_score |}.

Definition expected_lengths : list (string * (Z * Z)) :=
  [ ("technical", (100, 300)%Z); ("behavioral", (150, 400)%Z);
    ("situational", (100, 250)%Z); ("general", (50, 200)%Z) ].

(** [expected_lengths.get(category, (100, 250))] *)
Definition expected_length (category : string) : Z * Z :=
  match find (fun kv => String.eqb (fst kv) category) expected_lengths with
  | Some kv => snd kv
  | None => (100, 250)%Z
  end.

Definition _analyze_completeness (answer question category : string)
  : CompletenessAnalysis :=
  let word_count := count_words answer in
  let '(min_length, max_length) := expected_length category in
  let length_score :=
    if (word_count <? min_length)%Z then
      of_int word_count / of_int min_length * 70
    else if (max_length <? word_count)%Z then
      Qmax 70 (100 - of_int (word_count - max_length) / of_int max_length * 30)
    else 100 in
  let question_parts :=
    (Str.count "?" question + Str.count "and" question
     + Str.count "or" question)%Z in
  let question_parts := Z.max 1 question_parts in
  let addresses_all_parts :=
    (question_parts <=? Z.of_nat (List.length (Str.split_on "." answer)))%Z in
  {| completeness_word_count := word_count;
     length_score := length_score;
     addresses_all_parts := addresses_all_parts;
     completeness_score :=
       (length_score + (if addresses_all_parts then 20 else 0)) / (12 # 10) |}.

(** The weights of [_calculate_scores]: 0.25, 0.25, 0.20, 0.15, 0.15. *)
Definition weight_content : Q := 25 # 100.
Definition weight_technical : Q := 25 # 100.
Definition weight_structure : Q := 20 # 100.
Definition weight_confidence : Q := 15 # 100.
Definition weight_completeness : Q := 15 # 100.

Definition _calculate_scores (analysis : SubAnalyses) : Scores.t :=
  let content_score :=
    (relevance_score (content_analysis analysis)
     + depth_score (content_analysis analysis)) / 2 in
  let technical_score :=
    overall_technical_score (technical_analysis analysis) in
  let structure_score :=
    of_int (structure_score (structure_analysis analysis)) in
  let confidence_score :=
    of_int (confidence_score (confidence_analysis analysis)) in
  let completeness_score :=
    completeness_score (completeness_analysis analysis) in
  let overall_score :=
    content_score * weight_content
    + technical_score * weight_technical
    + structure_score * weight_structure
    + confidence_score * weight_confidence
    + completeness_score * weight_completeness in
  {| Scores.overall_score := Qmin 100 (Qmax 0 overall_score);
     Scores.content_score := content_score;
     Scores.technical_score := technical_score;
     Scores.structure_score := structure_score;
     Scores.confidence_score := confidence_score;
     Scores.completeness_score := completeness_score;
     Scores.communication_score :=
       (readability_score (linguistic_analysis analysis) + confidence_score) / 2 |}.

Definition _generate_insufficient_answer_analysis : Analysis :=
  MinimalAnalysis 0 0 0 0 0 0 0
    {| Scores.overall_score := 0;
       Scores.content_score := 0;
       Scores.technical_score := 0;
       Scores.structure_score := 0;
       Scores.confidence_score := 0;
       Scores.completeness_score := 0;
       Scores.communication_score := 0 |}.

(** The six sub-analyses of the normal path of [analyze]. *)
Definition sub_analyses (question answer category job_role : string)
  : SubAnalyses :=
  {| content_analysis := _analyze_content answer question category;
     linguistic_analysis := _analyze_linguistics answer;
     technical_analysis := _analyze_technical_content answer job_role;
     structure_analysis := _analyze_structure answer category;
     confidence_analysis := _analyze_confidence answer;
     completeness_analysis := _analyze_completeness answer question category |}.

Definition analyze (question answer category job_role : string) : Analysis :=
  if String.eqb answer "" || (String.length (Str.strip answer) <? 10)%nat then
    _generate_insufficient_answer_analysis
  else
    let analysis := sub_analyses question answer category job_role in
    FullAnalysis analysis (_calculate_scores analysis).

End Analyzer.

End AnswerAnalyzer.

(** ** The module [random]

    A computation reads raw draws from a tape (an exhausted tape yields 0)
    and either returns a value with the rest of the tape or raises. *)

Module Random.

Local Open Scope nat_scope.

Inductive exn := ValueError | KeyError | IndexError | OverflowError.

Inductive result (A : Type) :=
| Ok (a : A)
| Raise (e : exn).
Arguments Ok {A} a.
Arguments Raise {A} e.

Definition tape := list nat.

Definition M (A : Type) : Type := tape -> result (A * tape).

Definition ret {A} (a : A) : M A := fun t => Ok (a, t).

Definition bind {A B} (c : M A) (k : A -> M B) : M B :=
  fun t => match c t with
           | Ok (a, t') => k a t'
           | Raise e => Raise e
           end.

Definition raise {A} (e : exn) : M A := fun _ => Raise e.

Definition draw : M nat :=
  fun t => match t with
           | [] => Ok (0, [])
           | x :: t' => Ok (x, t')
           end.

(** [_randbelow(n)] for [n > 0]: uniform on [0 .. n-1]. *)
Definition randbelow (n : nat) : M nat :=
  bind draw (fun x => ret (x mod n)).

(** [random.choice(seq)] *)
Definition choice {A} (seq : list A) : M A :=
  match seq with
  | [] => raise IndexError
  | d :: _ => bind (randbelow (List.length seq)) (fun j => ret (nth j seq d))
  end.

(** One round of the selection loop of [random.sample]:
    [result[i] = pool[j]; pool[j] = pool[n-i-1]], the pool then being one
    shorter. *)
Fixpoint take_at {A} (j : nat) (pool : list A) {struct pool}
  : option (A * list A) :=
  match pool with
  | [] => None
  | a :: rest =>
      match j with
      | O => Some (a, match rest with
                      | [] => []
                      | _ :: _ => last rest a :: removelast rest
                      end)
      | S j' => match take_at j' rest with
                | Some (x, rest') => Some (x, a :: rest')
                | None => None
                end
      end
  end.

Fixpoint sample_loop {A} (k : nat) (pool : list A) : M (list A) :=
  match k with
  | O => ret []
  | S k' =>
      bind (randbelow (List.length pool)) (fun j =>
      match take_at j pool with
      | Some (x, pool') => bind (sample_loop k' pool') (fun r => ret (x :: r))
      | None => ret []
      end)
  end.

(** [random.sample(population, k)]: [ValueError] unless [0 <= k <= n].
    The selection loop is the one CPython runs on a copy of the population;
    for a large population and a small [k] CPython tracks the chosen
    positions in a set instead, with the same outcomes. *)
Definition sample {A} (population : list A) (k : Z) : M (list A) :=
  if ((k <? 0) || (Z.of_nat (List.length population) <? k))%Z
  then raise ValueError
  else sample_loop (Z.to_nat k) population.

Fixpoint set_nth {A} (i : nat) (v : A) (l : list A) : list A :=
  match l, i with
  | [], _ => []
  | _ :: t, O => v :: t
  | a :: t, S i' => a :: set_nth i' v t
  end.

(** [x[i], x[j] = x[j], x[i]] *)
Definition swap {A} (i j : nat) (x : list A) : list A :=
  match nth_error x i, nth_error x j with
  | Some a, Some b => set_nth i b (set_nth j a x)
  | _, _ => x
  end.

(** [for i in reversed(range(1, len(x)))], entered with [i = len(x) - 1]. *)
Fixpoint shuffle_loop {A} (i : nat) (x : list A) : M (list A) :=
  match i with
  | O => ret x
  | S i' => bind (randbelow (S i)) (fun j => shuffle_loop i' (swap i j x))
  end.

(** [random.shuffle(x)], returning the shuffled list. *)
Definition shuffle {A} (x : list A) : M (list A) :=
  shuffle_loop (List.length x - 1) x.

End Random.

Import Random.

Declare Scope monad_scope.
Notation "x <- c ;; k" := (Random.bind c (fun x => k))
  (at level 61, c at next level, right associativity) : monad_scope.

(** ** Dictionaries with string keys, in insertion order *)

Module Dict.

(** [d[key]]: a missing key raises [KeyError]. *)
Definition lookup {V} (key : string) (d : list (string * V)) : M V :=
  match find (fun kv => String.eqb (fst kv) key) d with
  | Some kv => ret (snd kv)
  | None => raise KeyError
  end.

(** [d.get(key, default)] *)
Definition get {V} (key : string) (d : list (string * V)) (default : V) : V :=
  match find (fun kv => String.eqb (fst kv) key) d with
  | Some kv => snd kv
  | None => default
  end.

End Dict.

(** ** Floats where rounding decides an integer

    The quotas of the question generator are [int(total_count * 0.4)] and
    the like: there the product is computed in IEEE 754 binary64, as the
    Standard Library specifies it ([SpecFloat], precision 53, exponents
    below 1024), not in exact arithmetic. *)

Module Float64.

Definition float : Set := spec_float.

Definition prec : Z := 53.
Definition emax : Z := 1024.

(** [float(n)] for an [int], as [n * 0.4] converts its left operand: the
    nearest float, ties to even; [OverflowError] when that is beyond the
    largest float. *)
Definition of_int (n : Z) : M float :=
  match binary_normalize prec emax n 0 false with
  | S754_infinity _ => raise OverflowError
  | x => ret x
  end.

(** [x * y] *)
Definition mul (x y : float) : float := SFmul prec emax x y.

(** [int(x)]: truncation towards zero. *)
Definition to_int (x : float) : M Z :=
  match x with
  | S754_zero _ => ret 0%Z
  | S754_finite s m e =>
      let a := Z.shiftl (Z.pos m) e in
      ret (if s then (- a)%Z else a)
  | S754_infinity _ => raise OverflowError
  | S754_nan => raise ValueError
  end.

(** The literals [0.4], [0.3], [0.2] and [0.1]: the nearest floats,
    [m * 2^e]. *)
Definition lit_0_4 : float := S754_finite false 7205759403792794 (-54).
Definition lit_0_3 : float := S754_finite false 5404319552844595 (-54).
Definition lit_0_2 : float := S754_finite false 7205759403792794 (-55).
Definition lit_0_1 : float := S754_finite false 7205759403792794 (-56).

End Float64.

(** ** services/question_generator.py *)

Module QuestionGenerator.

Local Open Scope monad_scope.
Local Open Scope Z_scope.

(** A question dictionary; the keys ['skill'], ['role'] and
    ['expectedAnswer'] are present on some kinds of question only. *)
Record Question := mkQuestion {
  question : string;
  category : string;
  difficulty : string;
  skill : option string;
  role : option string;
  expectedAnswer : option string
}.

Definition technical_templates : list (string * list string) :=
  [ ("easy",
     [ "What is {skill} and how have you used it?";
       "Explain the basics of {skill}.";
       "What are the main features of {skill}?";
       "How would you describe {skill} to a beginner?";
       "What drew you to learning {skill}?" ]);
    ("medium",
     [ "Describe a project where you used {skill}. What challenges did you face?";
       "How would you optimize performance in a {skill} application?";
       "What are the best practices you follow when working with {skill}?";
       "Compare {skill} with similar technologies. What are the pros and cons?";
       "Walk me through how you would debug an issue in {skill}." ]);
    ("hard",
     [ "Design a scalable system using {skill}. What architecture would you choose?";
       "How would you handle concurrency issues in {skill}?";
       "Explain the internals of {skill}. How does it work under the hood?";
       "What are the security considerations when using {skill}?";
       "How would you migrate a large codebase from another technology to {skill}?" ]) ].

Definition behavioral_templates : list (string * list string) :=
  [ ("easy",
     [ "Tell me about yourself and your background.";
       "Why are you interested in this role?";
       "What are your greatest strengths?";
       "Where do you see yourself in 5 years?";
       "Why do you want to work for our company?" ]);
    ("medium",
     [ "Describe a time when you had to learn a new technology quickly.";
       "Tell me about a challenging project you worked on.";
       "How do you handle working under pressure?";
       "Describe a time when you had to work with a difficult team member.";
       "What's the most innovative solution you've implemented?" ]);
    ("hard",
     [ "Tell me about a time when you failed and how you handled it.";
       "Describe a situation where you had to make a decision with incomplete information.";
       "How would you handle a disagreement with your manager about technical direction?";
       "Tell me about a time when you had to convince others to adopt your approach.";
       "Describe the most complex problem you've solved and your approach." ]) ].

Definition situational_templates : list (string * list string) :=
  [ ("easy",
     [ "How would you approach learning a new programming language?";
       "What would you do if you encountered a bug you couldn't solve?";
       "How do you stay updated with new technologies?";
       "What's your process for code review?";
       "How do you prioritize tasks when everything seems urgent?" ]);
    ("medium",
     [ "Your team is behind schedule on a project. How would you help catch up?";
       "You discover a security vulnerability in production. What's your approach?";
       "How would you onboard a new team member?";
       "A client wants a feature that you think is technically unfeasible. How do you handle it?";
       "You disagree with a design decision made by a senior developer. What do you do?" ]);
    ("hard",
     [ "The system is down and customers are complaining. Walk me through your incident response.";
       "You need to choose between two architectural approaches with different trade-offs. How do you decide?";
       "Your team wants to adopt a new technology, but management is resistant. How do you proceed?";
       "You've inherited a legacy codebase with poor documentation. How do you approach modernizing it?";
       "A critical team member just quit before a major deadline. How do you manage the situation?" ]) ].

Definition general_templates : list (string * list string) :=
  [ ("easy",
     [ "What interests you most about software development?";
       "How do you approach problem-solving?";
       "What's your preferred development environment?";
       "How do you handle feedback on your code?";
       "What motivates you in your work?" ]);
    ("medium",
     [ "Describe your ideal work environment.";
       "How do you balance technical debt with new feature development?";
       "What's your approach to testing?";
       "How do you ensure code quality in your projects?";
       "What's the most important skill for a developer to have?" ]);
    ("hard",
     [ "How do you evaluate and choose between different technical solutions?";
       "What's your philosophy on software architecture?";
       "How do you measure the success of a software project?";
       "What role should developers play in product decisions?";
       "How do you balance innovation with stability in software development?" ]) ].

Definition question_templates : list (string * list (string * list string)) :=
  [ ("technical", technical_templates); ("behavioral", behavioral_templates);
    ("situational", situational_templates); ("general", general_templates) ].

Definition role_specific_questions
  : list (string * list (string * list string)) :=
  [ ("software engineer",
     [ ("technical",
        [ "Explain the difference between synchronous and asynchronous programming.";
          "How would you design a REST API for a social media platform?";
          "What are the SOLID principles and why are they important?";
          "Explain the concept of Big O notation with examples.";
          "How do you ensure your code is maintainable and scalable?" ]);
       ("coding",
        [ "Write a function to reverse a string without using built-in methods.";
          "Implement a binary search algorithm.";
          "How would you find the duplicate number in an array?";
          "Design a data structure for a LRU cache.";
          "Write code to detect if a linked list has a cycle." ]) ]);
    ("frontend developer",
     [ ("technical",
        [ "Explain the difference between var, let, and const in JavaScript.";
          "How does the virtual DOM work in React?";
          "What are CSS Grid and Flexbox? When would you use each?";
          "Explain event bubbling and capturing in JavaScript.";
          "How do you optimize web application performance?" ]) ]);
    ("backend developer",
     [ ("technical",
        [ "Explain the difference between SQL and NoSQL databases.";
          "How would you design a database schema for an e-commerce platform?";
          "What are microservices and their advantages?";
          "How do you handle authentication and authorization?";
          "Explain caching strategies and when to use them." ]) ]);
    ("data scientist",
     [ ("technical",
        [ "Explain the difference between supervised and unsupervised learning.";
          "How would you handle missing data in a dataset?";
          "What is overfitting and how do you prevent it?";
          "Explain the bias-variance tradeoff.";
          "How do you evaluate the performance of a machine learning model?" ]) ]) ].

Definition len {A} (l : list A) : Z := Z.of_nat (List.length l).

(** The keys ['technical'], ['behavioral'], ['situational'], ['general']. *)
Record Distribution := mkDistribution {
  technical : Z;
  behavioral : Z;
  situational : Z;
  general : Z
}.

(** [int(total_count * c)] for a float literal [c]: the count is converted
    to a float, the product is rounded to binary64 and truncated. *)
Definition int_times (total_count : Z) (c : Float64.float) : M Z :=
  x <- Float64.of_int total_count ;;
  Float64.to_int (Float64.mul x c).

Definition _get_question_distribution (total_count : Z) : M Distribution :=
  if total_count <=? 5 then
    ret {| technical := Z.max 1 (total_count / 2);
           behavioral := Z.max 1 (total_count / 3);
           situational := Z.max 1 (total_count / 4);
           general := Z.max 0 (total_count - total_count / 2
                               - total_count / 3 - total_count / 4) |}
  else
    tech <- int_times total_count Float64.lit_0_4 ;;
    behav <- int_times total_count Float64.lit_0_3 ;;
    situ <- int_times total_count Float64.lit_0_2 ;;
    gen <- int_times total_count Float64.lit_0_1 ;;
    ret {| technical := Z.max 2 tech;
           behavioral := Z.max 2 behav;
           situational := Z.max 1 situ;
           general := Z.max 1 gen |}.

(** [template.format(skill=skill)] on a template whose only replacement
    field is [{skill}]. *)
Fixpoint format_skill (template skill : string) (skip : nat) : string :=
  match template with
  | EmptyString => EmptyString
  | String c t =>
      match skip with
      | S k => format_skill t skill k
      | O => if Str.startswith "{skill}" template
             then (skill ++ format_skill t skill 6)%string
             else String c (format_skill t skill 0)
      end
  end.

(** The body of the [for i, skill in enumerate(selected_skills)] loop. *)
Fixpoint technical_loop (i : Z) (selected_skills : list string) (count : Z)
    (difficulty : string) (templates : list string) : M (list Question) :=
  match selected_skills with
  | [] => ret []
  | skill :: rest =>
      if count <=? i then ret []
      else
        template <- choice templates ;;
        r <- technical_loop (i + 1) rest count difficulty templates ;;
        ret ({| question := format_skill template skill 0;
                category := "technical";
                difficulty := difficulty;
                skill := Some skill;
                role := None;
                expectedAnswer :=
                  Some ("Expected to demonstrate knowledge of " ++ skill
                        ++ " with practical examples.")%string |} :: r)
  end.

Definition _generate_technical_questions (skills : list string) (count : Z)
    (difficulty : string) : M (list Question) :=
  by_level <- Dict.lookup "technical" question_templates ;;
  templates <- Dict.lookup difficulty by_level ;;
  selected_skills <- sample skills (Z.min (len skills) count) ;;
  technical_loop 0 selected_skills count difficulty templates.

(** The candidate questions of the first role key found in the lower-cased
    job role: every list of that role, each under its own category. *)
Definition role_pool (job_role : string) : list Question :=
  match find (fun rk => Str.contains (fst rk) (Str.lower job_role))
             role_specific_questions with
  | Some rk =>
      flat_map (fun cq =>
        map (fun q =>
               {| question := q;
                  category := if String.eqb (fst cq) "technical"
                              then "technical" else fst cq;
                  difficulty := "medium";
                  skill := None;
                  role := Some job_role;
                  expectedAnswer := None |})
            (snd cq))
        (snd rk)
  | None => []
  end.

Definition _generate_role_specific_questions (job_role : string) (count : Z)
  : M (list Question) :=
  let role_questions := role_pool job_role in
  match role_questions with
  | [] => ret []
  | _ :: _ => sample role_questions (Z.min (len role_questions) count)
  end.

(** The shared shape of the behavioral, situational and general
    generators. *)
Definition from_templates (kind expected : string) (count : Z)
    (difficulty : string) : M (list Question) :=
  by_level <- Dict.lookup kind question_templates ;;
  templates <- Dict.lookup difficulty by_level ;;
  selected_templates <- sample templates (Z.min (len templates) count) ;;
  ret (map (fun template =>
              {| question := template;
                 category := kind;
                 difficulty := difficulty;
                 skill := None;
                 role := None;
                 expectedAnswer := Some expected |})
           selected_templates).

Definition _generate_behavioral_questions : Z -> string -> M (list Question) :=
  from_templates "behavioral"
    "Expected to use STAR method (Situation, Task, Action, Result) to provide specific examples.".

Definition _generate_situational_questions : Z -> string -> M (list Question) :=
  from_templates "situational"
    "Expected to demonstrate problem-solving approach and decision-making process.".

Definition _generate_general_questions : Z -> string -> M (list Question) :=
  from_templates "general"
    "Expected to show passion, communication skills, and cultural fit.".

(** The resume dictionary, as far as [generate] reads it: the value of
    ['skills'], if the key is there.  The value is a list of strings, as
    [resume_parser] builds it and as the annotation [skills: List[str]] of
    [_generate_technical_questions] says; a dictionary whose ['skills'] is
    of another type is outside this development. *)
Record ResumeData := mkResume { skills : option (list string) }.

Definition difficulty_map : list (string * string) :=
  [ ("beginner", "easy"); ("intermediate", "medium"); ("advanced", "hard") ].

Definition count_category (c : string) (questions : list Question) : Z :=
  len (filter (fun q => String.eqb (category q) c) questions).

(** [l[:n]] *)
Definition slice_to {A} (n : Z) (l : list A) : list A :=
  if n <? 0 then firstn (Z.to_nat (len l + n)) l
  else firstn (Z.to_nat n) l.

Definition generate (job_role difficulty : string)
    (resume_data : option ResumeData) (question_count : Z)
  : M (list Question) :=
  let diff_level := Dict.get difficulty difficulty_map "medium" in
  distribution <- _get_question_distribution question_count ;;
  questions <-
    match resume_data with
    | Some {| skills := Some ((_ :: _) as sk) |} =>
        _generate_technical_questions sk (technical distribution) diff_level
    | _ => ret []
    end ;;
  role_questions <-
    _generate_role_specific_questions job_role
      (technical distribution - count_category "technical" questions) ;;
  let questions := (questions ++ role_questions)%list in
  behavioral_questions <-
    _generate_behavioral_questions (behavioral distribution) diff_level ;;
  let questions := (questions ++ behavioral_questions)%list in
  situational_questions <-
    _generate_situational_questions (situational distribution) diff_level ;;
  let questions := (questions ++ situational_questions)%list in
  general_questions <-
    _generate_general_questions (general distribution) diff_level ;;
  let questions := (questions ++ general_questions)%list in
  shuffled <- shuffle questions ;;
  ret (slice_to question_count shuffled).

End QuestionGenerator.

(** ** services/feedback_generator.py *)

Module FeedbackGenerator.

Local Open Scope monad_scope.

Definition feedback_templates : list (string * list (string * list string)) :=
  [ ("strengths",
     [ ("high_technical",
        [ "Excellent technical depth and accuracy in your response";
          "Strong demonstration of technical knowledge and expertise";
          "Impressive understanding of technical concepts and implementation";
          "Great technical insight and practical application knowledge" ]);
       ("good_structure",
        [ "Well-structured and organized response";
          "Clear logical flow in your explanation";
          "Excellent use of the STAR method for storytelling";
          "Good progression from problem to solution" ]);
       ("high_confidence",
        [ "Confident and assured delivery";
          "Strong conviction in your responses";
          "Excellent communication confidence";
          "Clear and decisive communication style" ]);
       ("good_examples",
        [ "Great use of specific examples and real-world scenarios";
          "Excellent concrete examples that illustrate your points";
          "Strong practical examples that demonstrate experience";
          "Good use of case studies and specific instances" ]);
       ("comprehensive",
        [ "Comprehensive and thorough response";
          "Complete coverage of all question aspects";
          "Detailed and well-rounded answer";
          "Thorough exploration of the topic" ]) ]);
    ("improvements",
     [ ("low_technical",
        [ "Consider adding more technical details and depth";
          "Include more specific technical examples and implementations";
          "Expand on the technical aspects of your solution";
          "Provide more detailed technical reasoning" ]);
       ("poor_structure",
        [ "Try to organize your response with a clearer structure";
          "Consider using the STAR method for behavioral questions";
          "Improve the logical flow of your explanation";
          "Structure your answer with clear beginning, middle, and end" ]);
       ("low_confidence",
        [ "Speak with more confidence and conviction";
          "Reduce hedge words like 'maybe' and 'I think'";
          "Be more assertive in your responses";
          "Practice speaking with greater certainty" ]);
       ("insufficient_examples",
        [ "Include more specific examples from your experience";
          "Add concrete scenarios to illustrate your points";
          "Provide real-world examples to support your answers";
          "Use more detailed case studies and specific instances" ]);
       ("incomplete",
        [ "Provide more comprehensive coverage of the question";
          "Address all parts of the multi-part question";
          "Expand your response to be more thorough";
          "Include more detail to fully answer the question" ]);
       ("too_brief",
        [ "Expand your response with more detail and examples";
          "Provide a more comprehensive answer";
          "Add more depth to your explanation";
          "Include additional context and background" ]);
       ("too_verbose",
        [ "Try to be more concise while maintaining key points";
          "Focus on the most important aspects of your answer";
          "Streamline your response for better clarity";
          "Practice delivering more focused responses" ]) ]);
    ("suggestions",
     [ ("technical_improvement",
        [ "Practice explaining technical concepts in simple terms";
          "Prepare specific examples of your technical work";
          "Study common technical interview questions for your role";
          "Practice whiteboarding and code explanation" ]);
       ("communication_improvement",
        [ "Practice the STAR method for behavioral questions";
          "Work on speaking with more confidence and less hesitation";
          "Practice structuring your responses clearly";
          "Record yourself answering questions to improve delivery" ]);
       ("preparation_tips",
        [ "Research the company and role more thoroughly";
          "Prepare more specific examples from your experience";
          "Practice common interview questions for your field";
          "Review your resume and be ready to discuss each point" ]) ]) ].

(** [self.feedback_templates[kind][bucket]] *)
Definition templates (kind bucket : string) : M (list string) :=
  by_bucket <- Dict.lookup kind feedback_templates ;;
  Dict.lookup bucket by_bucket.

(** [analysis['scores']] *)
Definition scores_of (analysis : Analysis) : Scores.t :=
  match analysis with
  | FullAnalysis _ scores => scores
  | MinimalAnalysis _ _ _ _ _ _ _ scores => scores
  end.

(** [analysis['content_analysis'].get('has_examples', False)] *)
Definition get_has_examples (analysis : Analysis) : bool :=
  match analysis with
  | FullAnalysis sub _ => has_examples (content_analysis sub)
  | MinimalAnalysis _ _ _ _ _ _ _ _ => false
  end.

(** [analysis['content_analysis'].get('word_count', 0)] *)
Definition get_word_count (analysis : Analysis) : Z :=
  match analysis with
  | FullAnalysis sub _ => word_count (content_analysis sub)
  | MinimalAnalysis _ _ wc _ _ _ _ _ => wc
  end.

(** [analysis['structure_analysis']['star_score']] *)
Definition get_star_score (analysis : Analysis) : M Z :=
  match analysis with
  | FullAnalysis sub _ => ret (star_score (structure_analysis sub))
  | MinimalAnalysis _ _ _ _ _ _ _ _ => raise KeyError
  end.

(** [analysis['confidence_analysis']['hedge_word_count']] *)
Definition get_hedge_word_count (analysis : Analysis) : M Z :=
  match analysis with
  | FullAnalysis sub _ => ret (hedge_word_count (confidence_analysis sub))
  | MinimalAnalysis _ _ _ _ _ _ _ _ => raise KeyError
  end.

(** [if cond: acc.append(random.choice(templates[kind][bucket]))] *)
Definition append_choice (cond : bool) (kind bucket : string)
    (acc : list string) : M (list string) :=
  if cond then
    pool <- templates kind bucket ;;
    s <- choice pool ;;
    ret (acc ++ [s])%list
  else ret acc.

(** [if cond: acc.append(s)] *)
Definition append_if (cond : bool) (s : string) (acc : list string)
  : list string :=
  if cond then (acc ++ [s])%list else acc.

Definition _identify_strengths (analysis : Analysis) : M (list string) :=
  let scores := scores_of analysis in
  strengths <- append_choice (Qleb 75 (Scores.technical_score scores))
                 "strengths" "high_technical" [] ;;
  strengths <- append_choice (Qleb 70 (Scores.structure_score scores))
                 "strengths" "good_structure" strengths ;;
  strengths <- append_choice (Qleb 75 (Scores.confidence_score scores))
                 "strengths" "high_confidence" strengths ;;
  strengths <- append_choice (get_has_examples analysis)
                 "strengths" "good_examples" strengths ;;
  strengths <- append_choice (Qleb 80 (Scores.completeness_score scores))
                 "strengths" "comprehensive" strengths ;;
  let strengths :=
    match strengths with
    | [] => if Qleb 50 (Scores.overall_score scores)
            then ["Good effort in addressing the question"]
            else ["Thank you for providing a response"]
    | _ :: _ => strengths
    end in
  ret (firstn 3 strengths).

Definition _identify_improvements (analysis : Analysis) : M (list string) :=
  let scores := scores_of analysis in
  improvements <- append_choice (Qltb (Scores.technical_score scores) 50)
                    "improvements" "low_technical" [] ;;
  improvements <- append_choice (Qltb (Scores.structure_score scores) 50)
                    "improvements" "poor_structure" improvements ;;
  improvements <- append_choice (Qltb (Scores.confidence_score scores) 60)
                    "improvements" "low_confidence" improvements ;;
  improvements <- append_choice (negb (get_has_examples analysis))
                    "improvements" "insufficient_examples" improvements ;;
  let word_count := get_word_count analysis in
  improvements <-
    (if (word_count <? 50)%Z then
       append_choice true "improvements" "too_brief" improvements
     else
       append_choice (400 <? word_count)%Z "improvements" "too_verbose"
                     improvements) ;;
  improvements <- append_choice (Qltb (Scores.completeness_score scores) 60)
                    "improvements" "incomplete" improvements ;;
  ret (firstn 3 improvements).

Definition _generate_suggestions (analysis : Analysis) : M (list string) :=
  let scores := scores_of analysis in
  suggestions <- append_choice (Qltb (Scores.technical_score scores) 70)
                   "suggestions" "technical_improvement" [] ;;
  suggestions <- append_choice
                   (Qltb (Scores.communication_score scores) 70
                    || Qltb (Scores.structure_score scores) 60)
                   "suggestions" "communication_improvement" suggestions ;;
  suggestions <- append_choice (Qltb (Scores.overall_score scores) 70)
                   "suggestions" "preparation_tips" suggestions ;;
  star <- get_star_score analysis ;;
  let suggestions :=
    append_if (star <? 50)%Z
      "Practice using the STAR method (Situation, Task, Action, Result) for behavioral questions"
      suggestions in
  hedge <- get_hedge_word_count analysis ;;
  let suggestions :=
    append_if (3 <? hedge)%Z
      "Reduce filler words and hedge phrases to sound more confident"
      suggestions in
  let suggestions :=
    match suggestions with
    | [] => ["Continue practicing interview questions to build confidence and improve responses"]
    | _ :: _ => suggestions
    end in
  ret (firstn 4 suggestions).

Record DetailedScores := mkDetailed {
  d_content : Z;
  d_technical : Z;
  d_structure : Z;
  d_completeness : Z
}.

Record FeedbackPacket := mkFeedback {
  score : Z;
  strengths : list string;
  improvements : list string;
  suggestions : list string;
  technicalAccuracy : Z;
  communication : Z;
  confidence : Z;
  detailed_scores : DetailedScores
}.

Definition generate_feedback (analysis : Analysis) : M FeedbackPacket :=
  let scores := scores_of analysis in
  strengths <- _identify_strengths analysis ;;
  improvements <- _identify_improvements analysis ;;
  suggestions <- _generate_suggestions analysis ;;
  let technical_accuracy := Qmin 100 (Scores.technical_score scores) in
  let communication := Qmin 100 (Scores.communication_score scores) in
  let confidence := Qmin 100 (Scores.confidence_score scores) in
  ret {| score := int (Scores.overall_score scores);
         strengths := strengths;
         improvements := improvements;
         suggestions := suggestions;
         technicalAccuracy := int technical_accuracy;
         communication := int communication;
         confidence := int confidence;
         detailed_scores :=
           {| d_content := int (Scores.content_score scores);
              d_technical := int (Scores.technical_score scores);
              d_structure := int (Scores.structure_score scores);
              d_completeness := int (Scores.completeness_score scores) |} |}.

End FeedbackGenerator.

(** ** services/feedback_generator.py: the interview summary *)

Module InterviewSummary.

(** The value of ['feedback'] of a question of the interview, as far as the
    summary reads it: a key that is absent is [None]. *)
Record StoredFeedback := mkStored {
  stored_score : option Q;
  stored_technicalAccuracy : option Q;
  stored_communication : option Q;
  stored_confidence : option Q;
  stored_strengths : option (list string);
  stored_improvements : option (list string)
}.

(** [q.get('feedback')]: [None] when the key is absent or its value is
    empty. *)
Record InterviewQuestion := mkInterviewQuestion {
  feedback : option StoredFeedback
}.

Record InterviewData := mkInterview {
  questions : option (list InterviewQuestion)
}.

(** The two dictionaries [generate_interview_summary] can return. *)
Inductive Summary :=
| NotCompleted (summary : string) (overall_score : Z)
    (strengths areas_for_improvement recommendations : list string)
| Completed (summary : string)
    (overall_score technical_score communication_score confidence_score : Z)
    (strengths areas_for_improvement recommendations : list string)
    (questions_answered total_questions : Z).

Section Summary.

(** [list(set(l))]: the order in which a set of strings is iterated. *)
Variable set_order : list string -> list string.

(** [f"{x:.0f}"] *)
Variable format_0f : Q -> string.

(** [str(n)] *)
Definition str_int (n : Z) : string :=
  DecimalString.NilZero.string_of_int (Z.to_int n).

Definition _generate_interview_recommendations
    (avg_score avg_technical avg_communication : Q) : list string :=
  let recommendations :=
    if Qleb 80 avg_score then
      ["Excellent performance! You're well-prepared for interviews at this level."]
    else if Qleb 70 avg_score then
      ["Good performance with room for improvement in specific areas."]
    else if Qleb 60 avg_score then
      ["Solid foundation but focus on strengthening weaker areas."]
    else
      ["Significant improvement needed. Consider more practice and preparation."] in
  let recommendations :=
    FeedbackGenerator.append_if (Qltb avg_technical 70)
      "Focus on strengthening technical knowledge and practice coding problems."
      recommendations in
  let recommendations :=
    FeedbackGenerator.append_if (Qltb avg_communication 70)
      "Work on communication skills and practice explaining concepts clearly."
      recommendations in
  (recommendations
   ++ ["Continue practicing with mock interviews to build confidence."])%list.

Definition performance (avg_score : Q) : string :=
  if Qleb 80 avg_score then "excellent"
  else if Qleb 70 avg_score then "good"
  else if Qleb 60 avg_score then "satisfactory"
  else "needs improvement".

Definition _generate_summary_text (answered total : Z) (avg_score : Q)
  : string :=
  let completion_rate :=
    if (0 <? total)%Z then of_int answered / of_int total * 100 else 0 in
  "You completed " ++ str_int answered ++ " out of " ++ str_int total
  ++ " questions (" ++ format_0f completion_rate ++ "% completion rate) "
  ++ "with an average score of " ++ format_0f avg_score
  ++ "%. Your overall performance was " ++ performance avg_score ++ ". "
  ++ "Focus on the improvement areas identified to enhance your interview skills.".

(** [[q for q in questions if q.get('feedback')]], as the feedbacks. *)
Fixpoint answered_feedbacks (qs : list InterviewQuestion)
  : list StoredFeedback :=
  match qs with
  | [] => []
  | q :: rest =>
      match feedback q with
      | Some f => f :: answered_feedbacks rest
      | None => answered_feedbacks rest
      end
  end.

(** [sum(q['feedback']['score'] for q in answered_questions)] *)
Fixpoint sum_scores (acc : Q) (fs : list StoredFeedback) : result Q :=
  match fs with
  | [] => Ok acc
  | f :: rest =>
      match stored_score f with
      | Some x => sum_scores (acc + x) rest
      | None => Raise KeyError
      end
  end.

(** [sum(q['feedback'].get(key, 0) for q in answered_questions)] *)
Definition sum_get (key : StoredFeedback -> option Q)
    (fs : list StoredFeedback) : Q :=
  fold_left (fun acc f => acc + match key f with Some x => x | None => 0 end)
            fs 0.

(** The strings collected by [all_strengths.extend(feedback.get(key, []))]. *)
Definition collect (key : StoredFeedback -> option (list string))
    (fs : list StoredFeedback) : list string :=
  flat_map (fun f => match key f with Some l => l | None => [] end) fs.

Definition generate_interview_summary (interview_data : InterviewData)
  : result Summary :=
  let questions :=
    match questions interview_data with Some qs => qs | None => [] end in
  let answered_questions := answered_feedbacks questions in
  match answered_questions with
  | [] => Ok (NotCompleted "Interview not completed" 0 [] [] [])
  | _ :: _ =>
      let n := of_int (Z.of_nat (List.length answered_questions)) in
      match sum_scores 0 answered_questions with
      | Raise e => Raise e
      | Ok total =>
          let avg_score := total / n in
          let avg_technical :=
            sum_get stored_technicalAccuracy answered_questions / n in
          let avg_communication :=
            sum_get stored_communication answered_questions / n in
          let avg_confidence :=
            sum_get stored_confidence answered_questions / n in
          let all_strengths := collect stored_strengths answered_questions in
          let all_improvements :=
            collect stored_improvements answered_questions in
          let unique_strengths := firstn 5 (set_order all_strengths) in
          let unique_improvements := firstn 5 (set_order all_improvements) in
          let recommendations :=
            _generate_interview_recommendations avg_score avg_technical
                                                avg_communication in
          let summary :=
            _generate_summary_text
              (Z.of_nat (List.length answered_questions))
              (Z.of_nat (List.length questions)) avg_score in
          Ok (Completed summary (int avg_score) (int avg_technical)
                (int avg_communication) (int avg_confidence)
                unique_strengths unique_improvements recommendations
                (Z.of_nat (List.length answered_questions))
                (Z.of_nat (List.length questions)))
      end
  end.

End Summary.

End InterviewSummary.

(** ** main.py: the answer endpoint *)

Module Main.

Record AnswerAnalysisRequest := mkAnswerRequest {
  question : string;
  answer : string;
  category : string;
  jobRole : string
}.

(** The outcome of a request: the returned object, or the raised
    [HTTPException]. *)
Inductive Response (A : Type) :=
| Success (body : A)
| HTTPException (status_code : Z) (detail : string).
Arguments Success {A} body.
Arguments HTTPException {A} status_code detail.

Section Service.

(** The libraries of the analyzer, and [str(e)] of a caught exception.
    Here the spaCy pipeline, run on a text, returns a document or raises:
    the call [self.nlp(answer)] of [_analyze_linguistics] stands outside
    any [try] of the analyzer. *)
Variable flesch_reading_ease : string -> option Q.
Variable flesch_kincaid_grade : string -> option Q.
Variable nlp : option (string -> result SpacyDoc).
Variable sentiment_analyzer : option (string -> option Q).
Variable str_exception : exn -> string.

(** [answer_analyzer.analyze(...)] as the endpoint runs it.  The pipeline
    is called once, on the answer, when a model is loaded and the answer is
    not too short; what it raises leaves [analyze]. *)
Definition analyze (question answer category job_role : string)
  : result Analysis :=
  let run doc :=
    Ok (AnswerAnalyzer.analyze flesch_reading_ease flesch_kincaid_grade doc
          sentiment_analyzer question answer category job_role) in
  match nlp with
  | None => run None
  | Some pipeline =>
      if String.eqb answer "" || (String.length (Str.strip answer) <? 10)%nat
      then run None
      else match pipeline answer with
           | Ok doc => run (Some (fun _ => doc))
           | Raise e => Raise e
           end
  end.

Definition analyze_answer (request : AnswerAnalysisRequest) (t : tape)
  : Response FeedbackGenerator.FeedbackPacket :=
  let failed e :=
    HTTPException 500 ("Answer analysis failed: " ++ str_exception e) in
  match analyze (question request) (answer request) (category request)
                (jobRole request) with
  | Ok analysis =>
      match FeedbackGenerator.generate_feedback analysis t with
      | Ok (feedback, _) => Success feedback
      | Raise e => failed e
      end
  | Raise e => failed e
  end.

End Service.

End Main.

(** * Properties *)

(** ** Strings *)

Module StrFacts.

Import Str.

(** [needle] occurs in [hay]. *)
Definition Substring (needle hay : string) : Prop :=
  exists pre post, hay = pre ++ needle ++ post.

Lemma startswith_append (p s : string) : startswith p (p ++ s) = true.
Proof.
  induction p as [|c p IH]; simpl; [reflexivity |].
  now rewrite Ascii.eqb_refl, IH.
Qed.

Lemma startswith_inv (p s : string) :
  startswith p s = true -> exists post, s = p ++ post.
Proof.
  revert s; induction p as [|c p IH]; intros s H.
  - now exists s.
  - destruct s as [|d s]; simpl in H; [discriminate |].
    apply andb_true_iff in H as [Hc Hp].
    apply Ascii.eqb_eq in Hc; subst d.
    destruct (IH _ Hp) as [post ->]. now exists post.
Qed.

Lemma contains_cons (n : string) (c : ascii) (h : string) :
  contains n h = true -> contains n (String c h) = true.
Proof. intros H. cbn [contains]. rewrite H. apply orb_true_r. Qed.

Lemma contains_unfold (n h : string) :
  contains n h =
  startswith n h
  || match h with EmptyString => false | String _ t => contains n t end.
Proof. destruct h; reflexivity. Qed.

(** [in] decides occurrence. *)
Lemma contains_spec (n h : string) : contains n h = true <-> Substring n h.
Proof.
  split.
  - induction h as [|c h IH]; rewrite contains_unfold; intros H;
      apply orb_true_iff in H as [H | H].
    + destruct (startswith_inv _ _ H) as [post ->]. now exists "", post.
    + discriminate.
    + destruct (startswith_inv _ _ H) as [post ->]. now exists "", post.
    + destruct (IH H) as (pre & post & ->). now exists (String c pre), post.
  - intros (pre & post & ->).
    induction pre as [|c pre IH].
    + simpl. rewrite contains_unfold, startswith_append. reflexivity.
    + simpl. now apply contains_cons.
Qed.

Lemma lower_append (a b : string) : lower (a ++ b) = lower a ++ lower b.
Proof. induction a as [|x a IH]; simpl; [reflexivity | now rewrite IH]. Qed.

(** A phrase found in a text is found, lower-cased, in the lower-cased
    text. *)
Lemma Substring_lower (n h : string) :
  Substring n h -> Substring (lower n) (lower h).
Proof.
  intros (pre & post & ->). exists (lower pre), (lower post).
  now rewrite !lower_append.
Qed.

Lemma any_in_spec (phrases : list string) (hay : string) :
  any_in phrases hay = true <-> exists w, In w phrases /\ Substring w hay.
Proof.
  unfold any_in. rewrite existsb_exists.
  split; intros (w & Hin & H); exists w; split; auto;
    now apply contains_spec.
Qed.

Lemma count_present_nonneg (phrases : list string) (hay : string) :
  (0 <= count_present phrases hay)%Z.
Proof. unfold count_present. lia. Qed.

Lemma count_present_pos (phrases : list string) (hay : string) :
  (exists w, In w phrases /\ Substring w hay) ->
  (0 < count_present phrases hay)%Z.
Proof.
  intros (w & Hin & H). unfold count_present.
  assert (In w (filter (fun p => contains p hay) phrases)) as Hf.
  { apply filter_In. split; [assumption | now apply contains_spec]. }
  destruct (filter _ phrases); [contradiction | simpl; lia].
Qed.

(** Counting over a list whose head is [w]. *)
Lemma count_present_cons (w : string) (phrases : list string) (hay : string) :
  count_present (w :: phrases) hay =
  ((if contains w hay then 1 else 0) + count_present phrases hay)%Z.
Proof.
  unfold count_present. simpl. destruct (contains w hay); simpl length; lia.
Qed.

Lemma count_present_app (l1 l2 : list string) (hay : string) :
  count_present (l1 ++ l2) hay =
  (count_present l1 hay + count_present l2 hay)%Z.
Proof.
  unfold count_present. rewrite filter_app, length_app. lia.
Qed.

(** The text before the first full stop. *)
Lemma split_on_first (sep : ascii) (s rest : string) :
  ~ Substring (String sep "") s ->
  hd "" (split_on sep (s ++ String sep rest)) = s.
Proof.
  induction s as [|c s IH]; intros Hno.
  - simpl. now rewrite Ascii.eqb_refl.
  - simpl. destruct (Ascii.eqb c sep) eqn:E.
    + apply Ascii.eqb_eq in E; subst c.
      exfalso. apply Hno. now exists "", s.
    + assert (~ Substring (String sep "") s) as Hno'.
      { intros (pre & post & ->). apply Hno.
        now exists (String c pre), post. }
      specialize (IH Hno').
      destruct (split_on sep (s ++ String sep rest)) as [|h r];
        simpl in IH |- *; now subst.
  Qed.

End StrFacts.

(** ** The answer analyzer *)

Module AnalyzerFacts.

Import Str StrFacts AnswerAnalyzer.

Lemma Qmin_cases (x y : Q) :
  (x <= y /\ Qmin x y == x) \/ (y <= x /\ Qmin x y == y).
Proof.
  destruct (Q.min_spec x y) as [[H E] | [H E]]; [left | right];
    split; auto; lra.
Qed.

Lemma Qmax_cases (x y : Q) :
  (x <= y /\ Qmax x y == y) \/ (y <= x /\ Qmax x y == x).
Proof.
  destruct (Q.max_spec x y) as [[H E] | [H E]]; [left | right];
    split; auto; lra.
Qed.

Ltac pose_min a b :=
  lazymatch goal with
  | _ : Qmin a b == _ |- _ => fail
  | _ => destruct (Qmin_cases a b) as [[? ?] | [? ?]]
  end.

Ltac pose_max a b :=
  lazymatch goal with
  | _ : Qmax a b == _ |- _ => fail
  | _ => destruct (Qmax_cases a b) as [[? ?] | [? ?]]
  end.

(** Case analysis on every minimum and maximum in sight. *)
Ltac qminmax :=
  repeat match goal with
  | |- context [Qmin ?a ?b] => pose_min a b
  | |- context [Qmax ?a ?b] => pose_max a b
  | _ : context [Qmin ?a ?b] |- _ => pose_min a b
  | _ : context [Qmax ?a ?b] |- _ => pose_max a b
  end.

(** C3.  An answer whose trimmed length is below 10 characters (the empty
    answer included) takes the short-circuit of [analyze]: the result is the
    dictionary of [_generate_insufficient_answer_analysis], whatever the
    question, category, job role and loaded libraries are, and each of its
    seven scores is exactly 0. *)
Theorem analyze_short_answer
    (flesch_reading_ease flesch_kincaid_grade : string -> option Q)
    (nlp : option (string -> SpacyDoc))
    (sentiment_analyzer : option (string -> option Q))
    (question answer category job_role : string) :
  (String.length (strip answer) < 10)%nat ->
  let analysis :=
    analyze flesch_reading_ease flesch_kincaid_grade nlp sentiment_analyzer
            question answer category job_role in
  let scores := FeedbackGenerator.scores_of analysis in
  analysis = _generate_insufficient_answer_analysis
  /\ Scores.overall_score scores = 0
  /\ Scores.content_score scores = 0
  /\ Scores.technical_score scores = 0
  /\ Scores.structure_score scores = 0
  /\ Scores.confidence_score scores = 0
  /\ Scores.completeness_score scores = 0
  /\ Scores.communication_score scores = 0.
Proof.
  intros Hlen analysis scores. subst scores analysis. unfold analyze.
  apply Nat.ltb_lt in Hlen. rewrite Hlen, orb_true_r.
  repeat split; reflexivity.
Qed.

Lemma analyze_short_answer_witness :
  (String.length (strip "   yes  ") < 10)%nat
  /\ analyze (fun _ => None) (fun _ => None) None None
             "Why?" "   yes  " "general" "tester"
     = _generate_insufficient_answer_analysis.
Proof.
  split; [vm_compute; lia |].
  apply (analyze_short_answer (fun _ => None) (fun _ => None) None None
           "Why?" "   yes  " "general" "tester").
  vm_compute; lia.
Defined.

(** [x] clamped to the interval from 0 to 100. *)
Definition clamp_0_100 (x : Q) : Q :=
  if Qlt_le_dec x 0 then 0
  else if Qlt_le_dec 100 x then 100
  else x.

(** C6.  The aggregated overall score is the weighted sum
    content x 0.25 + technical x 0.25 + structure x 0.20
    + confidence x 0.15 + completeness x 0.15 clamped to [0,100]; the
    content sub-score is the average of relevance and depth, and the
    communication score the average of readability and confidence. *)
Theorem calculate_scores_weighted_sum (analysis : SubAnalyses) :
  let s := _calculate_scores analysis in
  let content :=
    (relevance_score (content_analysis analysis)
     + depth_score (content_analysis analysis)) / 2 in
  let technical := overall_technical_score (technical_analysis analysis) in
  let structure := of_int (structure_score (structure_analysis analysis)) in
  let confidence := of_int (confidence_score (confidence_analysis analysis)) in
  let completeness := completeness_score (completeness_analysis analysis) in
  Scores.content_score s == content
  /\ Scores.overall_score s ==
     clamp_0_100 (content * (1 # 4) + technical * (1 # 4)
                  + structure * (1 # 5) + confidence * (3 # 20)
                  + completeness * (3 # 20))
  /\ Scores.communication_score s ==
     (readability_score (linguistic_analysis analysis) + confidence) / 2.
Proof.
  cbv zeta. unfold _calculate_scores. cbn [Scores.content_score
    Scores.overall_score Scores.communication_score].
  split; [reflexivity |]. split; [| reflexivity].
  unfold clamp_0_100, weight_content, weight_technical, weight_structure,
    weight_confidence, weight_completeness.
  set (c := (relevance_score _ + depth_score _) / 2).
  set (t := overall_technical_score _).
  set (st := of_int (structure_score _)).
  set (cf := of_int (confidence_score _)).
  set (cp := completeness_score _).
  destruct (Qlt_le_dec _ 0) as [Hneg | Hpos];
    [| destruct (Qlt_le_dec 100 _) as [Hbig | Hsmall]];
    qminmax; lra.
Qed.

(** Equality of floats, field by field. *)
Definition content_eq (a b : ContentAnalysis) : Prop :=
  word_count a = word_count b /\ sentence_count a = sentence_count b
  /\ relevance_score a == relevance_score b
  /\ depth_score a == depth_score b
  /\ has_examples a = has_examples b.

Definition linguistic_eq (a b : LinguisticAnalysis) : Prop :=
  readability_score a == readability_score b
  /\ grade_level a == grade_level b
  /\ avg_sentence_length a == avg_sentence_length b
  /\ vocabulary_diversity a == vocabulary_diversity b
  /\ word_types a = word_types b.

Definition technical_eq (a b : TechnicalAnalysis) : Prop :=
  technical_categories a = technical_categories b
  /\ role_technical_score a = role_technical_score b
  /\ has_code_example a = has_code_example b
  /\ overall_technical_score a == overall_technical_score b.

Definition confidence_eq (a b : ConfidenceAnalysis) : Prop :=
  confidence_score a = confidence_score b
  /\ high_confidence_indicators a = high_confidence_indicators b
  /\ low_confidence_indicators a = low_confidence_indicators b
  /\ hedge_word_count a = hedge_word_count b
  /\ sentiment_score a == sentiment_score b.

Definition completeness_eq (a b : CompletenessAnalysis) : Prop :=
  completeness_word_count a = completeness_word_count b
  /\ length_score a == length_score b
  /\ addresses_all_parts a = addresses_all_parts b
  /\ completeness_score a == completeness_score b.

(** Two analysis dictionaries that compare equal in Python. *)
Definition analysis_eq (a b : SubAnalyses) : Prop :=
  content_eq (content_analysis a) (content_analysis b)
  /\ linguistic_eq (linguistic_analysis a) (linguistic_analysis b)
  /\ technical_eq (technical_analysis a) (technical_analysis b)
  /\ structure_analysis a = structure_analysis b
  /\ confidence_eq (confidence_analysis a) (confidence_analysis b)
  /\ completeness_eq (completeness_analysis a) (completeness_analysis b).

Definition scores_eq (s t : Scores.t) : Prop :=
  Scores.overall_score s == Scores.overall_score t
  /\ Scores.content_score s == Scores.content_score t
  /\ Scores.technical_score s == Scores.technical_score t
  /\ Scores.structure_score s == Scores.structure_score t
  /\ Scores.confidence_score s == Scores.confidence_score t
  /\ Scores.completeness_score s == Scores.completeness_score t
  /\ Scores.communication_score s == Scores.communication_score t.

(** C7.  Aggregation is deterministic: [_calculate_scores] reads neither
    the random tape nor any library, and on two inputs that are equal as
    Python values (the floats possibly written as different fractions) it
    yields equal score sets. *)
Theorem calculate_scores_deterministic (a b : SubAnalyses) :
  analysis_eq a b -> scores_eq (_calculate_scores a) (_calculate_scores b).
Proof.
  intros (Hc & Hl & Ht & Hs & Hf & Hp).
  destruct Hc as (_ & _ & Hrel & Hdep & _).
  destruct Hl as (Hread & _).
  destruct Ht as (_ & _ & _ & Htech).
  destruct Hf as (Hconf & _).
  destruct Hp as (_ & _ & _ & Hcomp).
  unfold scores_eq, _calculate_scores; cbn [Scores.overall_score
    Scores.content_score Scores.technical_score Scores.structure_score
    Scores.confidence_score Scores.completeness_score
    Scores.communication_score].
  rewrite Hrel, Hdep, Htech, Hs, Hconf, Hcomp, Hread.
  repeat split; reflexivity.
Qed.

Definition fraction_analysis (relevance : Q) : SubAnalyses :=
  {| content_analysis := mkContent 120 6 relevance 30 true;
     linguistic_analysis := mkLinguistic 60 9 20 55 (mkWordTypes 30 20 10);
     technical_analysis := mkTechnical [] 30 false 40;
     structure_analysis := mkStructure 50 [] true true false 90;
     confidence_analysis := mkConfidence 65 1 0 0 50;
     completeness_analysis := mkCompleteness 120 100 true 100 |}.

Lemma calculate_scores_deterministic_witness :
  analysis_eq (fraction_analysis (1 # 2)) (fraction_analysis (2 # 4))
  /\ scores_eq (_calculate_scores (fraction_analysis (1 # 2)))
               (_calculate_scores (fraction_analysis (2 # 4))).
Proof.
  assert (analysis_eq (fraction_analysis (1 # 2)) (fraction_analysis (2 # 4)))
    as H by (repeat split; reflexivity).
  split; [exact H |].
  exact (calculate_scores_deterministic _ _ H).
Defined.

(** Every band of [expected_lengths], the default one included, starts
    above 0 and is not empty. *)
Lemma expected_length_ordered (category : string) :
  (0 < fst (expected_length category)
   /\ fst (expected_length category) <= snd (expected_length category))%Z.
Proof.
  unfold expected_length, expected_lengths. cbn [find fst snd].
  repeat match goal with
         | |- context [String.eqb ?a category] =>
             destruct (String.eqb a category)
         end; cbn [fst snd]; lia.
Qed.

(** A question with two parts (one question mark, one "and") and an answer
    of exactly 100 words without a full stop. *)
Definition two_part_question : string := "What is a cache and why use one?".
Definition hundred_words : string := repeat_str "word " 100.

Lemma completeness_at_minimum_counterexample :
  count_words hundred_words = fst (expected_length "technical")
  /\ ~ completeness_score
         (_analyze_completeness hundred_words two_part_question "technical")
       == 100.
Proof.
  split; [vm_compute; reflexivity |].
  vm_compute. discriminate.
Qed.

(** C4, amended.  When the word count of an answer equals the minimum of
    the expected band of its category, the length score is 100 (the
    boundary belongs to the band); the completeness score is then
    (100 + 20) / 1.2 = 100 if the answer addresses all parts of the
    question, and 100 / 1.2 (that is 250/3) if not. *)
Theorem completeness_at_band_minimum (answer question category : string) :
  count_words answer = fst (expected_length category) ->
  let c := _analyze_completeness answer question category in
  length_score c == 100
  /\ completeness_score c
     == (if addresses_all_parts c then 100 else 250 # 3).
Proof.
  intros Hwc. cbv zeta. unfold _analyze_completeness.
  destruct (expected_length_ordered category) as [Hpos Hord].
  destruct (expected_length category) as [mn mx]. cbn [fst snd] in *.
  rewrite Hwc.
  rewrite Z.ltb_irrefl.
  replace (mx <? mn)%Z with false by (symmetry; apply Z.ltb_ge; lia).
  cbn [length_score completeness_score addresses_all_parts].
  split; [reflexivity |].
  destruct (_ <=? _)%Z; reflexivity.
Qed.

Lemma completeness_at_band_minimum_witness :
  count_words hundred_words = fst (expected_length "technical")
  /\ length_score
       (_analyze_completeness hundred_words two_part_question "technical")
     == 100.
Proof.
  split; [vm_compute; reflexivity |].
  apply (completeness_at_band_minimum hundred_words two_part_question
           "technical").
  vm_compute; reflexivity.
Defined.

(** The STAR score when every component has an indicator in the text. *)
Lemma star_score_full (answer_lower : string) :
  (forall component indicators,
      In (component, indicators) star_indicators ->
      any_in indicators answer_lower = true) ->
  fold_left (fun (acc : Z) (cb : string * bool) =>
               if snd cb then (acc + 25)%Z else acc)
            (map (fun ci => (fst ci, any_in (snd ci) answer_lower))
                 star_indicators) 0%Z
  = 100%Z.
Proof.
  intros H. unfold star_indicators in *.
  cbn [map fold_left fst snd].
  repeat match goal with
         | |- context [any_in ?l answer_lower] =>
             rewrite (H _ l) by (cbn [In]; tauto)
         end.
  reflexivity.
Qed.

(** The first sentence of a text as a reader takes it: the characters
    before the first full stop, exclamation mark or question mark, or the
    whole text when it has none of them. *)
Fixpoint first_sentence_as_read (text : string) : string :=
  match text with
  | EmptyString => EmptyString
  | String c rest =>
      if existsb (Ascii.eqb c) ["."; "!"; "?"]%char then EmptyString
      else String c (first_sentence_as_read rest)
  end.

(** A behavioral answer with every structural signal whose sentences end in
    exclamation marks. *)
Definition exclaimed_answer : string :=
  "In this situation my goal was clear and I decided to act! First we achieved it! In conclusion it went well!".

(** C5 as stated fails: [exclaimed_answer] has an indicator of each of the
    four STAR components, a flow marker, a first sentence of 56 characters
    and a conclusion phrase in its last 100 characters, yet its structure
    score is 135, not 150.  The introduction bonus is given only to an
    answer that contains a full stop, and for the characters before the
    first one. *)
Lemma full_marks_without_full_stop_counterexample :
  (forall component indicators,
      In (component, indicators) star_indicators ->
      exists w, In w indicators /\ Substring w (lower exclaimed_answer))
  /\ (exists w, In w flow_indicators /\ Substring w (lower exclaimed_answer))
  /\ (20 < String.length (first_sentence_as_read exclaimed_answer))%nat
  /\ (exists w, In w conclusion_phrases
                /\ Substring w (last_chars 100 (lower exclaimed_answer)))
  /\ has_introduction (_analyze_structure exclaimed_answer "behavioral")
     = false
  /\ structure_score (_analyze_structure exclaimed_answer "behavioral")
     = 135%Z
  /\ structure_score (_analyze_structure exclaimed_answer "behavioral")
     <> 150%Z.
Proof.
  split; [| split; [| split; [| split; [| split; [| split]]]]].
  - intros c inds Hin. apply any_in_spec.
    unfold star_indicators in Hin. cbn [In] in Hin.
    destruct Hin as [E | [E | [E | [E | []]]]];
      inversion E; subst; vm_compute; reflexivity.
  - apply any_in_spec. vm_compute; reflexivity.
  - vm_compute. lia.
  - apply any_in_spec. vm_compute; reflexivity.
  - vm_compute; reflexivity.
  - vm_compute; reflexivity.
  - vm_compute. discriminate.
Qed.

(** C5, amended.  A behavioral answer that contains (in any letter case) an
    indicator phrase of each of the four STAR components and a logical-flow
    marker, that contains a full stop with more than 20 characters before
    the first one, and whose last 100 characters contain a conclusion
    phrase, gets the structure score 150 = 4 x 25 + 25 + 15 + 10: no clamp
    is applied. *)
Theorem structure_score_full_marks (answer first_sentence rest : string) :
  (forall component indicators,
      In (component, indicators) star_indicators ->
      exists w, In w indicators /\ Substring w (lower answer)) ->
  (exists w, In w flow_indicators /\ Substring w (lower answer)) ->
  answer = first_sentence ++ "." ++ rest ->
  ~ Substring "." first_sentence ->
  (20 < String.length first_sentence)%nat ->
  (exists w, In w conclusion_phrases
             /\ Substring w (last_chars 100 (lower answer))) ->
  let s := _analyze_structure answer "behavioral" in
  star_score s = 100%Z
  /\ has_logical_flow s = true
  /\ has_introduction s = true
  /\ has_conclusion s = true
  /\ structure_score s = 150%Z.
Proof.
  intros Hstar Hflow Hsplit Hnodot Hlen Hconcl. cbv zeta.
  assert (fold_left (fun (acc : Z) (cb : string * bool) =>
                       if snd cb then (acc + 25)%Z else acc)
            (map (fun ci => (fst ci, any_in (snd ci) (lower answer)))
                 star_indicators) 0%Z = 100%Z) as Estar.
  { apply star_score_full. intros c inds Hin.
    apply any_in_spec. eauto. }
  assert ((0 <? count_present flow_indicators (lower answer))%Z = true)
    as Eflow.
  { apply Z.ltb_lt. now apply count_present_pos. }
  assert (contains "." answer = true) as Edot.
  { apply contains_spec. exists first_sentence, rest. exact Hsplit. }
  assert ((20 <? String.length (hd "" (split_on "." answer)))%nat = true)
    as Eintro.
  { apply Nat.ltb_lt. rewrite Hsplit.
    change ("." ++ rest) with (String "." rest).
    rewrite split_on_first by exact Hnodot. exact Hlen. }
  assert (any_in conclusion_phrases (last_chars 100 (lower answer)) = true)
    as Econcl.
  { now apply any_in_spec. }
  unfold _analyze_structure.
  change (String.eqb "behavioral" "behavioral") with true. cbv iota.
  cbn [star_score has_logical_flow has_introduction has_conclusion
       structure_score].
  rewrite Estar, Eflow, Edot, Eintro, Econcl.
  repeat split; reflexivity.
Qed.

(** A behavioral answer with every structural signal. *)
Definition star_answer : string :=
  "In this situation my goal was clear and I decided to act. First we achieved it. In conclusion it went well.".

Lemma structure_score_full_marks_witness :
  structure_score (_analyze_structure star_answer "behavioral") = 150%Z.
Proof.
  refine (proj2 (proj2 (proj2 (proj2
    (structure_score_full_marks star_answer
       "In this situation my goal was clear and I decided to act"
       " First we achieved it. In conclusion it went well."
       _ _ _ _ _ _))))).
  - intros c inds Hin. apply any_in_spec.
    unfold star_indicators in Hin. cbn [In] in Hin.
    destruct Hin as [E | [E | [E | [E | []]]]];
      inversion E; subst; vm_compute; reflexivity.
  - apply any_in_spec. vm_compute; reflexivity.
  - reflexivity.
  - intros H. apply contains_spec in H. vm_compute in H. discriminate.
  - vm_compute. lia.
  - apply any_in_spec. vm_compute; reflexivity.
Defined.

(** A word list without the word "maybe". *)
Definition without_maybe (words : list string) : list string :=
  remove string_dec "maybe" words.

(** C10.  When the lower-cased answer contains "maybe", the word is counted
    once among the low-confidence keywords and once among the hedge phrases,
    so the value passed to the clamp of [_analyze_confidence] is 15 below
    the value obtained from the same lists without "maybe": 10 from the
    low-confidence term and 5 from the hedge term. *)
Theorem maybe_counted_twice
    (sentiment_analyzer : option (string -> option Q)) (answer : string) :
  Substring "maybe" (lower answer) ->
  let c := _analyze_confidence sentiment_analyzer answer in
  let pre_clamp :=
    confidence_formula confidence_keywords_high confidence_keywords_low
                       hedge_words (lower answer) in
  confidence_score c = Z.max 0 (Z.min 100 pre_clamp)
  /\ low_confidence_indicators c
     = (1 + count_present (without_maybe confidence_keywords_low)
                          (lower answer))%Z
  /\ hedge_word_count c
     = (1 + count_present (without_maybe hedge_words) (lower answer))%Z
  /\ pre_clamp
     = (confidence_formula confidence_keywords_high
          (without_maybe confidence_keywords_low)
          (without_maybe hedge_words) (lower answer) - 15)%Z
  /\ pre_clamp
     = (confidence_formula confidence_keywords_high
          (without_maybe confidence_keywords_low)
          hedge_words (lower answer) - 10)%Z
  /\ pre_clamp
     = (confidence_formula confidence_keywords_high
          confidence_keywords_low
          (without_maybe hedge_words) (lower answer) - 5)%Z.
Proof.
  intros Hmaybe. cbv zeta.
  apply contains_spec in Hmaybe.
  assert (count_present confidence_keywords_low (lower answer)
          = (1 + count_present (without_maybe confidence_keywords_low)
                               (lower answer))%Z) as Elow.
  { change (without_maybe confidence_keywords_low)
      with (tl confidence_keywords_low).
    unfold confidence_keywords_low. cbn [tl].
    rewrite count_present_cons, Hmaybe. reflexivity. }
  assert (count_present hedge_words (lower answer)
          = (1 + count_present (without_maybe hedge_words)
                               (lower answer))%Z) as Ehedge.
  { change (without_maybe hedge_words) with (removelast hedge_words).
    change hedge_words with (removelast hedge_words ++ ["maybe"])%list at 1.
    rewrite count_present_app, (count_present_cons "maybe" []), Hmaybe.
    change (count_present [] (lower answer)) with 0%Z. lia. }
  unfold _analyze_confidence, confidence_formula.
  cbn [confidence_score low_confidence_indicators hedge_word_count].
  rewrite Elow, Ehedge.
  repeat split; lia.
Qed.

Lemma maybe_counted_twice_witness :
  confidence_formula confidence_keywords_high confidence_keywords_low
                     hedge_words (lower "Maybe it works")
  = (confidence_formula confidence_keywords_high
       (without_maybe confidence_keywords_low)
       (without_maybe hedge_words) (lower "Maybe it works") - 15)%Z.
Proof.
  refine (proj1 (proj2 (proj2 (proj2
    (maybe_counted_twice None "Maybe it works" _))))).
  apply contains_spec. vm_compute; reflexivity.
Defined.

(** *** Ranges of the scores on the normal path *)

Lemma of_int_pos (b : Z) : (0 < b)%Z -> 0 < of_int b.
Proof. intros H. unfold of_int, Qlt. simpl. lia. Qed.

Lemma of_int_nonneg (a : Z) : (0 <= a)%Z -> 0 <= of_int a.
Proof. intros H. unfold of_int, Qle. simpl. lia. Qed.

Lemma of_int_le (a b : Z) : (a <= b)%Z -> of_int a <= of_int b.
Proof. intros H. unfold of_int, Qle. simpl. lia. Qed.

Lemma of_int_div_nonneg (a b : Z) :
  (0 <= a)%Z -> (0 < b)%Z -> 0 <= of_int a / of_int b.
Proof.
  intros Ha Hb. apply Qle_shift_div_l; [now apply of_int_pos |].
  rewrite Qmult_0_l. now apply of_int_nonneg.
Qed.

Lemma of_int_div_le (a b k : Z) :
  (0 < b)%Z -> (a <= k * b)%Z -> of_int a / of_int b <= of_int k.
Proof.
  intros Hb H. apply Qle_shift_div_r; [now apply of_int_pos |].
  unfold of_int. rewrite <- inject_Z_mult. unfold Qle. simpl. lia.
Qed.

Lemma relevance_range (answer question category : string) :
  0 <= relevance_score (_analyze_content answer question category) <= 100.
Proof.
  unfold _analyze_content. cbn [relevance_score].
  set (i := inter_size _ _). set (n := Z.max _ 1).
  assert (0 <= of_int i / of_int n) as H.
  { apply of_int_div_nonneg; [unfold i, inter_size | unfold n]; lia. }
  qminmax; split; try lra.
Qed.

Lemma depth_range (answer question category : string) :
  0 <= depth_score (_analyze_content answer question category) <= 100.
Proof.
  unfold _analyze_content. cbn [depth_score].
  pose proof (count_present_nonneg depth_indicators (lower answer)).
  split; [apply of_int_nonneg | apply (of_int_le _ 100)]; lia.
Qed.

Lemma technical_sum_range (answer_lower : string)
    (keywords : list (string * list string)) :
  (0 <= Zsum (map snd (map (fun kv : string * list string =>
            (fst kv, Z.min 100 (count_present (snd kv) answer_lower * 20)))
         keywords))
   <= 100 * Z.of_nat (List.length keywords))%Z.
Proof.
  induction keywords as [|kv l IH]; cbn [map Zsum fold_right List.length snd].
  - lia.
  - fold (Zsum (map snd (map (fun kv : string * list string =>
            (fst kv, Z.min 100 (count_present (snd kv) answer_lower * 20)))
         l))).
    pose proof (count_present_nonneg (snd kv) answer_lower). lia.
Qed.

Lemma technical_range (answer job_role : string) :
  0 <= overall_technical_score (_analyze_technical_content answer job_role)
    <= 100.
Proof.
  unfold _analyze_technical_content. cbn [overall_technical_score].
  pose proof (technical_sum_range (lower answer) technical_keywords) as H.
  rewrite length_map.
  set (S := Zsum _) in *. set (n := Z.of_nat _) in *.
  split.
  - apply of_int_div_nonneg; lia.
  - apply (of_int_div_le S (Z.max n 1) 100); lia.
Qed.

Lemma star_fold_range (components : list (string * bool)) (acc : Z) :
  (acc <= fold_left (fun (acc : Z) (cb : string * bool) =>
                       if snd cb then (acc + 25)%Z else acc) components acc
       <= acc + 25 * Z.of_nat (List.length components))%Z.
Proof.
  revert acc; induction components as [|cb l IH]; intros acc;
    cbn [fold_left List.length].
  - lia.
  - destruct (snd cb); [specialize (IH (acc + 25)%Z) | specialize (IH acc)];
      lia.
Qed.

(** The structure score ranges over 0 .. 150. *)
Lemma structure_range (answer category : string) :
  (0 <= star_score (_analyze_structure answer category) <= 100
   /\ 0 <= structure_score (_analyze_structure answer category) <= 150)%Z.
Proof.
  unfold _analyze_structure. cbn [star_score structure_score].
  set (comps := if String.eqb category "behavioral" then _ else _).
  assert (List.length comps <= 4)%nat as Hlen.
  { unfold comps. destruct (String.eqb category "behavioral");
      [rewrite length_map |]; cbn; lia. }
  pose proof (star_fold_range comps 0) as H.
  set (star := fold_left _ comps 0%Z) in *.
  destruct (0 <? _)%Z, (if contains "." answer then _ else false),
    (any_in conclusion_phrases _); lia.
Qed.

Lemma confidence_range
    (sentiment_analyzer : option (string -> option Q)) (answer : string) :
  (0 <= confidence_score (_analyze_confidence sentiment_analyzer answer)
     <= 100)%Z.
Proof. unfold _analyze_confidence. cbn [confidence_score]. lia. Qed.

Lemma length_score_range (answer question category : string) :
  0 <= length_score (_analyze_completeness answer question category) <= 100.
Proof.
  unfold _analyze_completeness.
  destruct (expected_length_ordered category) as [Hpos Hord].
  destruct (expected_length category) as [mn mx]. cbn [fst snd] in *.
  cbn [length_score].
  assert (0 <= count_words answer)%Z as Hwc by (unfold count_words; lia).
  set (wc := count_words answer) in *.
  destruct (Z.ltb_spec wc mn) as [Hlt | Hge];
    [| destruct (Z.ltb_spec mx wc) as [Hgt | Hle]].
  - pose proof (of_int_div_nonneg wc mn Hwc Hpos).
    assert (of_int wc / of_int mn <= of_int 1) as H1
        by (apply of_int_div_le; lia).
    change (of_int 1) with 1 in H1. split; lra.
  - assert (0 <= of_int (wc - mx) / of_int mx) as H0
        by (apply of_int_div_nonneg; lia).
    qminmax; split; lra.
  - split; lra.
Qed.

Lemma completeness_range (answer question category : string) :
  0 <= completeness_score (_analyze_completeness answer question category)
    <= 100.
Proof.
  pose proof (length_score_range answer question category) as H.
  unfold _analyze_completeness in *.
  destruct (expected_length category) as [mn mx].
  cbn [length_score completeness_score] in *.
  set (ls := if (_ <? mn)%Z then _ else _) in *.
  destruct (_ <=? _)%Z.
  - split; [apply Qle_shift_div_l | apply Qle_shift_div_r]; lra.
  - split; [apply Qle_shift_div_l | apply Qle_shift_div_r]; lra.
Qed.

Lemma average_range (a b : Q) :
  0 <= a <= 100 -> 0 <= b <= 100 -> 0 <= (a + b) / 2 <= 100.
Proof.
  intros Ha Hb.
  split; [apply Qle_shift_div_l | apply Qle_shift_div_r]; lra.
Qed.

(** On the normal path of [analyze] every score but the structure score
    lies between 0 and 100; the structure score lies between 0 and 150. *)
Lemma normal_path_score_ranges
    (flesch_reading_ease flesch_kincaid_grade : string -> option Q)
    (nlp : option (string -> SpacyDoc))
    (sentiment_analyzer : option (string -> option Q))
    (question answer category job_role : string) :
  let s := _calculate_scores
             (sub_analyses flesch_reading_ease flesch_kincaid_grade nlp
                           sentiment_analyzer question answer category
                           job_role) in
  0 <= Scores.overall_score s <= 100
  /\ 0 <= Scores.content_score s <= 100
  /\ 0 <= Scores.technical_score s <= 100
  /\ 0 <= Scores.structure_score s <= 150
  /\ 0 <= Scores.confidence_score s <= 100
  /\ 0 <= Scores.completeness_score s <= 100.
Proof.
  cbv zeta. unfold _calculate_scores, sub_analyses.
  cbn [Scores.overall_score Scores.content_score Scores.technical_score
       Scores.structure_score Scores.confidence_score
       Scores.completeness_score content_analysis technical_analysis
       structure_analysis confidence_analysis completeness_analysis].
  pose proof (relevance_range answer question category) as Hr.
  pose proof (depth_range answer question category) as Hd.
  pose proof (technical_range answer job_role) as Ht.
  destruct (structure_range answer category) as [_ Hs].
  pose proof (confidence_range sentiment_analyzer answer) as Hc.
  pose proof (completeness_range answer question category) as Hp.
  set (rel := relevance_score _) in *. set (dep := depth_score _) in *.
  set (tech := overall_technical_score _) in *.
  set (st := structure_score _) in *.
  set (cf := confidence_score _) in *.
  set (cp := completeness_score _) in *.
  assert (0 <= of_int st <= 150) as Hs'.
  { split; [apply of_int_nonneg | apply (of_int_le _ 150)]; lia. }
  assert (0 <= of_int cf <= 100) as Hc'.
  { split; [apply of_int_nonneg | apply (of_int_le _ 100)]; lia. }
  pose proof (average_range rel dep Hr Hd) as Havg.
  set (content := (rel + dep) / 2) in *.
  unfold weight_content, weight_technical, weight_structure,
    weight_confidence, weight_completeness.
  repeat split; try lra; qminmax; lra.
Qed.

Definition star_question : string :=
  "Tell me about a challenging project you worked on.".

Lemma star_answer_not_short :
  String.eqb star_answer "" || (String.length (strip star_answer) <? 10)%nat
  = false.
Proof. vm_compute. reflexivity. Qed.

Lemma star_answer_structure :
  structure_score (_analyze_structure star_answer "behavioral") = 150%Z.
Proof. vm_compute. reflexivity. Qed.

(** C1, at the input where the code leaves the range.  For the behavioral
    question [star_question] and the answer [star_answer], whatever the
    libraries are, [analyze] takes the normal path and the structure score
    of the score set is 150, which is above 100: [_analyze_structure] adds
    up to 100 STAR points and 50 bonus points and, unlike the other
    scorers, applies no clamp.  The other scores are within bounds
    ([normal_path_score_ranges]). *)
Theorem structure_score_above_100
    (flesch_reading_ease flesch_kincaid_grade : string -> option Q)
    (nlp : option (string -> SpacyDoc))
    (sentiment_analyzer : option (string -> option Q)) :
  let analysis :=
    analyze flesch_reading_ease flesch_kincaid_grade nlp sentiment_analyzer
            star_question star_answer "behavioral" "software engineer" in
  analysis <> _generate_insufficient_answer_analysis
  /\ Scores.structure_score (FeedbackGenerator.scores_of analysis) == 150
  /\ ~ Scores.structure_score (FeedbackGenerator.scores_of analysis) <= 100.
Proof.
  cbv zeta. unfold analyze. rewrite star_answer_not_short.
  split; [discriminate |].
  unfold FeedbackGenerator.scores_of, _calculate_scores, sub_analyses.
  cbn [Scores.structure_score structure_analysis].
  rewrite star_answer_structure.
  split; [reflexivity | intros H; revert H; unfold of_int, Qle; simpl; lia].
Qed.

End AnalyzerFacts.

(** ** The module [random] *)

Module RandomFacts.

Local Open Scope nat_scope.

Lemma draw_total (t : tape) : exists x t', draw t = Ok (x, t').
Proof. destruct t as [|x t]; simpl; eauto. Qed.

Lemma randbelow_run (n : nat) (t : tape) :
  n <> 0 -> exists j t', j < n /\ randbelow n t = Ok (j, t').
Proof.
  intros Hn. unfold randbelow, bind.
  destruct (draw_total t) as (x & t' & ->).
  exists (x mod n), t'. split; [now apply Nat.mod_upper_bound | reflexivity].
Qed.

(** [random.choice] on a non-empty sequence returns one of its items. *)
Lemma choice_run {A} (seq : list A) (t : tape) :
  seq <> [] -> exists x t', In x seq /\ choice seq t = Ok (x, t').
Proof.
  intros Hne. destruct seq as [|d l]; [contradiction |].
  unfold choice, bind.
  destruct (randbelow_run (List.length (d :: l)) t) as (j & t' & Hj & ->);
    [discriminate |].
  exists (nth j (d :: l) d), t'. split; [now apply nth_In | reflexivity].
Qed.

(** *** Sampling without replacement *)

Lemma take_at_some {A} (j : nat) (pool : list A) :
  j < List.length pool -> exists x pool', take_at j pool = Some (x, pool').
Proof.
  revert j; induction pool as [|a rest IH]; intros j Hj; simpl in Hj.
  - lia.
  - destruct j as [|j]; cbn [take_at]; [eauto |].
    destruct (IH j) as (x & rest' & ->); [lia | eauto].
Qed.

(** A round removes exactly the item it returns. *)
Lemma take_at_perm {A} (j : nat) (pool : list A) (x : A) (pool' : list A) :
  take_at j pool = Some (x, pool') -> Permutation pool (x :: pool').
Proof.
  revert j x pool'; induction pool as [|a rest IH]; intros j x pool' H;
    cbn [take_at] in H; [discriminate |].
  destruct j as [|j].
  - injection H as <- <-. constructor.
    destruct rest as [|b rest']; [constructor |].
    rewrite (app_removelast_last a (l := b :: rest')) at 1 by discriminate.
    rewrite Permutation_app_comm. reflexivity.
  - destruct (take_at j rest) as [[y rest'] |] eqn:E; [| discriminate].
    injection H as <- <-.
    rewrite (IH _ _ _ E). apply perm_swap.
Qed.

Lemma sample_loop_run {A} (k : nat) (pool : list A) (t : tape) :
  k <= List.length pool ->
  exists out rest t',
    sample_loop k pool t = Ok (out, t')
    /\ List.length out = k
    /\ Permutation pool (out ++ rest).
Proof.
  revert pool t; induction k as [|k IH]; intros pool t Hk.
  - exists [], pool, t. repeat split; reflexivity.
  - cbn [sample_loop]. unfold bind at 1.
    destruct (randbelow_run (List.length pool) t) as (j & t1 & Hj & ->);
      [lia |].
    destruct (take_at_some j pool Hj) as (x & pool' & E). rewrite E.
    pose proof (take_at_perm _ _ _ _ E) as Hperm.
    assert (k <= List.length pool') as Hk'.
    { apply Permutation_length in Hperm. simpl in Hperm. lia. }
    destruct (IH pool' t1 Hk') as (out & rest & t2 & Hrun & Hlen & Hp).
    unfold bind, ret. rewrite Hrun.
    exists (x :: out), rest, t2. repeat split.
    + simpl. now rewrite Hlen.
    + rewrite Hperm, Hp. reflexivity.
Qed.

(** [random.sample(population, k)] for [0 <= k <= len(population)]. *)
Lemma sample_run {A} (population : list A) (k : Z) (t : tape) :
  (0 <= k <= Z.of_nat (List.length population))%Z ->
  exists out rest t',
    sample population k t = Ok (out, t')
    /\ Z.of_nat (List.length out) = k
    /\ Permutation population (out ++ rest).
Proof.
  intros Hk. unfold sample.
  replace ((k <? 0)%Z || (Z.of_nat (List.length population) <? k)%Z)
    with false.
  - destruct (sample_loop_run (Z.to_nat k) population t) as
      (out & rest & t' & Hrun & Hlen & Hp); [lia |].
    exists out, rest, t'. repeat split; [assumption | lia | assumption].
  - symmetry. apply orb_false_iff. split; [apply Z.ltb_ge | apply Z.ltb_ge]; lia.
Qed.

(** A negative sample size is an error. *)
Lemma sample_negative {A} (population : list A) (k : Z) (t : tape) :
  (k < 0)%Z -> sample population k t = Raise ValueError.
Proof.
  intros Hk. unfold sample.
  replace (k <? 0)%Z with true by (symmetry; apply Z.ltb_lt; lia).
  reflexivity.
Qed.

Lemma sublist_NoDup {A} (l out rest : list A) :
  Permutation l (out ++ rest) -> NoDup l -> NoDup out.
Proof.
  intros Hp Hnd. apply (Permutation_NoDup Hp) in Hnd.
  now apply NoDup_app_remove_r in Hnd.
Qed.

Lemma sublist_In {A} (l out rest : list A) (x : A) :
  Permutation l (out ++ rest) -> In x out -> In x l.
Proof.
  intros Hp Hin. apply (Permutation_in _ (Permutation_sym Hp)).
  apply in_or_app. now left.
Qed.

(** *** Shuffling *)

Lemma nth_error_set_nth_same {A} (j : nat) (v : A) (l : list A) :
  j < List.length l -> nth_error (set_nth j v l) j = Some v.
Proof.
  revert j; induction l as [|a l IH]; intros [|j] Hj; simpl in *;
    try lia; [reflexivity | apply IH; lia].
Qed.

Lemma nth_error_set_nth_other {A} (i j : nat) (v : A) (l : list A) :
  i <> j -> nth_error (set_nth j v l) i = nth_error l i.
Proof.
  revert i j; induction l as [|a l IH]; intros [|i] [|j] Hij; simpl;
    try reflexivity; try lia.
  apply IH. lia.
Qed.

Lemma set_nth_perm {A} (i : nat) (v a : A) (l : list A) :
  nth_error l i = Some a -> Permutation (v :: l) (a :: set_nth i v l).
Proof.
  revert i; induction l as [|x l IH]; intros [|i] H; simpl in H;
    try discriminate.
  - injection H as ->. apply perm_swap.
  - cbn [set_nth]. rewrite perm_swap. rewrite (IH _ H). apply perm_swap.
Qed.

Lemma swap_perm {A} (i j : nat) (x : list A) : Permutation x (swap i j x).
Proof.
  unfold swap.
  destruct (nth_error x i) as [a |] eqn:Ei; [| reflexivity].
  destruct (nth_error x j) as [b |] eqn:Ej; [| reflexivity].
  assert (nth_error (set_nth j a x) i = Some a) as Ei'.
  { destruct (Nat.eq_dec i j) as [-> | Hne].
    - apply nth_error_set_nth_same. apply nth_error_Some. congruence.
    - now rewrite nth_error_set_nth_other. }
  apply (Permutation_cons_inv (a := a)).
  rewrite (set_nth_perm j a b x Ej).
  apply (set_nth_perm i b a _ Ei').
Qed.

Lemma shuffle_loop_run {A} (i : nat) (x : list A) (t : tape) :
  exists out t', shuffle_loop i x t = Ok (out, t') /\ Permutation x out.
Proof.
  revert x t; induction i as [|i IH]; intros x t.
  - exists x, t. split; reflexivity.
  - cbn [shuffle_loop]. unfold bind at 1.
    destruct (randbelow_run (S (S i)) t) as (j & t1 & _ & ->); [lia |].
    destruct (IH (swap (S i) j x) t1) as (out & t2 & -> & Hp).
    exists out, t2. split; [reflexivity |].
    rewrite <- Hp. apply swap_perm.
Qed.

(** [random.shuffle] rearranges the list. *)
Lemma shuffle_run {A} (x : list A) (t : tape) :
  exists out t', shuffle x t = Ok (out, t') /\ Permutation x out.
Proof. apply shuffle_loop_run. Qed.

End RandomFacts.

(** ** The feedback generator *)

Module FeedbackFacts.

Import FeedbackGenerator RandomFacts.

(** The strings of a bucket; empty for an unknown bucket. *)
Definition pool (kind bucket : string) : list string :=
  Dict.get bucket (Dict.get kind feedback_templates []) [].

(** [s] is one of the templates of [bucket]. *)
Definition from_bucket (kind : string) (s bucket : string) : Prop :=
  In s (pool kind bucket).

(** A bucket of the template table. *)
Definition known (kind bucket : string) : Prop :=
  templates kind bucket = ret (pool kind bucket) /\ pool kind bucket <> [].

Definition when (cond : bool) (bucket : string) : list string :=
  if cond then [bucket] else [].

(** The improvement buckets that fire, in the order in which
    [_identify_improvements] checks them. *)
Definition fired_improvements (analysis : Analysis) : list string :=
  let scores := scores_of analysis in
  let word_count := get_word_count analysis in
  (when (Qltb (Scores.technical_score scores) 50) "low_technical"
   ++ when (Qltb (Scores.structure_score scores) 50) "poor_structure"
   ++ when (Qltb (Scores.confidence_score scores) 60) "low_confidence"
   ++ when (negb (get_has_examples analysis)) "insufficient_examples"
   ++ (if (word_count <? 50)%Z then ["too_brief"]
       else when (400 <? word_count)%Z "too_verbose")
   ++ when (Qltb (Scores.completeness_score scores) 60) "incomplete")%list.

(** The improvement buckets that fire, in the order of the threshold table:
    low_technical, poor_structure, low_confidence, insufficient_examples,
    incomplete, too_brief, too_verbose. *)
Definition table_order_improvements (analysis : Analysis) : list string :=
  let scores := scores_of analysis in
  let word_count := get_word_count analysis in
  (when (Qltb (Scores.technical_score scores) 50) "low_technical"
   ++ when (Qltb (Scores.structure_score scores) 50) "poor_structure"
   ++ when (Qltb (Scores.confidence_score scores) 60) "low_confidence"
   ++ when (negb (get_has_examples analysis)) "insufficient_examples"
   ++ when (Qltb (Scores.completeness_score scores) 60) "incomplete"
   ++ when (word_count <? 50)%Z "too_brief"
   ++ when (400 <? word_count)%Z "too_verbose")%list.

(** The strength buckets that fire, in the order of [_identify_strengths]. *)
Definition fired_strengths (analysis : Analysis) : list string :=
  let scores := scores_of analysis in
  (when (Qleb 75 (Scores.technical_score scores)) "high_technical"
   ++ when (Qleb 70 (Scores.structure_score scores)) "good_structure"
   ++ when (Qleb 75 (Scores.confidence_score scores)) "high_confidence"
   ++ when (get_has_examples analysis) "good_examples"
   ++ when (Qleb 80 (Scores.completeness_score scores)) "comprehensive")%list.

Definition default_strength (analysis : Analysis) : string :=
  if Qleb 50 (Scores.overall_score (scores_of analysis))
  then "Good effort in addressing the question"
  else "Thank you for providing a response".

Lemma append_choice_bind {B} (cond : bool) (kind bucket : string)
    (acc : list string) (k : list string -> M B) (t : tape) :
  known kind bucket ->
  exists s t',
    from_bucket kind s bucket
    /\ bind (append_choice cond kind bucket acc) k t
       = k (acc ++ map (fun _ => s) (when cond bucket))%list t'.
Proof.
  intros [Htpl Hne]. unfold append_choice, bind at 1.
  destruct (choice_run (pool kind bucket) t Hne) as (s & t' & Hin & Hch).
  destruct cond.
  - rewrite Htpl. unfold bind, ret. rewrite Hch.
    exists s, t'. split; [exact Hin | reflexivity].
  - exists s, t. split; [exact Hin |].
    unfold ret, when. cbn [map]. now rewrite app_nil_r.
Qed.

Lemma Forall2_firstn {A B} (R : A -> B -> Prop) (n : nat)
    (l : list A) (l' : list B) :
  Forall2 R l l' -> Forall2 R (firstn n l) (firstn n l').
Proof.
  intros H. revert n. induction H as [|x y l l' Hxy H IH]; intros [|n];
    cbn [firstn]; constructor; auto.
Qed.

Lemma Forall2_when {A} (R : A -> string -> Prop) (cond : bool)
    (s : A) (bucket : string) :
  R s bucket -> Forall2 R (map (fun _ => s) (when cond bucket)) (when cond bucket).
Proof. intros H. destruct cond; cbn; repeat constructor; exact H. Qed.

Ltac known_bucket := split; [reflexivity | discriminate].

(** One [if ...: xs.append(random.choice(...))] step. *)
Ltac step_choice :=
  match goal with
  | |- context [bind (append_choice ?c ?k ?b ?acc) ?f ?t] =>
      let s := fresh "s" in
      let t' := fresh "t" in
      let H := fresh "Hs" in
      let E := fresh "E" in
      destruct (append_choice_bind c k b acc f t) as (s & t' & H & E);
      [known_bucket | rewrite E; clear E]
  end.

Lemma identify_improvements_run (analysis : Analysis) (t : tape) :
  exists imps t',
    _identify_improvements analysis t = Ok (imps, t')
    /\ Forall2 (from_bucket "improvements") imps
               (firstn 3 (fired_improvements analysis)).
Proof.
  unfold _identify_improvements, fired_improvements. cbv zeta.
  do 4 step_choice.
  destruct (get_word_count analysis <? 50)%Z.
  - do 2 step_choice. eexists; eexists; split; [reflexivity |].
    change ["too_brief"] with (when true "too_brief").
    apply Forall2_firstn. rewrite <- !app_assoc. cbn [app].
    repeat (apply Forall2_app; [now apply Forall2_when |]).
    now apply Forall2_when.
  - do 2 step_choice. eexists; eexists; split; [reflexivity |].
    apply Forall2_firstn. rewrite <- !app_assoc. cbn [app].
    repeat (apply Forall2_app; [now apply Forall2_when |]).
    now apply Forall2_when.
Qed.

Lemma identify_strengths_run (analysis : Analysis) (t : tape) :
  exists strs t',
    _identify_strengths analysis t = Ok (strs, t')
    /\ (1 <= List.length strs <= 3)%nat
    /\ match fired_strengths analysis with
       | [] => strs = [default_strength analysis]
       | _ :: _ => Forall2 (from_bucket "strengths") strs
                           (firstn 3 (fired_strengths analysis))
       end.
Proof.
  unfold _identify_strengths, default_strength. cbv zeta.
  do 5 step_choice.
  match goal with
  | |- context [match ?l with [] => _ | _ :: _ => ?l end] => set (L := l)
  end.
  assert (Forall2 (from_bucket "strengths") L (fired_strengths analysis))
    as HL.
  { unfold L, fired_strengths. cbv zeta. rewrite <- !app_assoc. cbn [app].
    repeat (apply Forall2_app; [now apply Forall2_when |]).
    now apply Forall2_when. }
  clearbody L. eexists; eexists; split; [reflexivity |].
  destruct HL as [|x b L fired Hx HL].
  - destruct (Qleb 50 _); (split; [cbn; lia | reflexivity]).
  - split.
    + rewrite length_firstn. cbn [List.length]. lia.
    + apply Forall2_firstn. now constructor.
Qed.

Lemma generate_suggestions_run (analysis : Analysis) (t : tape) :
  match analysis with
  | FullAnalysis _ _ =>
      exists sugg t',
        _generate_suggestions analysis t = Ok (sugg, t')
        /\ (1 <= List.length sugg <= 4)%nat
  | MinimalAnalysis _ _ _ _ _ _ _ _ =>
      _generate_suggestions analysis t = Raise KeyError
  end.
Proof.
  destruct analysis as [sub scores | a b c d e f g scores];
    unfold _generate_suggestions; cbv zeta; do 3 step_choice.
  - unfold get_star_score, get_hedge_word_count, bind at 1 2, ret at 1 2.
    match goal with
    | |- context [match ?l with [] => _ | _ :: _ => ?l end] => set (L := l)
    end.
    clearbody L. eexists; eexists; split; [reflexivity |].
    rewrite length_firstn.
    destruct L; cbn [List.length]; lia.
  - reflexivity.
Qed.

(** A tape and an analysis of the normal path on which the order of the
    threshold table and the order of the checks give different lists: the
    answer is brief (13 words) and incomplete, its technical and structure
    scores are low. *)
Definition cache_question : string := "How would you speed up a slow service?".
Definition cache_answer : string :=
  "I would definitely use a cache, for example Redis, to speed things up".
Definition cache_analysis : Analysis :=
  AnswerAnalyzer.analyze (fun _ => None) (fun _ => None) None None
    cache_question cache_answer "technical" "backend developer".

Lemma improvements_order_counterexample :
  exists fb t',
    generate_feedback cache_analysis [] = Ok (fb, t')
    /\ firstn 3 (table_order_improvements cache_analysis)
       = ["low_technical"; "poor_structure"; "incomplete"]
    /\ ~ Forall2 (from_bucket "improvements") (improvements fb)
                 (firstn 3 (table_order_improvements cache_analysis)).
Proof.
  eexists; eexists. split; [vm_compute; reflexivity |].
  split; [vm_compute; reflexivity |].
  cbn [improvements]. intros H.
  assert (firstn 3 (table_order_improvements cache_analysis)
          = ["low_technical"; "poor_structure"; "incomplete"]) as E
      by (vm_compute; reflexivity).
  rewrite E in H. clear E.
  inversion H as [|? ? ? ? _ H1]; subst; clear H.
  inversion H1 as [|? ? ? ? _ H2]; subst; clear H1.
  inversion H2 as [|? ? ? ? Hin _]; subst; clear H2.
  vm_compute in Hin.
  repeat (destruct Hin as [Hin | Hin]; [discriminate |]).
  exact Hin.
Qed.

(** C9, amended.  Whenever [generate_feedback] returns a packet (it does
    on every analysis of the normal path), its improvements are the first
    three fired buckets in the order of the checks in the code:
    low_technical, poor_structure, low_confidence, insufficient_examples,
    too_brief or too_verbose, incomplete, one template of each; there are
    between one and three strengths, the default string chosen by
    overall_score >= 50 when no strength bucket fires and the first three
    fired strength buckets otherwise; there are between one and four
    suggestions. *)
Theorem feedback_lists_capped (analysis : Analysis) (t : tape) :
  match generate_feedback analysis t with
  | Ok (fb, _) =>
      (List.length (improvements fb) <= 3)%nat
      /\ Forall2 (from_bucket "improvements") (improvements fb)
                 (firstn 3 (fired_improvements analysis))
      /\ (1 <= List.length (strengths fb) <= 3)%nat
      /\ match fired_strengths analysis with
         | [] => strengths fb = [default_strength analysis]
         | _ :: _ => Forall2 (from_bucket "strengths") (strengths fb)
                             (firstn 3 (fired_strengths analysis))
         end
      /\ (1 <= List.length (suggestions fb) <= 4)%nat
  | Raise e =>
      e = KeyError /\ forall sub scores, analysis <> FullAnalysis sub scores
  end.
Proof.
  unfold generate_feedback. cbv zeta. unfold bind at 1.
  destruct (identify_strengths_run analysis t) as (strs & t1 & -> & Hlen & Hs).
  unfold bind at 1.
  destruct (identify_improvements_run analysis t1) as (imps & t2 & -> & Hi).
  unfold bind at 1.
  pose proof (generate_suggestions_run analysis t2) as Hg.
  destruct analysis as [sub scores | a b c d e f g scores].
  - destruct Hg as (sugg & t3 & -> & Hsugg).
    unfold ret. cbn [improvements strengths suggestions].
    repeat split; try lia; try assumption.
    apply Forall2_length in Hi. rewrite Hi, length_firstn. lia.
  - rewrite Hg. split; [reflexivity | discriminate].
Qed.

(** The dictionary of a short answer has no ['star_score']: asking for
    feedback on it raises [KeyError] in [_generate_suggestions]. *)
Lemma feedback_on_short_answer (t : tape) :
  generate_feedback AnswerAnalyzer._generate_insufficient_answer_analysis t
  = Raise KeyError.
Proof.
  unfold generate_feedback. cbv zeta. unfold bind at 1.
  destruct (identify_strengths_run
              AnswerAnalyzer._generate_insufficient_answer_analysis t)
    as (strs & t1 & -> & _).
  unfold bind at 1.
  destruct (identify_improvements_run
              AnswerAnalyzer._generate_insufficient_answer_analysis t1)
    as (imps & t2 & -> & _).
  unfold bind at 1.
  now rewrite (generate_suggestions_run
                 AnswerAnalyzer._generate_insufficient_answer_analysis t2).
Qed.

End FeedbackFacts.

(** ** The question generator *)

Module QuestionFacts.

Import QuestionGenerator RandomFacts.

Local Open Scope Z_scope.

Lemma NoDup_by_nodup (l : list string) : nodup string_dec l = l -> NoDup l.
Proof. intros <-. apply NoDup_nodup. Qed.

(** The curated questions of a role are pairwise different. *)
Lemma role_pool_NoDup (job_role : string) : NoDup (role_pool job_role).
Proof.
  apply (NoDup_map_inv question).
  unfold role_pool, role_specific_questions. cbn [find fst snd].
  repeat destruct (Str.contains _ (Str.lower job_role));
    apply NoDup_by_nodup; vm_compute; reflexivity.
Qed.

Lemma min_of_nat (n m : nat) :
  Z.min (Z.of_nat n) (Z.of_nat m) = Z.of_nat (Nat.min n m).
Proof. lia. Qed.

(** The clamped call [random.sample(pool, min(len(pool), count))] for a
    count that is not negative. *)
Lemma sample_min_run {A} (pool : list A) (count : Z) (t : tape) :
  0 <= count ->
  exists out rest t',
    sample pool (Z.min (len pool) count) t = Ok (out, t')
    /\ len out = Z.min (len pool) count
    /\ Permutation pool (out ++ rest).
Proof.
  intros Hc. unfold len.
  destruct (sample_run pool (Z.min (Z.of_nat (List.length pool)) count) t)
    as (out & rest & t' & Hrun & Hlen & Hp); [lia |].
  exists out, rest, t'. auto.
Qed.

Lemma role_specific_run (job_role : string) (count : Z) (t : tape) :
  0 <= count ->
  exists out t',
    _generate_role_specific_questions job_role count t = Ok (out, t')
    /\ len out = Z.min (len (role_pool job_role)) count
    /\ NoDup out
    /\ Forall (fun q => In q (role_pool job_role)) out.
Proof.
  intros Hc. unfold _generate_role_specific_questions.
  pose proof (role_pool_NoDup job_role) as Hnd.
  destruct (role_pool job_role) as [|q pool] eqn:E.
  - exists [], t. repeat split; [cbn; lia | constructor | constructor].
  - destruct (sample_min_run (q :: pool) count t Hc)
      as (out & rest & t' & Hrun & Hlen & Hp).
    exists out, t'. repeat split; try assumption.
    + now apply (sublist_NoDup _ _ _ Hp).
    + apply Forall_forall. intros x Hx. now apply (sublist_In _ _ _ _ Hp).
Qed.

(** *** Counting by category *)

Lemma count_category_app (c : string) (l1 l2 : list Question) :
  count_category c (l1 ++ l2) = count_category c l1 + count_category c l2.
Proof. unfold count_category, len. rewrite filter_app, length_app. lia. Qed.

Lemma count_category_perm (c : string) (l1 l2 : list Question) :
  Permutation l1 l2 -> count_category c l1 = count_category c l2.
Proof.
  intros Hp. unfold count_category, len.
  induction Hp as [| x l l' Hp IH | x y l | l l' l'' _ IH1 _ IH2];
    cbn [filter]; repeat destruct (String.eqb _ c); cbn [List.length]; lia.
Qed.

Lemma count_category_same (c : string) (l : list Question) :
  Forall (fun q => category q = c) l -> count_category c l = len l.
Proof.
  intros H. unfold count_category, len.
  induction H as [|q l Hq H IH]; cbn [filter]; [reflexivity |].
  rewrite Hq, String.eqb_refl. cbn [List.length]. lia.
Qed.

Lemma count_category_none (c : string) (l : list Question) :
  Forall (fun q => category q <> c) l -> count_category c l = 0.
Proof.
  intros H. unfold count_category, len.
  induction H as [|q l Hq H IH]; cbn [filter]; [reflexivity |].
  apply String.eqb_neq in Hq. rewrite Hq. exact IH.
Qed.

Lemma count_category_two (c1 c2 : string) (l : list Question) :
  c1 <> c2 ->
  Forall (fun q => category q = c1 \/ category q = c2) l ->
  count_category c1 l + count_category c2 l = len l.
Proof.
  intros Hne H. unfold count_category, len.
  induction H as [|q l Hq H IH]; cbn [filter]; [reflexivity |].
  destruct Hq as [Hq | Hq]; rewrite Hq, String.eqb_refl.
  - replace (String.eqb c1 c2) with false
      by (symmetry; now apply String.eqb_neq).
    cbn [List.length]. lia.
  - replace (String.eqb c2 c1) with false
      by (symmetry; apply String.eqb_neq; congruence).
    cbn [List.length]. lia.
Qed.

Lemma Forall_category_other (c c' : string) (l : list Question) :
  c <> c' ->
  Forall (fun q => category q = c) l -> Forall (fun q => category q <> c') l.
Proof.
  intros Hne H. eapply Forall_impl; [| exact H].
  cbn. intros q ->. exact Hne.
Qed.

(** *** The generators *)

Lemma technical_loop_run (selected : list string) (i count : Z)
    (difficulty : string) (templates : list string) (t : tape) :
  templates <> [] ->
  i + len selected <= count ->
  exists out t',
    technical_loop i selected count difficulty templates t = Ok (out, t')
    /\ len out = len selected
    /\ Forall (fun q => category q = "technical") out.
Proof.
  intros Hne. revert i t.
  induction selected as [|skill rest IH]; intros i t Hi.
  - exists [], t. repeat split; constructor.
  - cbn [technical_loop].
    unfold len in Hi. cbn [List.length] in Hi.
    replace (count <=? i) with false by (symmetry; apply Z.leb_gt; lia).
    unfold bind at 1.
    destruct (choice_run templates t Hne) as (template & t1 & _ & ->).
    unfold bind at 1.
    destruct (IH (i + 1) t1) as (out & t2 & -> & Hlen & Hall);
      [unfold len; lia |].
    unfold ret. eexists; eexists. split; [reflexivity |]. split.
    + unfold len in *. cbn [List.length]. lia.
    + constructor; [reflexivity | exact Hall].
Qed.

Lemma from_templates_run (kind expected : string) (count : Z)
    (difficulty : string) (by_level : list (string * list string))
    (templates : list string) (t : tape) :
  Dict.lookup kind question_templates = ret by_level ->
  Dict.lookup difficulty by_level = ret templates ->
  0 <= count ->
  exists out t',
    from_templates kind expected count difficulty t = Ok (out, t')
    /\ len out = Z.min (len templates) count
    /\ Forall (fun q => category q = kind) out.
Proof.
  intros H1 H2 Hc. unfold from_templates.
  unfold bind at 1. rewrite H1. unfold ret at 1.
  unfold bind at 1. rewrite H2. unfold ret at 1.
  unfold bind at 1.
  destruct (sample_min_run templates count t Hc)
    as (out & rest & t' & -> & Hlen & _).
  unfold ret. eexists; eexists. split; [reflexivity |]. split.
  - unfold len in *. rewrite length_map. exact Hlen.
  - apply Forall_forall. intros q Hq. apply in_map_iff in Hq.
    destruct Hq as (x & <- & _). reflexivity.
Qed.

Lemma role_pool_categories :
  Forall (fun q => category q = "technical" \/ category q = "coding")
         (role_pool "software engineer").
Proof.
  unfold role_pool. vm_compute.
  repeat (apply Forall_cons;
          [first [left; reflexivity | right; reflexivity] |]).
  apply Forall_nil.
Qed.

Lemma distribution_10 (t : tape) :
  _get_question_distribution 10 t = Ok (mkDistribution 4 3 2 1, t).
Proof. vm_compute. reflexivity. Qed.

Lemma slice_to_all {A} (l : list A) : slice_to (len l) l = l.
Proof.
  unfold slice_to, len.
  replace (Z.of_nat (List.length l) <? 0) with false
    by (symmetry; apply Z.ltb_ge; lia).
  rewrite Nat2Z.id. apply firstn_all.
Qed.

Definition python_react : option ResumeData :=
  Some {| skills := Some ["Python"; "React"] |}.

(** C2.  For the job role "software engineer", the difficulty
    "intermediate", the skills Python and React and 10 requested
    questions, [generate] returns, whatever the random draws are, exactly 10
    question dictionaries; each is of one of the categories technical,
    coding, behavioral, situational and general, and the counts by category
    add up to 10, with at least 2 technical, 3 behavioral, 2 situational and
    1 general question. *)
Theorem generate_ten_questions (t : tape) :
  exists questions t',
    generate "software engineer" "intermediate" python_react 10 t
    = Ok (questions, t')
    /\ List.length questions = 10%nat
    /\ count_category "technical" questions
       + count_category "coding" questions
       + count_category "behavioral" questions
       + count_category "situational" questions
       + count_category "general" questions = 10
    /\ 2 <= count_category "technical" questions
    /\ 2 <= count_category "behavioral" questions
    /\ 1 <= count_category "situational" questions
    /\ 1 <= count_category "general" questions.
Proof.
  unfold generate, python_react.
  change (Dict.get "intermediate" difficulty_map "medium") with "medium".
  cbv zeta. unfold bind at 1. rewrite distribution_10.
  cbn [technical behavioral situational general].
  (* the two skill questions *)
  unfold bind at 1. unfold _generate_technical_questions.
  unfold bind at 1. unfold Dict.lookup at 1. cbn [find fst snd String.eqb
    Ascii.eqb Bool.eqb question_templates]. unfold ret at 1.
  unfold bind at 1. unfold Dict.lookup at 1. cbn [find fst snd String.eqb
    Ascii.eqb Bool.eqb technical_templates]. unfold ret at 1.
  unfold bind at 1.
  destruct (sample_min_run ["Python"; "React"]%string 4 t)
    as (sel & rest0 & t1 & -> & Hsel & _); [lia |].
  change (Z.min (len ["Python"; "React"]%string) 4) with 2 in Hsel.
  destruct (technical_loop_run sel 0 4 "medium"
              (snd (nth 1 technical_templates ("", []))) t1)
    as (tech & t2 & Htech & Hlen1 & Hcat1); [discriminate | lia |].
  cbn [nth technical_templates snd] in Htech. rewrite Htech. clear Htech.
  rewrite Hsel in Hlen1.
  (* the two role questions *)
  rewrite (count_category_same _ _ Hcat1), Hlen1.
  unfold bind at 1.
  destruct (role_specific_run "software engineer" (4 - 2) t2)
    as (rq & t3 & -> & Hlen2 & _ & Hin2); [lia |].
  change (Z.min (len (role_pool "software engineer")) (4 - 2)) with 2 in Hlen2.
  assert (Forall (fun q => category q = "technical" \/ category q = "coding")
                 rq) as Hcat2.
  { apply Forall_forall. intros q Hq.
    apply (proj1 (Forall_forall _ _) role_pool_categories).
    now apply (proj1 (Forall_forall _ _) Hin2). }
  (* behavioral, situational, general *)
  unfold bind at 1.
  destruct (from_templates_run "behavioral"
              "Expected to use STAR method (Situation, Task, Action, Result) to provide specific examples."
              3 "medium" behavioral_templates
              (snd (nth 1 behavioral_templates ("", []))) t3)
    as (bq & t4 & Hb & Hlen3 & Hcat3); [reflexivity | reflexivity | lia |].
  unfold _generate_behavioral_questions. rewrite Hb. clear Hb.
  unfold bind at 1.
  destruct (from_templates_run "situational"
              "Expected to demonstrate problem-solving approach and decision-making process."
              2 "medium" situational_templates
              (snd (nth 1 situational_templates ("", []))) t4)
    as (sq & t5 & Hs & Hlen4 & Hcat4); [reflexivity | reflexivity | lia |].
  unfold _generate_situational_questions. rewrite Hs. clear Hs.
  unfold bind at 1.
  destruct (from_templates_run "general"
              "Expected to show passion, communication skills, and cultural fit."
              1 "medium" general_templates
              (snd (nth 1 general_templates ("", []))) t5)
    as (gq & t6 & Hg & Hlen5 & Hcat5); [reflexivity | reflexivity | lia |].
  unfold _generate_general_questions. rewrite Hg. clear Hg.
  change (Z.min (len (snd (nth 1 behavioral_templates ("", [])))) 3)
    with 3 in Hlen3.
  change (Z.min (len (snd (nth 1 situational_templates ("", [])))) 2)
    with 2 in Hlen4.
  change (Z.min (len (snd (nth 1 general_templates ("", [])))) 1)
    with 1 in Hlen5.
  (* shuffle and slice *)
  set (all := ((((tech ++ rq) ++ bq) ++ sq) ++ gq)%list).
  unfold bind at 1.
  destruct (shuffle_run all t6) as (shuffled & t7 & -> & Hperm).
  unfold ret.
  assert (len all = 10) as Hall.
  { unfold all, len in *. rewrite !length_app. lia. }
  assert (len shuffled = 10) as Hshuf.
  { unfold len in *. rewrite <- (Permutation_length Hperm). exact Hall. }
  replace (slice_to 10 shuffled) with shuffled
    by (rewrite <- Hshuf; symmetry; apply slice_to_all).
  exists shuffled, t7. split; [reflexivity |].
  split; [unfold len in Hshuf; lia |].
  rewrite <- !(count_category_perm _ _ _ Hperm).
  unfold all. rewrite !count_category_app.
  pose proof (count_category_two "technical" "coding" rq
                ltac:(discriminate) Hcat2) as Hrq.
  assert (forall c, c <> "technical" -> c <> "coding" ->
                    count_category c rq = 0) as Hrq0.
  { intros c Hc1 Hc2. apply count_category_none.
    eapply Forall_impl; [| exact Hcat2].
    cbn. intros q [-> | ->]; congruence. }
  assert (0 <= count_category "technical" rq) as Hnn
      by (unfold count_category, len; lia).
  assert (0 <= count_category "coding" rq) as Hnn'
      by (unfold count_category, len; lia).
  rewrite !(count_category_same _ _ Hcat1).
  rewrite !(count_category_same _ _ Hcat3).
  rewrite !(count_category_same _ _ Hcat4).
  rewrite !(count_category_same _ _ Hcat5).
  rewrite !(Hrq0 "behavioral"), !(Hrq0 "situational"), !(Hrq0 "general")
    by discriminate.
  repeat match goal with
         | |- context [count_category ?c ?l] =>
             lazymatch l with
             | rq => fail
             | _ =>
                 rewrite (count_category_none c l)
                   by (eapply Forall_category_other;
                       [| eassumption]; discriminate)
             end
         end.
  lia.
Qed.

(** A run in which one of the two role-specific picks is a coding
    question: the four categories of the distribution then hold 9 of the 10
    records. *)
Lemma generate_may_return_coding :
  exists questions t',
    generate "software engineer" "intermediate" python_react 10
             [3; 1; 4; 1; 5; 9; 2; 6; 5; 3; 5; 8; 9; 7; 9; 3; 2; 3; 8; 4]%nat
    = Ok (questions, t')
    /\ count_category "coding" questions = 1
    /\ count_category "technical" questions
       + count_category "behavioral" questions
       + count_category "situational" questions
       + count_category "general" questions = 9.
Proof. eexists; eexists. vm_compute. repeat split; reflexivity. Qed.

(** *** [generate] never raises *)

Lemma diff_level_cases (difficulty : string) :
  In (Dict.get difficulty difficulty_map "medium") ["easy"; "medium"; "hard"].
Proof.
  unfold Dict.get, difficulty_map. cbn [find fst snd].
  repeat destruct (String.eqb _ difficulty); cbn; auto.
Qed.

(** [int(total_count * c)] makes no draw: it returns an integer or
    raises. *)
Lemma int_times_run (total_count : Z) (c : Float64.float) :
  (exists e, forall t', int_times total_count c t' = Raise e)
  \/ (exists z, forall t', int_times total_count c t' = Ok (z, t')).
Proof.
  unfold int_times, Float64.of_int, Float64.to_int, bind, raise, ret.
  destruct (binary_normalize _ _ _ _ _) as [s | s | | s m e];
    try (left; eexists; intros; reflexivity);
    destruct (Float64.mul _ c) as [s' | s' | | s' m' e'];
    try (left; eexists; intros; reflexivity);
    right; eexists; intros; reflexivity.
Qed.

(** The quotas are computed without a draw.  Up to 5 questions they are
    integer quotients; above 5 a float product can fail, and the quotas, if
    they are returned, are at least 2, 2, 1 and 1. *)
Lemma distribution_run (total_count : Z) :
  (exists e, 5 < total_count
             /\ forall t, _get_question_distribution total_count t = Raise e)
  \/ (exists d, (forall t, _get_question_distribution total_count t
                           = Ok (d, t))
                /\ 1 <= technical d /\ 1 <= behavioral d
                /\ 1 <= situational d /\ 0 <= general d).
Proof.
  unfold _get_question_distribution.
  destruct (Z.leb_spec total_count 5) as [Hle | Hgt].
  - right. eexists. split; [intros t; reflexivity |].
    cbn [technical behavioral situational general]. lia.
  - unfold bind.
    destruct (int_times_run total_count Float64.lit_0_4) as [[e H] | [a H]];
      [left; exists e; split; [lia | intros t; now rewrite H] |].
    destruct (int_times_run total_count Float64.lit_0_3) as [[e H3] | [b H3]];
      [left; exists e; split; [lia | intros t; now rewrite H, H3] |].
    destruct (int_times_run total_count Float64.lit_0_2) as [[e H2] | [c H2]];
      [left; exists e; split; [lia | intros t; now rewrite H, H3, H2] |].
    destruct (int_times_run total_count Float64.lit_0_1) as [[e H1] | [d H1]];
      [left; exists e; split; [lia | intros t; now rewrite H, H3, H2, H1] |].
    right. eexists. split; [intros t; rewrite H, H3, H2, H1; reflexivity |].
    cbn [technical behavioral situational general]. lia.
Qed.

Lemma lookup_levels (kind level : string) :
  In kind ["technical"; "behavioral"; "situational"; "general"] ->
  In level ["easy"; "medium"; "hard"] ->
  exists by_level templates,
    Dict.lookup kind question_templates = ret by_level
    /\ Dict.lookup level by_level = ret templates
    /\ templates <> [].
Proof.
  intros Hk Hl. cbn [In] in Hk, Hl.
  destruct Hk as [<- | [<- | [<- | [<- | []]]]];
    destruct Hl as [<- | [<- | [<- | []]]];
    eexists; eexists; (split; [reflexivity |]);
    (split; [reflexivity | discriminate]).
Qed.

Lemma generate_technical_run (sk : list string) (count : Z) (level : string)
    (t : tape) :
  In level ["easy"; "medium"; "hard"] ->
  0 <= count ->
  exists out t',
    _generate_technical_questions sk count level t = Ok (out, t')
    /\ len out <= count
    /\ Forall (fun q => category q = "technical") out.
Proof.
  intros Hl Hc.
  destruct (lookup_levels "technical" level) as (bl & tpl & H1 & H2 & Hne);
    [cbn; auto | exact Hl |].
  unfold _generate_technical_questions.
  unfold bind at 1. rewrite H1. unfold ret at 1.
  unfold bind at 1. rewrite H2. unfold ret at 1.
  unfold bind at 1.
  destruct (sample_min_run sk count t Hc) as (sel & rest & t1 & -> & Hsel & _).
  destruct (technical_loop_run sel 0 count level tpl t1 Hne)
    as (out & t2 & -> & Hlen & Hcat); [lia |].
  exists out, t2. repeat split; [lia | exact Hcat].
Qed.

Lemma from_templates_total (kind expected : string) (count : Z)
    (level : string) (t : tape) :
  In kind ["behavioral"; "situational"; "general"] ->
  In level ["easy"; "medium"; "hard"] ->
  0 <= count ->
  exists out t', from_templates kind expected count level t = Ok (out, t').
Proof.
  intros Hk Hl Hc.
  destruct (lookup_levels kind level) as (bl & tpl & H1 & H2 & _);
    [cbn in *; tauto | exact Hl |].
  destruct (from_templates_run kind expected count level bl tpl t H1 H2 Hc)
    as (out & t' & Hrun & _).
  eauto.
Qed.

(** Whatever the job role, the difficulty, the resume and the requested
    count (zero and negative counts included) are, every sampling call of
    [generate] gets a count that is not negative: once the quotas are
    computed, [generate] returns. *)
Lemma generate_never_raises (job_role difficulty : string)
    (resume_data : option ResumeData) (question_count : Z) (t : tape) :
  (exists e, generate job_role difficulty resume_data question_count t
             = Raise e
             /\ _get_question_distribution question_count t = Raise e)
  \/ exists questions t',
       generate job_role difficulty resume_data question_count t
       = Ok (questions, t').
Proof.
  pose proof (diff_level_cases difficulty) as Hl.
  remember (generate job_role difficulty resume_data question_count t)
    as run eqn:Erun.
  unfold generate in Erun. cbv zeta in Erun. unfold bind at 1 in Erun.
  set (level := Dict.get difficulty difficulty_map "medium") in *.
  destruct (distribution_run question_count)
    as [(e & _ & H) | (d & H & Ht & Hb & Hs & Hg)]; rewrite (H t) in Erun;
    subst run; [left; eauto | right].
  assert (exists tech t1,
             match resume_data with
             | Some {| skills := Some ((_ :: _) as sk) |} =>
                 _generate_technical_questions sk (technical d) level
             | _ => ret []
             end t = Ok (tech, t1)
             /\ count_category "technical" tech <= technical d)
    as (tech & t1 & Htech & Hcount).
  { destruct resume_data as [[[[|s sk] |]] |];
      try (exists [], t; split; [reflexivity | cbn; lia]).
    destruct (generate_technical_run (s :: sk) (technical d) level t Hl)
      as (out & t' & Hrun & Hlen & Hcat); [lia |].
    exists out, t'. split; [cbv beta iota zeta; exact Hrun |].
    now rewrite (count_category_same _ _ Hcat). }
  unfold bind at 1. rewrite Htech.
  unfold bind at 1.
  destruct (role_specific_run job_role
              (technical d - count_category "technical" tech) t1)
    as (rq & t2 & -> & _); [lia |].
  unfold bind at 1.
  destruct (from_templates_total "behavioral"
              "Expected to use STAR method (Situation, Task, Action, Result) to provide specific examples."
              (behavioral d) level t2) as (bq & t3 & Hrun);
    [cbn; auto | exact Hl | lia |].
  unfold _generate_behavioral_questions. rewrite Hrun. clear Hrun.
  unfold bind at 1.
  destruct (from_templates_total "situational"
              "Expected to demonstrate problem-solving approach and decision-making process."
              (situational d) level t3) as (sq & t4 & Hrun);
    [cbn; auto | exact Hl | lia |].
  unfold _generate_situational_questions. rewrite Hrun. clear Hrun.
  unfold bind at 1.
  destruct (from_templates_total "general"
              "Expected to show passion, communication skills, and cultural fit."
              (general d) level t4) as (gq & t5 & Hrun);
    [cbn; auto | exact Hl | exact Hg |].
  unfold _generate_general_questions. rewrite Hrun. clear Hrun.
  unfold bind at 1.
  destruct (shuffle_run ((((tech ++ rq) ++ bq) ++ sq) ++ gq)%list t5)
    as (shuffled & t6 & -> & _).
  unfold ret. eauto.
Qed.

End QuestionFacts.

(** ** Further properties of the answer analyzer *)

Module ScoringFacts.

Import Str StrFacts AnswerAnalyzer AnalyzerFacts.

Lemma strip_nonempty (answer : string) :
  (10 <= String.length (strip answer))%nat ->
  String.eqb answer "" || (String.length (strip answer) <? 10)%nat = false.
Proof.
  intros H. apply orb_false_iff. split.
  - destruct answer; [cbn in H; lia | reflexivity].
  - apply Nat.ltb_ge. exact H.
Qed.

Lemma readability_range
    (flesch_reading_ease flesch_kincaid_grade : string -> option Q)
    (nlp : option (string -> SpacyDoc)) (answer : string) :
  0 <= readability_score
         (_analyze_linguistics flesch_reading_ease flesch_kincaid_grade nlp
                               answer) <= 100.
Proof.
  unfold _analyze_linguistics.
  destruct (match flesch_reading_ease answer with
            | Some r => match flesch_kincaid_grade answer with
                        | Some g => (r, g)
                        | None => (50, 10)
                        end
            | None => (50, 10)
            end) as [readability grade].
  destruct nlp as [pipeline |]; cbn [readability_score];
    qminmax; split; lra.
Qed.

Lemma count_present_le (phrases : list string) (hay : string) :
  (count_present phrases hay <= Z.of_nat (List.length phrases))%Z.
Proof.
  unfold count_present. apply inj_le. apply filter_length_le.
Qed.

Lemma depth_at_most_70 (answer question category : string) :
  depth_score (_analyze_content answer question category)
  == of_int (count_present depth_indicators (lower answer) * 10)
  /\ depth_score (_analyze_content answer question category) <= 70.
Proof.
  pose proof (count_present_le depth_indicators (lower answer)) as Hle.
  pose proof (count_present_nonneg depth_indicators (lower answer)) as Hnn.
  change (Z.of_nat (List.length depth_indicators)) with 7%Z in Hle.
  assert (depth_score (_analyze_content answer question category)
          == of_int (count_present depth_indicators (lower answer) * 10))
    as Hd.
  { unfold _analyze_content. cbn [depth_score].
    rewrite Z.min_r by lia. reflexivity. }
  split; [exact Hd |]. rewrite Hd. apply (of_int_le _ 70). lia.
Qed.

Lemma content_at_most_85
    (flesch_reading_ease flesch_kincaid_grade : string -> option Q)
    (nlp : option (string -> SpacyDoc))
    (sentiment_analyzer : option (string -> option Q))
    (question answer category job_role : string) :
  Scores.content_score
    (_calculate_scores
       (sub_analyses flesch_reading_ease flesch_kincaid_grade nlp
                     sentiment_analyzer question answer category job_role))
  <= 85.
Proof.
  destruct (depth_at_most_70 answer question category) as [_ Hd].
  pose proof (relevance_range answer question category) as Hr.
  unfold _calculate_scores, sub_analyses.
  cbn [Scores.content_score content_analysis].
  apply Qle_shift_div_r; lra.
Qed.

Lemma communication_range
    (flesch_reading_ease flesch_kincaid_grade : string -> option Q)
    (nlp : option (string -> SpacyDoc))
    (sentiment_analyzer : option (string -> option Q))
    (question answer category job_role : string) :
  0 <= Scores.communication_score
         (_calculate_scores
            (sub_analyses flesch_reading_ease flesch_kincaid_grade nlp
               sentiment_analyzer question answer category job_role))
    <= 100.
Proof.
  unfold _calculate_scores, sub_analyses.
  cbn [Scores.communication_score linguistic_analysis confidence_analysis].
  pose proof (readability_range flesch_reading_ease flesch_kincaid_grade nlp
                                answer) as Hr.
  pose proof (confidence_range sentiment_analyzer answer) as Hc.
  assert (0 <= of_int (confidence_score
                         (_analyze_confidence sentiment_analyzer answer))
          <= 100) as Hc'.
  { split; [apply of_int_nonneg | apply (of_int_le _ 100)]; lia. }
  apply average_range; assumption.
Qed.

Lemma star_score_zero (answer category : string) :
  category <> "behavioral" ->
  star_score (_analyze_structure answer category) = 0%Z.
Proof.
  intros Hc. unfold _analyze_structure.
  apply String.eqb_neq in Hc. rewrite Hc. reflexivity.
Qed.

(** The answers that are not short.  Whenever the trimmed answer has at
    least 10 characters, [analyze] returns the full dictionary with the six
    sub-analyses and their aggregate, and every score of the aggregate lies
    between 0 and 100, except for the structure score, which lies between 0
    and 150. *)
Theorem analyze_normal_path
    (flesch_reading_ease flesch_kincaid_grade : string -> option Q)
    (nlp : option (string -> SpacyDoc))
    (sentiment_analyzer : option (string -> option Q))
    (question answer category job_role : string) :
  (10 <= String.length (strip answer))%nat ->
  let sub :=
    sub_analyses flesch_reading_ease flesch_kincaid_grade nlp
                 sentiment_analyzer question answer category job_role in
  let s := _calculate_scores sub in
  analyze flesch_reading_ease flesch_kincaid_grade nlp sentiment_analyzer
          question answer category job_role
  = FullAnalysis sub s
  /\ 0 <= Scores.overall_score s <= 100
  /\ 0 <= Scores.content_score s <= 100
  /\ 0 <= Scores.technical_score s <= 100
  /\ 0 <= Scores.structure_score s <= 150
  /\ 0 <= Scores.confidence_score s <= 100
  /\ 0 <= Scores.completeness_score s <= 100
  /\ 0 <= Scores.communication_score s <= 100.
Proof.
  intros Hlen sub s.
  split.
  { unfold analyze. now rewrite (strip_nonempty answer Hlen). }
  pose proof (normal_path_score_ranges flesch_reading_ease
                flesch_kincaid_grade nlp sentiment_analyzer question answer
                category job_role) as H.
  cbv zeta in H. fold sub in H. fold s in H.
  destruct H as (H1 & H2 & H3 & H4 & H5 & H6).
  repeat (split; [assumption |]).
  apply communication_range.
Qed.

Lemma analyze_normal_path_witness :
  0 <= Scores.structure_score
         (_calculate_scores
            (sub_analyses (fun _ => None) (fun _ => None) None None
               star_question star_answer "behavioral" "software engineer"))
    <= 150.
Proof.
  refine (proj1 (proj2 (proj2 (proj2 (proj2
    (analyze_normal_path (fun _ => None) (fun _ => None) None None
       star_question star_answer "behavioral" "software engineer" _)))))).
  vm_compute. lia.
Defined.

(** The depth score counts 7 indicators at 10 points each, so it never
    exceeds 70 and its cap at 100 never applies; the content score, the
    average of relevance and depth, therefore never exceeds 85. *)
Theorem content_score_at_most_85
    (flesch_reading_ease flesch_kincaid_grade : string -> option Q)
    (nlp : option (string -> SpacyDoc))
    (sentiment_analyzer : option (string -> option Q))
    (question answer category job_role : string) :
  depth_score (_analyze_content answer question category)
  == of_int (count_present depth_indicators (lower answer) * 10)
  /\ depth_score (_analyze_content answer question category) <= 70
  /\ Scores.content_score
       (_calculate_scores
          (sub_analyses flesch_reading_ease flesch_kincaid_grade nlp
                        sentiment_analyzer question answer category job_role))
     <= 85.
Proof.
  destruct (depth_at_most_70 answer question category) as [Hd Hd70].
  split; [exact Hd |]. split; [exact Hd70 |].
  pose proof (relevance_range answer question category) as Hr.
  unfold _calculate_scores, sub_analyses.
  cbn [Scores.content_score content_analysis].
  apply Qle_shift_div_r; lra.
Qed.

(** Outside the behavioral category no STAR component is looked for: the
    STAR score is 0 and the structure score, made of the three bonuses
    alone, is at most 50. *)
Theorem structure_without_star (answer category : string) :
  category <> "behavioral" ->
  let s := _analyze_structure answer category in
  star_components s = []
  /\ star_score s = 0%Z
  /\ (0 <= structure_score s <= 50)%Z
  /\ structure_score s
     = ((if has_logical_flow s then 25 else 0)
        + (if has_introduction s then 15 else 0)
        + (if has_conclusion s then 10 else 0))%Z.
Proof.
  intros Hc. cbv zeta. unfold _analyze_structure.
  apply String.eqb_neq in Hc. rewrite Hc.
  cbn [star_components star_score structure_score has_logical_flow
       has_introduction has_conclusion fold_left].
  repeat split; try reflexivity;
    destruct (0 <? _)%Z, (if contains "." answer then _ else false),
      (any_in conclusion_phrases _); lia.
Qed.

Lemma structure_without_star_witness :
  (0 <= structure_score (_analyze_structure star_answer "technical") <= 50)%Z.
Proof.
  refine (proj1 (proj2 (proj2
    (structure_without_star star_answer "technical" _)))).
  discriminate.
Defined.

(** The length score by position of the word count relative to the
    expected band of the category: exactly 100 on the band, both ends
    included; below 70 under it; from 70 to below 100 over it, so that a
    long answer never scores less than one within a word of the minimum. *)
Theorem length_score_bands (answer question category : string) :
  let c := _analyze_completeness answer question category in
  let wc := count_words answer in
  let '(min_length, max_length) := expected_length category in
  if (wc <? min_length)%Z then 0 <= length_score c /\ length_score c < 70
  else if (max_length <? wc)%Z
       then 70 <= length_score c /\ length_score c < 100
       else length_score c == 100.
Proof.
  cbv zeta. unfold _analyze_completeness.
  destruct (expected_length_ordered category) as [Hpos Hord].
  destruct (expected_length category) as [mn mx]. cbn [fst snd] in *.
  cbn [length_score].
  assert (0 <= count_words answer)%Z as Hwc by (unfold count_words; lia).
  set (wc := count_words answer) in *.
  destruct (Z.ltb_spec wc mn) as [Hlt | Hge];
    [| destruct (Z.ltb_spec mx wc) as [Hgt | Hle]].
  - pose proof (of_int_div_nonneg wc mn Hwc Hpos) as H0.
    assert (of_int wc / of_int mn < 1) as H1.
    { apply Qlt_shift_div_r; [now apply of_int_pos |].
      rewrite Qmult_1_l. unfold of_int, Qlt. simpl. lia. }
    split; lra.
  - assert (0 < of_int (wc - mx) / of_int mx) as H0.
    { apply Qlt_shift_div_l; [apply of_int_pos; lia |].
      rewrite Qmult_0_l. apply of_int_pos. lia. }
    qminmax; split; lra.
  - reflexivity.
Qed.

(** *** The fall-backs of the linguistic analysis *)

Lemma dedup_shorter (l : list string) :
  (List.length (dedup l) <= List.length l)%nat.
Proof.
  unfold dedup. induction l as [|x l IH]; cbn [nodup List.length]; [lia |].
  destruct (in_dec string_dec x l); cbn [List.length]; lia.
Qed.

Lemma count_ending_range (suffixes words : list string) :
  (0 <= count_ending suffixes words <= Z.of_nat (List.length words))%Z.
Proof.
  unfold count_ending. split; [lia |]. apply inj_le. apply filter_length_le.
Qed.

(** The two fall-backs of the linguistic analysis.  When either
    readability call of textstat raises, both values fall back together,
    with or without a spaCy model: the readability score is 50 and the
    grade level 10, even if the other call had returned.  Without a spaCy
    model, whether textstat raises or not, the vocabulary diversity is a
    percentage and each of the three word-type counts is at most the number
    of words. *)
Theorem linguistics_fallbacks
    (flesch_reading_ease flesch_kincaid_grade : string -> option Q)
    (answer : string) :
  (flesch_reading_ease answer = None \/ flesch_kincaid_grade answer = None ->
   forall nlp : option (string -> SpacyDoc),
     let l := _analyze_linguistics flesch_reading_ease flesch_kincaid_grade
                                   nlp answer in
     readability_score l == 50 /\ grade_level l == 10)
  /\ (let l := _analyze_linguistics flesch_reading_ease flesch_kincaid_grade
                                    None answer in
      let words := Z.of_nat (List.length (split answer)) in
      0 <= vocabulary_diversity l <= 100
      /\ (0 <= nouns (word_types l) <= words
          /\ 0 <= verbs (word_types l) <= words
          /\ 0 <= adjectives (word_types l) <= words)%Z).
Proof.
  split.
  - intros Hraise nlp. cbv zeta. unfold _analyze_linguistics.
    assert (match flesch_reading_ease answer with
            | Some r => match flesch_kincaid_grade answer with
                        | Some g => (r, g)
                        | None => (50, 10)
                        end
            | None => (50, 10)
            end = (50, 10)) as E.
    { destruct Hraise as [-> | ->]; [reflexivity |].
      now destruct (flesch_reading_ease answer). }
    rewrite E. destruct nlp as [pipeline |];
      cbn [readability_score grade_level]; (split; [now vm_compute |]);
      reflexivity.
  - cbv zeta. unfold _analyze_linguistics.
    destruct (match flesch_reading_ease answer with
              | Some r => match flesch_kincaid_grade answer with
                          | Some g => (r, g)
                          | None => (50, 10)
                          end
              | None => (50, 10)
              end) as [readability grade].
    cbn [vocabulary_diversity word_types nouns verbs adjectives].
    split.
    + pose proof (dedup_shorter (split answer)) as Hd.
      set (u := Z.of_nat (List.length (dedup (split answer)))) in *.
      set (n := Z.of_nat (List.length (split answer))) in *.
      assert (0 <= of_int u / of_int (Z.max n 1)) as H0
          by (apply of_int_div_nonneg; unfold u; lia).
      assert (of_int u / of_int (Z.max n 1) <= of_int 1) as H1
          by (apply of_int_div_le; unfold u, n in *; lia).
      change (of_int 1) with 1 in H1. split; lra.
    + repeat split; apply count_ending_range.
Qed.

Lemma linguistics_fallbacks_witness :
  readability_score
    (_analyze_linguistics (fun _ => Some 80) (fun _ => None)
       (Some (fun _ => mkDoc 7 1 6 2 3 1))
       "Testing shows the station closed quickly")
  == 50.
Proof.
  refine (proj1 (proj1 (linguistics_fallbacks (fun _ => Some 80)
                          (fun _ => None)
                          "Testing shows the station closed quickly") _
                   (Some (fun _ => mkDoc 7 1 6 2 3 1)))).
  now right.
Defined.

(** *** Relevance *)

Lemma filter_all {A} (f : A -> bool) (l : list A) :
  (forall x, In x l -> f x = true) -> filter f l = l.
Proof.
  induction l as [|a l IH]; intros H; cbn [filter]; [reflexivity |].
  rewrite (H a) by now left. f_equal. apply IH. intros x Hx. apply H.
  now right.
Qed.

Lemma filter_none {A} (f : A -> bool) (l : list A) :
  (forall x, In x l -> f x = false) -> filter f l = [].
Proof.
  induction l as [|a l IH]; intros H; cbn [filter]; [reflexivity |].
  rewrite (H a) by now left. apply IH. intros x Hx. apply H. now right.
Qed.

Lemma member_spec (x : string) (l : list string) :
  existsb (String.eqb x) l = true <-> In x l.
Proof.
  rewrite existsb_exists. split.
  - intros (y & Hy & E). apply String.eqb_eq in E. now subst.
  - intros H. exists x. split; [exact H | apply String.eqb_refl].
Qed.

Lemma dedup_idempotent (l : list string) : dedup (dedup l) = dedup l.
Proof. unfold dedup. apply nodup_fixed_point. apply NoDup_nodup. Qed.

(** The size of the intersection of the two key-word sets. *)
Lemma inter_size_dedup (q a : list string) :
  inter_size (dedup q) (dedup a)
  = Z.of_nat (List.length (filter (fun x => existsb (String.eqb x) a)
                                  (dedup q))).
Proof.
  unfold inter_size. rewrite dedup_idempotent. do 2 f_equal.
  apply filter_ext_in. intros x _.
  destruct (existsb (String.eqb x) a) eqn:E.
  - apply member_spec. unfold dedup. apply nodup_In. now apply member_spec.
  - destruct (existsb (String.eqb x) (dedup a)) eqn:E'; [| reflexivity].
    apply member_spec in E'. unfold dedup in E'. apply nodup_In in E'.
    apply member_spec in E'. congruence.
Qed.

(** When every word of the question occurs among the words of the answer
    (letter case ignored), the relevance score is 100. *)
Theorem relevance_full_overlap (answer question category : string) :
  findall_words (lower question) <> [] ->
  incl (findall_words (lower question)) (findall_words (lower answer)) ->
  relevance_score (_analyze_content answer question category) == 100.
Proof.
  intros Hne Hincl. unfold _analyze_content. cbn [relevance_score].
  rewrite inter_size_dedup.
  rewrite filter_all.
  - set (n := Z.of_nat (List.length (dedup (findall_words (lower question))))).
    assert (0 < n)%Z as Hn.
    { unfold n. destruct (findall_words (lower question)) as [|w l] eqn:E;
        [contradiction |].
      assert (In w (dedup (w :: l))) as Hin
          by (unfold dedup; apply nodup_In; now left).
      destruct (dedup (w :: l)); [contradiction | cbn [List.length]; lia]. }
    rewrite Z.max_l by lia.
    assert (of_int n / of_int n * 100 == 100) as E.
    { pose proof (of_int_pos n Hn). field. lra. }
    rewrite E. apply Q.min_id.
  - intros x Hx. apply member_spec. apply Hincl.
    unfold dedup in Hx. now apply nodup_In in Hx.
Qed.

Lemma relevance_full_overlap_witness :
  relevance_score
    (_analyze_content "What a cache is: a fast store." "What is a cache?"
                      "technical") == 100.
Proof.
  apply relevance_full_overlap.
  - vm_compute. discriminate.
  - vm_compute. intros w H.
    repeat (destruct H as [<- | H]; [tauto |]). contradiction.
Defined.

(** When no word of the question occurs among the words of the answer, in
    particular when the question has no word at all, the relevance score is
    0: the denominator is kept at 1 or more. *)
Theorem relevance_no_overlap (answer question category : string) :
  (forall w, In w (findall_words (lower question)) ->
             ~ In w (findall_words (lower answer))) ->
  relevance_score (_analyze_content answer question category) == 0.
Proof.
  intros Hno. unfold _analyze_content. cbn [relevance_score].
  rewrite inter_size_dedup.
  rewrite filter_none.
  - cbn [List.length]. change (of_int (Z.of_nat 0)) with 0.
    set (d := of_int _).
    assert (0 / d * 100 == 0) as E by (unfold Qdiv; ring).
    rewrite E. apply Q.min_r. lra.
  - intros x Hx. unfold dedup in Hx. apply nodup_In in Hx.
    destruct (existsb (String.eqb x) (findall_words (lower answer))) eqn:E;
      [| reflexivity].
    apply member_spec in E. now apply Hno in Hx.
Qed.

Lemma relevance_no_overlap_witness :
  relevance_score (_analyze_content "Caches are fast." "???" "technical") == 0.
Proof.
  apply relevance_no_overlap. vm_compute. intros w H. contradiction.
Defined.

End ScoringFacts.

(** ** From the analysis to the feedback *)

Module PipelineFacts.

Import Str AnswerAnalyzer AnalyzerFacts ScoringFacts.
Import FeedbackGenerator RandomFacts FeedbackFacts.

Definition star_hint : string :=
  "Practice using the STAR method (Situation, Task, Action, Result) for behavioral questions".

(** The three lists and the packet of a full analysis. *)
Lemma generate_feedback_full (sub : SubAnalyses) (scores : Scores.t)
    (t : tape) :
  exists strs t1 imps t2 sugg t3,
    _identify_strengths (FullAnalysis sub scores) t = Ok (strs, t1)
    /\ _identify_improvements (FullAnalysis sub scores) t1 = Ok (imps, t2)
    /\ _generate_suggestions (FullAnalysis sub scores) t2 = Ok (sugg, t3)
    /\ generate_feedback (FullAnalysis sub scores) t
       = Ok ({| score := int (Scores.overall_score scores);
                strengths := strs;
                improvements := imps;
                suggestions := sugg;
                technicalAccuracy :=
                  int (Qmin 100 (Scores.technical_score scores));
                communication :=
                  int (Qmin 100 (Scores.communication_score scores));
                confidence :=
                  int (Qmin 100 (Scores.confidence_score scores));
                detailed_scores :=
                  {| d_content := int (Scores.content_score scores);
                     d_technical := int (Scores.technical_score scores);
                     d_structure := int (Scores.structure_score scores);
                     d_completeness :=
                       int (Scores.completeness_score scores) |} |}, t3).
Proof.
  destruct (identify_strengths_run (FullAnalysis sub scores) t)
    as (strs & t1 & Hs & _).
  destruct (identify_improvements_run (FullAnalysis sub scores) t1)
    as (imps & t2 & Hi & _).
  destruct (generate_suggestions_run (FullAnalysis sub scores) t2)
    as (sugg & t3 & Hg & _).
  exists strs, t1, imps, t2, sugg, t3.
  repeat (split; [assumption |]).
  unfold generate_feedback. cbv zeta.
  unfold bind at 1. rewrite Hs. unfold bind at 1. rewrite Hi.
  unfold bind at 1. rewrite Hg. reflexivity.
Qed.

Lemma suggestions_star (sub : SubAnalyses) (scores : Scores.t) (t : tape) :
  (star_score (structure_analysis sub) < 50)%Z ->
  exists sugg t',
    _generate_suggestions (FullAnalysis sub scores) t = Ok (sugg, t')
    /\ In star_hint sugg.
Proof.
  intros Hstar. unfold _generate_suggestions. cbv zeta.
  do 3 step_choice.
  unfold get_star_score, get_hedge_word_count, bind at 1 2, ret at 1 2.
  apply Z.ltb_lt in Hstar. rewrite Hstar.
  eexists; eexists. split; [reflexivity |].
  unfold append_if, when, star_hint.
  destruct (Qltb (Scores.technical_score _) 70),
    (Qltb (Scores.communication_score _) 70 || _),
    (Qltb (Scores.overall_score _) 70),
    (3 <? hedge_word_count _)%Z; cbn; tauto.
Qed.

(** A short answer gets no feedback: the dictionary that [analyze] returns
    for a trimmed answer of fewer than 10 characters has no ['star_score'],
    and [generate_feedback] raises [KeyError] on it, whatever the random
    draws are. *)
Theorem feedback_fails_on_short_answer
    (flesch_reading_ease flesch_kincaid_grade : string -> option Q)
    (nlp : option (string -> SpacyDoc))
    (sentiment_analyzer : option (string -> option Q))
    (question answer category job_role : string) (t : tape) :
  (String.length (strip answer) < 10)%nat ->
  generate_feedback
    (analyze flesch_reading_ease flesch_kincaid_grade nlp sentiment_analyzer
             question answer category job_role) t
  = Raise KeyError.
Proof.
  intros Hlen. unfold analyze.
  apply Nat.ltb_lt in Hlen. rewrite Hlen, orb_true_r.
  apply feedback_on_short_answer.
Qed.

Lemma feedback_fails_on_short_answer_witness :
  generate_feedback
    (analyze (fun _ => None) (fun _ => None) None None
             "Why?" "Because." "general" "tester") [1; 2; 3]%nat
  = Raise KeyError.
Proof.
  apply feedback_fails_on_short_answer. vm_compute. lia.
Defined.

(** Outside the behavioral category the STAR score is 0, so the feedback
    on an answer of 10 characters or more always suggests practising the
    STAR method, technical, situational and general questions included: the
    hint is at most the fourth suggestion and passes the cap. *)
Theorem star_hint_outside_behavioral
    (flesch_reading_ease flesch_kincaid_grade : string -> option Q)
    (nlp : option (string -> SpacyDoc))
    (sentiment_analyzer : option (string -> option Q))
    (question answer category job_role : string) (t : tape) :
  category <> "behavioral" ->
  (10 <= String.length (strip answer))%nat ->
  exists fb t',
    generate_feedback
      (analyze flesch_reading_ease flesch_kincaid_grade nlp
               sentiment_analyzer question answer category job_role) t
    = Ok (fb, t')
    /\ In star_hint (suggestions fb).
Proof.
  intros Hcat Hlen. unfold analyze. rewrite (strip_nonempty answer Hlen).
  set (sub := sub_analyses _ _ _ _ _ _ _ _).
  destruct (generate_feedback_full sub (_calculate_scores sub) t)
    as (strs & t1 & imps & t2 & sugg & t3 & _ & _ & Hg & ->).
  eexists; eexists. split; [reflexivity |]. cbn [suggestions].
  destruct (suggestions_star sub (_calculate_scores sub) t2)
    as (sugg' & t3' & Hg' & Hin).
  - unfold sub, sub_analyses. cbn [structure_analysis].
    rewrite (star_score_zero answer category Hcat). lia.
  - rewrite Hg in Hg'. injection Hg' as -> _. exact Hin.
Qed.

Lemma star_hint_outside_behavioral_witness :
  exists fb t',
    generate_feedback cache_analysis [] = Ok (fb, t')
    /\ In star_hint (suggestions fb).
Proof.
  apply (star_hint_outside_behavioral (fun _ => None) (fun _ => None) None
           None cache_question cache_answer "technical" "backend developer").
  - discriminate.
  - vm_compute. lia.
Defined.

Lemma int_range (x : Q) (k : Z) :
  0 <= x <= of_int k -> (0 <= int x <= k)%Z.
Proof.
  intros [H0 Hk]. unfold int. destruct x as [n d].
  unfold Qle, of_int, inject_Z in *. cbn [Qnum Qden] in *.
  assert (0 <= n)%Z as Hn by lia.
  rewrite Z.quot_div_nonneg by lia. split.
  - apply Z.div_pos; lia.
  - apply Z.div_le_upper_bound; lia.
Qed.

Ltac in_range k :=
  apply (int_range _ k); unfold of_int, inject_Z; qminmax; split; lra.

(** The numbers of the packet of an answer of 10 characters or more: the
    overall score, the technical accuracy, the communication and confidence
    values and the detailed technical and completeness scores are integers
    between 0 and 100, the detailed content score is at most 85 and the
    detailed structure score at most 150. *)
Theorem feedback_numbers_in_range
    (flesch_reading_ease flesch_kincaid_grade : string -> option Q)
    (nlp : option (string -> SpacyDoc))
    (sentiment_analyzer : option (string -> option Q))
    (question answer category job_role : string) (t : tape) :
  (10 <= String.length (strip answer))%nat ->
  exists fb t',
    generate_feedback
      (analyze flesch_reading_ease flesch_kincaid_grade nlp
               sentiment_analyzer question answer category job_role) t
    = Ok (fb, t')
    /\ (0 <= score fb <= 100
        /\ 0 <= technicalAccuracy fb <= 100
        /\ 0 <= communication fb <= 100
        /\ 0 <= confidence fb <= 100
        /\ 0 <= d_content (detailed_scores fb) <= 85
        /\ 0 <= d_technical (detailed_scores fb) <= 100
        /\ 0 <= d_structure (detailed_scores fb) <= 150
        /\ 0 <= d_completeness (detailed_scores fb) <= 100)%Z.
Proof.
  intros Hlen.
  unfold analyze. rewrite (strip_nonempty answer Hlen).
  destruct (normal_path_score_ranges flesch_reading_ease flesch_kincaid_grade
              nlp sentiment_analyzer question answer category job_role)
    as (Ho & Hc & Ht & Hs & Hf & Hp).
  pose proof (communication_range flesch_reading_ease flesch_kincaid_grade
                nlp sentiment_analyzer question answer category job_role)
    as Hm.
  pose proof (content_at_most_85 flesch_reading_ease flesch_kincaid_grade
                nlp sentiment_analyzer question answer category job_role)
    as Hc85.
  set (sub := sub_analyses _ _ _ _ _ _ _ _) in *.
  set (s := _calculate_scores sub) in *.
  destruct (generate_feedback_full sub s t)
    as (strs & t1 & imps & t2 & sugg & t3 & _ & _ & _ & ->).
  eexists; eexists. split; [reflexivity |].
  cbn [score technicalAccuracy communication confidence detailed_scores
       d_content d_technical d_structure d_completeness].
  clearbody s.
  split; [in_range 100%Z |]. split; [in_range 100%Z |].
  split; [in_range 100%Z |]. split; [in_range 100%Z |].
  split; [in_range 85%Z |]. split; [in_range 100%Z |].
  split; [in_range 150%Z | in_range 100%Z].
Qed.

Lemma feedback_numbers_in_range_witness :
  exists fb t',
    generate_feedback cache_analysis [] = Ok (fb, t')
    /\ (0 <= d_structure (detailed_scores fb) <= 150)%Z.
Proof.
  destruct (feedback_numbers_in_range (fun _ => None) (fun _ => None) None
              None cache_question cache_answer "technical"
              "backend developer" [])
    as (fb & t' & Hrun & H); [vm_compute; lia |].
  exists fb, t'. split; [exact Hrun | tauto].
Defined.

(** The job role of a request plays no part in the scores or in the
    feedback: it only selects the terms counted in [role_technical_score],
    which no score reads.  Two analyses of the same question, answer and
    category for different job roles have the same score set and get the
    same feedback on the same random draws. *)
Theorem job_role_is_not_scored
    (flesch_reading_ease flesch_kincaid_grade : string -> option Q)
    (nlp : option (string -> SpacyDoc))
    (sentiment_analyzer : option (string -> option Q))
    (question answer category job_role other_role : string) (t : tape) :
  let a1 := analyze flesch_reading_ease flesch_kincaid_grade nlp
                    sentiment_analyzer question answer category job_role in
  let a2 := analyze flesch_reading_ease flesch_kincaid_grade nlp
                    sentiment_analyzer question answer category other_role in
  scores_of a1 = scores_of a2
  /\ generate_feedback a1 t = generate_feedback a2 t.
Proof.
  cbv zeta. unfold analyze.
  destruct (String.eqb answer "" || _); [split; reflexivity |].
  assert (_calculate_scores
            (sub_analyses flesch_reading_ease flesch_kincaid_grade nlp
               sentiment_analyzer question answer category job_role)
          = _calculate_scores
              (sub_analyses flesch_reading_ease flesch_kincaid_grade nlp
                 sentiment_analyzer question answer category other_role))
    as E by reflexivity.
  split; [exact E |].
  unfold generate_feedback, _identify_strengths, _identify_improvements,
    _generate_suggestions, scores_of, get_has_examples, get_word_count,
    get_star_score, get_hedge_word_count.
  rewrite E. reflexivity.
Qed.

End PipelineFacts.

(** ** Further properties of the question generator *)

Module GenerationFacts.

Import Str StrFacts QuestionGenerator RandomFacts QuestionFacts.

Local Open Scope Z_scope.

(** *** The distribution *)

Definition quota_sum (d : Distribution) : Z :=
  technical d + behavioral d + situational d + general d.

(** The largest count for which the float products of the quotas have been
    compared with the exact percentages. *)
Definition quota_bound : Z := 1000.

(** The quotas of a count above 5 are the percentages 40, 30, 20 and 10 of
    the count, rounded down, and at least 2, 2, 1 and 1. *)
Definition rounded_down (total_count : Z) (d : Distribution) : bool :=
  (technical d =? Z.max 2 (total_count * 4 / 10))
  && (behavioral d =? Z.max 2 (total_count * 3 / 10))
  && (situational d =? Z.max 1 (total_count * 2 / 10))
  && (general d =? Z.max 1 (total_count * 1 / 10)).

Definition quotas_rounded_down (total_count : Z) : bool :=
  match _get_question_distribution total_count [] with
  | Ok (d, _) => rounded_down total_count d
  | Raise _ => false
  end.

Fixpoint checked_from (k : nat) (n : Z) : bool :=
  match k with
  | O => true
  | S k' => quotas_rounded_down n && checked_from k' (n + 1)
  end.

Lemma checked_from_spec (k : nat) (n m : Z) :
  checked_from k n = true -> n <= m < n + Z.of_nat k ->
  quotas_rounded_down m = true.
Proof.
  revert n. induction k as [|k IH]; intros n Hc Hm; [lia |].
  cbn [checked_from] in Hc. apply andb_prop in Hc. destruct Hc as [Hn Hk].
  destruct (Z.eq_dec m n) as [-> | Hne]; [exact Hn |].
  apply (IH (n + 1)); [exact Hk | lia].
Qed.

Lemma quotas_checked : checked_from 995 6 = true.
Proof. vm_compute. reflexivity. Qed.

(** In binary64 the products of a count from 6 to [quota_bound] truncate to
    the exact percentages. *)
Lemma distribution_exact (total_count : Z) :
  5 < total_count <= quota_bound ->
  exists d, (forall t, _get_question_distribution total_count t = Ok (d, t))
            /\ rounded_down total_count d = true.
Proof.
  intros Hn. unfold quota_bound in Hn.
  pose proof (checked_from_spec 995 6 total_count quotas_checked
                ltac:(lia)) as Hq.
  unfold quotas_rounded_down in Hq.
  destruct (distribution_run total_count) as [(e & _ & H) | (d & H & _)];
    rewrite H in Hq; [discriminate |].
  exists d. split; assumption.
Qed.

Lemma rounded_down_sum (total_count : Z) (d : Distribution) :
  5 < total_count -> rounded_down total_count d = true ->
  total_count - 3 <= quota_sum d <= total_count.
Proof.
  intros Hn H. unfold rounded_down in H.
  apply andb_prop in H. destruct H as [H Eg].
  apply andb_prop in H. destruct H as [H Es].
  apply andb_prop in H. destruct H as [Et Eb].
  apply Z.eqb_eq in Et, Eb, Es, Eg.
  unfold quota_sum.
  pose proof (Z.div_mod (total_count * 4) 10 ltac:(lia)) as H4.
  pose proof (Z.div_mod (total_count * 3) 10 ltac:(lia)) as H3.
  pose proof (Z.div_mod (total_count * 2) 10 ltac:(lia)) as H2.
  pose proof (Z.div_mod (total_count * 1) 10 ltac:(lia)) as H1.
  pose proof (Z.mod_pos_bound (total_count * 4) 10 ltac:(lia)) as B4.
  pose proof (Z.mod_pos_bound (total_count * 3) 10 ltac:(lia)) as B3.
  pose proof (Z.mod_pos_bound (total_count * 2) 10 ltac:(lia)) as B2.
  pose proof (Z.mod_pos_bound (total_count * 1) 10 ltac:(lia)) as B1.
  lia.
Qed.

(** The quotas of a request for a count from 0 to [quota_bound], computed
    as the code computes them, with the products of a count above 5 in
    binary64.  Up to 5 questions the quotas add up to 3, 4 or 5, never less
    than the count; above 5 each quota is its percentage of the count
    rounded down (at least 2, 2, 1 and 1), so that they add up to the count
    or to as much as 3 less. *)
Theorem distribution_sum (total_count : Z) (t : tape) :
  0 <= total_count <= quota_bound ->
  exists d,
    _get_question_distribution total_count t = Ok (d, t)
    /\ 1 <= technical d /\ 1 <= behavioral d /\ 1 <= situational d
    /\ 0 <= general d
    /\ if total_count <=? 5
       then total_count <= quota_sum d <= 5 /\ 3 <= quota_sum d
       else rounded_down total_count d = true
            /\ total_count - 3 <= quota_sum d <= total_count.
Proof.
  intros Hn.
  destruct (Z.leb_spec total_count 5) as [Hle | Hgt].
  - assert (total_count = 0 \/ total_count = 1 \/ total_count = 2
            \/ total_count = 3 \/ total_count = 4 \/ total_count = 5)
      as Hcases by lia.
    destruct Hcases as [-> | [-> | [-> | [-> | [-> | ->]]]]];
      eexists; (split; [reflexivity |]); vm_compute;
      repeat split; discriminate.
  - destruct (distribution_exact total_count) as (d & H & Hd); [lia |].
    destruct (distribution_run total_count)
      as [(e & _ & H') | (d' & H' & Hb)]; specialize (H' t);
      rewrite H in H'; [discriminate |].
    injection H' as <-.
    exists d. split; [apply H |].
    repeat (split; [lia |]). split; [exact Hd |].
    now apply rounded_down_sum.
Qed.

Lemma distribution_sum_witness :
  exists d,
    _get_question_distribution 7 [] = Ok (d, [])
    /\ 7 - 3 <= quota_sum d <= 7.
Proof.
  destruct (distribution_sum 7 [] ltac:(unfold quota_bound; lia))
    as (d & Hrun & _ & _ & _ & _ & H).
  exists d. split; [exact Hrun |]. exact (proj2 H).
Defined.

(** *** The template generators *)

Definition levels : list string := ["easy"; "medium"; "hard"].

Lemma template_lists (kind level : string) :
  In kind ["technical"; "behavioral"; "situational"; "general"] ->
  In level levels ->
  exists by_level templates,
    Dict.lookup kind question_templates = ret by_level
    /\ Dict.lookup level by_level = ret templates
    /\ List.length templates = 5%nat
    /\ NoDup templates.
Proof.
  intros Hk Hl. unfold levels in Hl. cbn [In] in Hk, Hl.
  destruct Hk as [<- | [<- | [<- | [<- | []]]]];
    destruct Hl as [<- | [<- | [<- | []]]];
    eexists; eexists; (split; [reflexivity |]);
    (split; [reflexivity |]); (split; [reflexivity |]);
    apply NoDup_by_nodup; vm_compute; reflexivity.
Qed.

(** What a question made from a template looks like. *)
Definition template_question (kind expected level : string) (q : Question)
  : Prop :=
  category q = kind /\ difficulty q = level
  /\ expectedAnswer q = Some expected /\ skill q = None /\ role q = None.

(** The template list a generator samples:
    [self.question_templates[kind][level]]. *)
Definition template_pool (kind level : string) : list string :=
  Dict.get level (Dict.get kind question_templates []) [].

Lemma lookup_get {V} (key : string) (d : list (string * V)) (v default : V) :
  Dict.lookup key d = ret v -> Dict.get key d default = v.
Proof.
  unfold Dict.lookup, Dict.get. intros H.
  destruct (find _ d) as [kv |].
  - apply (f_equal (fun c => c [])) in H. unfold ret in H. congruence.
  - apply (f_equal (fun c => c [])) in H. discriminate.
Qed.

Lemma from_templates_sample (kind expected : string) (count : Z)
    (level : string) (t : tape) :
  In kind ["behavioral"; "situational"; "general"] ->
  In level levels ->
  0 <= count ->
  exists out rest t',
    from_templates kind expected count level t = Ok (out, t')
    /\ len out = Z.min (len (template_pool kind level)) count
    /\ Permutation (template_pool kind level) (map question out ++ rest)
    /\ List.length (template_pool kind level) = 5%nat
    /\ NoDup (template_pool kind level)
    /\ Forall (template_question kind expected level) out.
Proof.
  intros Hk Hl Hc.
  destruct (template_lists kind level) as (bl & tpl & H1 & H2 & H5 & Hnd);
    [cbn in *; tauto | exact Hl |].
  assert (template_pool kind level = tpl) as ->.
  { unfold template_pool. rewrite (lookup_get _ _ _ _ H1).
    apply (lookup_get _ _ _ _ H2). }
  unfold from_templates.
  unfold bind at 1. rewrite H1. unfold ret at 1.
  unfold bind at 1. rewrite H2. unfold ret at 1.
  unfold bind at 1.
  destruct (sample_min_run tpl count t Hc)
    as (sel & rest & t' & -> & Hlen & Hp).
  unfold ret. eexists; exists rest; eexists. split; [reflexivity |].
  rewrite map_map. cbn [question]. rewrite map_id.
  split; [unfold len in *; now rewrite length_map |].
  split; [exact Hp |]. split; [exact H5 |]. split; [exact Hnd |].
  apply Forall_forall. intros q Hq. apply in_map_iff in Hq.
  destruct Hq as (x & <- & _). repeat split.
Qed.

Lemma from_templates_spec (kind expected : string) (count : Z)
    (level : string) (t : tape) :
  In kind ["behavioral"; "situational"; "general"] ->
  In level levels ->
  0 <= count ->
  exists out t',
    from_templates kind expected count level t = Ok (out, t')
    /\ len out = Z.min 5 count
    /\ NoDup out
    /\ Forall (template_question kind expected level) out.
Proof.
  intros Hk Hl Hc.
  destruct (from_templates_sample kind expected count level t Hk Hl Hc)
    as (out & rest & t' & Hrun & Hlen & Hp & H5 & Hnd & Hall).
  exists out, t'. split; [exact Hrun |].
  split; [unfold len in *; rewrite Hlen, H5; reflexivity |].
  split; [| exact Hall].
  apply (NoDup_map_inv question). now apply (sublist_NoDup _ _ _ Hp).
Qed.

(** The questions of a template generator: [out] holds min(5, count)
    pairwise different questions of the kind and level asked for, each with
    the expected-answer text of the generator and without skill or role,
    and the question texts are templates of that kind and level. *)
Definition template_batch (kind expected level : string) (count : Z)
    (out : list Question) : Prop :=
  len out = Z.min 5 count
  /\ NoDup out
  /\ Forall (template_question kind expected level) out
  /\ Forall (fun q => In (question q) (template_pool kind level)) out.

Lemma from_templates_batch (kind expected : string) (count : Z)
    (level : string) (t : tape) :
  In kind ["behavioral"; "situational"; "general"] ->
  In level levels ->
  0 <= count ->
  exists out t',
    from_templates kind expected count level t = Ok (out, t')
    /\ template_batch kind expected level count out.
Proof.
  intros Hk Hl Hc.
  destruct (from_templates_sample kind expected count level t Hk Hl Hc)
    as (out & rest & t' & Hrun & Hlen & Hp & H5 & Hnd & Hall).
  exists out, t'. split; [exact Hrun |].
  split; [unfold len in *; rewrite Hlen, H5; reflexivity |].
  split; [apply (NoDup_map_inv question);
          now apply (sublist_NoDup _ _ _ Hp) |].
  split; [exact Hall |].
  apply Forall_forall. intros q Hq.
  apply (sublist_In _ _ _ _ Hp). now apply in_map.
Qed.

(** The behavioral, situational and general generators, called with a
    count that is not negative and one of the levels easy, medium and hard,
    return min(5, count) questions that are pairwise different, are
    templates of the generator's kind at that level, carry that category,
    the level asked for and the expected-answer text of the generator, and
    have no skill and no role. *)
Theorem template_generators (count : Z) (level : string) (t : tape) :
  In level levels ->
  0 <= count ->
  (exists out t',
      _generate_behavioral_questions count level t = Ok (out, t')
      /\ template_batch "behavioral"
           "Expected to use STAR method (Situation, Task, Action, Result) to provide specific examples."
           level count out)
  /\ (exists out t',
         _generate_situational_questions count level t = Ok (out, t')
         /\ template_batch "situational"
              "Expected to demonstrate problem-solving approach and decision-making process."
              level count out)
  /\ (exists out t',
         _generate_general_questions count level t = Ok (out, t')
         /\ template_batch "general"
              "Expected to show passion, communication skills, and cultural fit."
              level count out).
Proof.
  intros Hl Hc.
  split; [| split].
  - apply from_templates_batch; [cbn; auto | exact Hl | exact Hc].
  - apply from_templates_batch; [cbn; auto | exact Hl | exact Hc].
  - apply from_templates_batch; [cbn; auto | exact Hl | exact Hc].
Qed.

Lemma template_generators_witness :
  exists out t',
    _generate_behavioral_questions 20 "hard" [4; 4; 4; 4; 4]%nat
    = Ok (out, t')
    /\ template_batch "behavioral"
         "Expected to use STAR method (Situation, Task, Action, Result) to provide specific examples."
         "hard" 20 out.
Proof.
  apply (template_generators 20 "hard" [4; 4; 4; 4; 4]%nat).
  - unfold levels. cbn. auto.
  - lia.
Defined.

Lemma lookup_missing {V} (key : string) (d : list (string * V)) (t : tape) :
  ~ In key (map fst d) -> Dict.lookup key d t = Raise KeyError.
Proof.
  intros Hno. unfold Dict.lookup.
  destruct (find (fun kv => String.eqb (fst kv) key) d) as [kv |] eqn:E;
    [| reflexivity].
  apply find_some in E. destruct E as [Hin E].
  apply String.eqb_eq in E. exfalso. apply Hno. rewrite <- E.
  now apply in_map.
Qed.

(** Called with a level other than easy, medium and hard, each of the four
    generators raises [KeyError] before it draws anything. *)
Theorem generators_unknown_level (count : Z) (level : string)
    (skills : list string) (t : tape) :
  ~ In level levels ->
  _generate_technical_questions skills count level t = Raise KeyError
  /\ _generate_behavioral_questions count level t = Raise KeyError
  /\ _generate_situational_questions count level t = Raise KeyError
  /\ _generate_general_questions count level t = Raise KeyError.
Proof.
  intros Hl.
  assert (forall by_level : list (string * list string),
             map fst by_level = levels ->
             Dict.lookup level by_level t = Raise KeyError) as Hmiss.
  { intros bl E. apply lookup_missing. now rewrite E. }
  repeat split.
  - unfold _generate_technical_questions.
    unfold bind at 1. cbn [Dict.lookup find question_templates fst snd
      String.eqb Ascii.eqb Bool.eqb]. unfold ret at 1.
    unfold bind at 1. now rewrite (Hmiss technical_templates).
  - unfold _generate_behavioral_questions, from_templates.
    unfold bind at 1. cbn [Dict.lookup find question_templates fst snd
      String.eqb Ascii.eqb Bool.eqb]. unfold ret at 1.
    unfold bind at 1. now rewrite (Hmiss behavioral_templates).
  - unfold _generate_situational_questions, from_templates.
    unfold bind at 1. cbn [Dict.lookup find question_templates fst snd
      String.eqb Ascii.eqb Bool.eqb]. unfold ret at 1.
    unfold bind at 1. now rewrite (Hmiss situational_templates).
  - unfold _generate_general_questions, from_templates.
    unfold bind at 1. cbn [Dict.lookup find question_templates fst snd
      String.eqb Ascii.eqb Bool.eqb]. unfold ret at 1.
    unfold bind at 1. now rewrite (Hmiss general_templates).
Qed.

Lemma generators_unknown_level_witness :
  _generate_behavioral_questions 3 "intermediate" [] = Raise KeyError.
Proof.
  apply (generators_unknown_level 3 "intermediate" [] []).
  unfold levels. cbn. intros [H | [H | [H | []]]]; discriminate.
Defined.

(** *** The technical generator *)

(** The text before and after the first [{skill}] of a template. *)
Fixpoint split_field (template : string) : option (string * string) :=
  match template with
  | EmptyString => None
  | String c t =>
      if startswith "{skill}" template then Some (EmptyString, drop 6 t)
      else match split_field t with
           | Some (pre, post) => Some (String c pre, post)
           | None => None
           end
  end.

Lemma format_skip (template skill : string) (k : nat) :
  format_skill template skill k = format_skill (drop k template) skill 0.
Proof.
  revert k. induction template as [|c t IH]; intros [|k]; try reflexivity.
  cbn [format_skill drop]. apply IH.
Qed.

Lemma format_split (template pre post skill : string) :
  split_field template = Some (pre, post) ->
  format_skill template skill 0
  = (pre ++ skill ++ format_skill post skill 0)%string.
Proof.
  revert pre. induction template as [|c t IH]; intros pre H;
    [discriminate |].
  cbn [split_field] in H. cbn [format_skill].
  destruct (startswith "{skill}" (String c t)).
  - injection H as <- <-. cbn [String.append]. now rewrite format_skip.
  - destruct (split_field t) as [[pre' post'] |]; [| discriminate].
    injection H as <- <-. cbn [String.append]. f_equal. now apply IH.
Qed.

Lemma format_mentions_skill (template skill : string) :
  split_field template <> None ->
  Substring skill (format_skill template skill 0).
Proof.
  intros H. destruct (split_field template) as [[pre post] |] eqn:E;
    [| contradiction].
  exists pre, (format_skill post skill 0). now apply format_split.
Qed.

Definition technical_pool (level : string) : list string :=
  Dict.get level technical_templates [].

Lemma technical_pool_spec (level : string) :
  In level levels ->
  Dict.lookup "technical" question_templates = ret technical_templates
  /\ Dict.lookup level technical_templates = ret (technical_pool level)
  /\ technical_pool level <> []
  /\ Forall (fun template => split_field template <> None)
            (technical_pool level).
Proof.
  intros Hl. unfold levels in Hl. cbn [In] in Hl.
  destruct Hl as [<- | [<- | [<- | []]]];
    (split; [reflexivity |]); (split; [reflexivity |]);
    (split; [discriminate |]);
    vm_compute; repeat constructor; discriminate.
Qed.

(** A question made for the skill [s]. *)
Definition skill_question (level s : string) (q : Question) : Prop :=
  category q = "technical" /\ difficulty q = level /\ role q = None
  /\ skill q = Some s
  /\ Substring s (question q)
  /\ expectedAnswer q
     = Some ("Expected to demonstrate knowledge of " ++ s
             ++ " with practical examples.")%string.

Lemma technical_loop_spec (selected : list string) (i count : Z)
    (level : string) (templates : list string) (t : tape) :
  templates <> [] ->
  Forall (fun template => split_field template <> None) templates ->
  i + len selected <= count ->
  exists out t',
    technical_loop i selected count level templates t = Ok (out, t')
    /\ Forall2 (fun q s => skill_question level s q) out selected.
Proof.
  intros Hne Hfield. revert i t.
  induction selected as [|s rest IH]; intros i t Hi.
  - exists [], t. split; [reflexivity | constructor].
  - cbn [technical_loop].
    unfold len in Hi. cbn [List.length] in Hi.
    replace (count <=? i) with false by (symmetry; apply Z.leb_gt; lia).
    unfold bind at 1.
    destruct (choice_run templates t Hne) as (template & t1 & Hin & ->).
    unfold bind at 1.
    destruct (IH (i + 1) t1) as (out & t2 & -> & Hall);
      [unfold len; lia |].
    unfold ret. eexists; eexists. split; [reflexivity |].
    constructor; [| exact Hall].
    repeat split. cbn [question].
    apply format_mentions_skill.
    now apply (proj1 (Forall_forall _ _) Hfield).
Qed.

(** For a count that is not negative and a level among easy, medium and
    hard, the technical generator returns one question for each of
    min(len(skills), count) skills taken from different positions of the
    list: a technical question of the level asked for whose text contains
    the skill and whose expected answer names it. *)
Theorem technical_questions_name_their_skill (skills : list string)
    (count : Z) (level : string) (t : tape) :
  In level levels ->
  0 <= count ->
  exists out selected rest t',
    _generate_technical_questions skills count level t = Ok (out, t')
    /\ len out = Z.min (len skills) count
    /\ Permutation skills (selected ++ rest)
    /\ Forall2 (fun q s => skill_question level s q) out selected.
Proof.
  intros Hl Hc.
  destruct (technical_pool_spec level Hl) as (H1 & H2 & Hne & Hfield).
  unfold _generate_technical_questions.
  unfold bind at 1. rewrite H1. unfold ret at 1.
  unfold bind at 1. rewrite H2. unfold ret at 1.
  unfold bind at 1.
  destruct (sample_min_run skills count t Hc)
    as (sel & rest & t1 & -> & Hsel & Hp).
  destruct (technical_loop_spec sel 0 count level (technical_pool level) t1
              Hne Hfield) as (out & t2 & -> & Hall); [lia |].
  exists out, sel, rest, t2. repeat split; try assumption.
  unfold len in *. rewrite (Forall2_length Hall). exact Hsel.
Qed.

Lemma technical_questions_name_their_skill_witness :
  exists out selected rest t',
    _generate_technical_questions ["Rocq"; "OCaml"; "Rust"] 2 "easy"
                                  [5; 1; 0; 3]%nat = Ok (out, t')
    /\ len out = Z.min (len ["Rocq"; "OCaml"; "Rust"]) 2
    /\ Permutation ["Rocq"; "OCaml"; "Rust"] (selected ++ rest)
    /\ Forall2 (fun q s => skill_question "easy" s q) out selected.
Proof.
  apply technical_questions_name_their_skill.
  - unfold levels. cbn. auto.
  - lia.
Defined.

(** *** The role-specific generator *)

(** A curated question of a role. *)
Definition role_question (job_role : string) (q : Question) : Prop :=
  (category q = "technical" \/ category q = "coding")
  /\ difficulty q = "medium" /\ role q = Some job_role
  /\ skill q = None /\ expectedAnswer q = None.

Lemma role_pool_fields (job_role : string) :
  Forall (role_question job_role) (role_pool job_role).
Proof.
  unfold role_pool, role_specific_questions. cbn [find fst snd].
  repeat destruct (Str.contains _ (Str.lower job_role));
    vm_compute;
    repeat (apply Forall_cons;
            [split; [first [left; reflexivity | right; reflexivity]
                    | repeat split; reflexivity] |]);
    apply Forall_nil.
Qed.

Lemma role_pool_unknown (job_role : string) :
  (forall key, In key (map fst role_specific_questions) ->
               ~ Substring key (lower job_role)) ->
  role_pool job_role = [].
Proof.
  intros Hno. unfold role_pool.
  destruct (find _ role_specific_questions) as [rk |] eqn:E; [| reflexivity].
  apply find_some in E. destruct E as [Hin Hc].
  apply contains_spec in Hc. exfalso.
  apply (Hno (fst rk)); [now apply in_map | exact Hc].
Qed.

(** The questions curated for a role always carry the difficulty medium,
    whatever level the interview has, the job role as it was written, no
    skill and no expected answer, and the category technical or coding.
    For a count that is not negative they are pairwise different. *)
Theorem role_questions_are_medium (job_role : string) (count : Z)
    (t : tape) :
  0 <= count ->
  exists out t',
    _generate_role_specific_questions job_role count t = Ok (out, t')
    /\ len out = Z.min (len (role_pool job_role)) count
    /\ NoDup out
    /\ Forall (role_question job_role) out.
Proof.
  intros Hc.
  destruct (role_specific_run job_role count t Hc)
    as (out & t' & Hrun & Hlen & Hnd & Hin).
  exists out, t'. repeat split; try assumption.
  apply Forall_forall. intros q Hq.
  apply (proj1 (Forall_forall _ _) (role_pool_fields job_role)).
  now apply (proj1 (Forall_forall _ _) Hin).
Qed.

Lemma role_questions_are_medium_witness :
  exists out t',
    _generate_role_specific_questions "Senior Backend Developer" 3
                                      [2; 0; 1]%nat = Ok (out, t')
    /\ len out = Z.min (len (role_pool "Senior Backend Developer")) 3
    /\ NoDup out
    /\ Forall (role_question "Senior Backend Developer") out.
Proof. apply role_questions_are_medium. lia. Defined.

(** A job role that contains none of the four role names (in any letter
    case) gets no curated question, without a draw and without an error,
    even for a negative count. *)
Theorem role_questions_unknown_role (job_role : string) (count : Z)
    (t : tape) :
  (forall key, In key (map fst role_specific_questions) ->
               ~ Substring key (lower job_role)) ->
  _generate_role_specific_questions job_role count t = Ok ([], t).
Proof.
  intros Hno. unfold _generate_role_specific_questions.
  now rewrite (role_pool_unknown job_role Hno).
Qed.

Lemma role_questions_unknown_role_witness :
  _generate_role_specific_questions "DevOps Engineer" (-4) [3; 3]%nat
  = Ok ([], [3; 3]%nat).
Proof.
  apply role_questions_unknown_role.
  intros key Hin H. apply contains_spec in H.
  cbn [map fst role_specific_questions In] in Hin.
  destruct Hin as [<- | [<- | [<- | [<- | []]]]]; vm_compute in H;
    discriminate.
Defined.

(** *** Sampling without replacement *)







(** *** [generate] as a whole *)

(** A question of one of the five kinds [generate] produces. *)
Definition generated (job_role level : string) (q : Question) : Prop :=
  (exists s, skill_question level s q)
  \/ role_question job_role q
  \/ (exists kind expected,
         In kind ["behavioral"; "situational"; "general"]
         /\ template_question kind expected level q).

Lemma Forall_slice_to {A} (P : A -> Prop) (n : Z) (l : list A) :
  Forall P l -> Forall P (slice_to n l).
Proof.
  intros H. unfold slice_to.
  assert (forall k, Forall P (firstn k l)) as Hk.
  { intros k. apply Forall_forall. intros x Hx.
    apply (proj1 (Forall_forall _ _) H).
    rewrite <- (firstn_skipn k l). apply in_or_app. now left. }
  destruct (n <? 0); apply Hk.
Qed.

Lemma slice_to_length {A} (n : Z) (l : list A) :
  0 <= n -> len (slice_to n l) = Z.min n (len l).
Proof.
  intros Hn. unfold slice_to, len.
  replace (n <? 0) with false by (symmetry; apply Z.ltb_ge; lia).
  rewrite length_firstn. lia.
Qed.

Lemma technical_run_kinds (skills : list string) (count : Z)
    (level : string) (t : tape) :
  In level levels ->
  0 <= count ->
  exists out t',
    _generate_technical_questions skills count level t = Ok (out, t')
    /\ len out <= count
    /\ Forall (fun q => exists s, skill_question level s q) out.
Proof.
  intros Hl Hc.
  destruct (technical_pool_spec level Hl) as (H1 & H2 & Hne & Hfield).
  unfold _generate_technical_questions.
  unfold bind at 1. rewrite H1. unfold ret at 1.
  unfold bind at 1. rewrite H2. unfold ret at 1.
  unfold bind at 1.
  destruct (sample_min_run skills count t Hc)
    as (sel & rest & t1 & -> & Hsel & _).
  destruct (technical_loop_spec sel 0 count level (technical_pool level) t1
              Hne Hfield) as (out & t2 & -> & Hall); [lia |].
  exists out, t2. split; [reflexivity |]. split.
  - unfold len in *. rewrite (Forall2_length Hall). lia.
  - clear - Hall. induction Hall as [|q s0 out sel Hq _ IH]; constructor;
      eauto.
Qed.

Lemma role_run_kinds (job_role : string) (count : Z) (t : tape) :
  0 <= count ->
  exists out t',
    _generate_role_specific_questions job_role count t = Ok (out, t')
    /\ len out <= count
    /\ Forall (role_question job_role) out.
Proof.
  intros Hc.
  destruct (role_specific_run job_role count t Hc)
    as (out & t' & Hrun & Hlen & _ & Hin).
  exists out, t'. split; [exact Hrun |]. split; [lia |].
  apply Forall_forall. intros q Hq.
  apply (proj1 (Forall_forall _ _) (role_pool_fields job_role)).
  now apply (proj1 (Forall_forall _ _) Hin).
Qed.

(** The five batches of a run of [generate], once the quotas are
    computed. *)
Lemma generate_parts (job_role difficulty : string)
    (resume_data : option ResumeData) (question_count : Z)
    (d : Distribution) (t : tape) :
  _get_question_distribution question_count t = Ok (d, t) ->
  1 <= technical d -> 0 <= behavioral d -> 0 <= situational d ->
  0 <= general d ->
  let level := Dict.get difficulty difficulty_map "medium" in
  exists tech rq bq sq gq shuffled t',
    generate job_role difficulty resume_data question_count t
    = Ok (slice_to question_count shuffled, t')
    /\ Permutation ((((tech ++ rq) ++ bq) ++ sq) ++ gq) shuffled
    /\ len tech <= technical d
    /\ Forall (fun q => exists s, skill_question level s q) tech
    /\ len rq <= technical d - len tech
    /\ Forall (role_question job_role) rq
    /\ len bq <= Z.min 5 (behavioral d)
    /\ len sq <= Z.min 5 (situational d)
    /\ len gq <= Z.min 5 (general d)
    /\ Forall (generated job_role level) ((bq ++ sq) ++ gq).
Proof.
  intros Hd Ht Hb Hs Hg. cbv zeta. unfold generate. cbv zeta.
  pose proof (diff_level_cases difficulty) as Hl.
  set (level := Dict.get difficulty difficulty_map "medium") in *.
  unfold bind at 1. rewrite Hd.
  assert (exists tech t1,
             match resume_data with
             | Some {| skills := Some ((_ :: _) as sk) |} =>
                 _generate_technical_questions sk (technical d) level
             | _ => ret []
             end t = Ok (tech, t1)
             /\ len tech <= technical d
             /\ Forall (fun q => exists s, skill_question level s q) tech)
    as (tech & t1 & Htech & Hlen1 & Hcat1).
  { destruct resume_data as [[[[|s sk] |]] |];
      try (exists [], t; split; [reflexivity |];
           split; [cbn; lia | constructor]).
    destruct (technical_run_kinds (s :: sk) (technical d) level t Hl)
      as (out & t' & Hrun & Hlen & Hall); [lia |].
    exists out, t'. split; [cbv beta iota zeta; exact Hrun |].
    split; [lia | exact Hall]. }
  assert (count_category "technical" tech = len tech) as Hcount.
  { apply count_category_same. eapply Forall_impl; [| exact Hcat1].
    cbn. intros q (s & Hq & _). exact Hq. }
  unfold bind at 1. rewrite Htech.
  unfold bind at 1. rewrite Hcount.
  destruct (role_run_kinds job_role (technical d - len tech) t1)
    as (rq & t2 & -> & Hlen2 & Hcat2); [lia |].
  unfold bind at 1.
  destruct (from_templates_spec "behavioral"
              "Expected to use STAR method (Situation, Task, Action, Result) to provide specific examples."
              (behavioral d) level t2) as (bq & t3 & Hrun & Hlen3 & _ & Hcat3);
    [cbn; auto | exact Hl | exact Hb |].
  unfold _generate_behavioral_questions. rewrite Hrun. clear Hrun.
  unfold bind at 1.
  destruct (from_templates_spec "situational"
              "Expected to demonstrate problem-solving approach and decision-making process."
              (situational d) level t3) as (sq & t4 & Hrun & Hlen4 & _ & Hcat4);
    [cbn; auto | exact Hl | exact Hs |].
  unfold _generate_situational_questions. rewrite Hrun. clear Hrun.
  unfold bind at 1.
  destruct (from_templates_spec "general"
              "Expected to show passion, communication skills, and cultural fit."
              (general d) level t4) as (gq & t5 & Hrun & Hlen5 & _ & Hcat5);
    [cbn; auto | exact Hl | exact Hg |].
  unfold _generate_general_questions. rewrite Hrun. clear Hrun.
  unfold bind at 1.
  destruct (shuffle_run ((((tech ++ rq) ++ bq) ++ sq) ++ gq)%list t5)
    as (shuffled & t6 & -> & Hperm).
  unfold ret.
  exists tech, rq, bq, sq, gq, shuffled, t6.
  split; [reflexivity |]. split; [exact Hperm |].
  split; [exact Hlen1 |]. split; [exact Hcat1 |].
  split; [lia |]. split; [exact Hcat2 |].
  split; [lia |]. split; [lia |]. split; [lia |].
  apply (proj2 (Forall_app _ _ _)). split;
    [apply (proj2 (Forall_app _ _ _)); split |];
    (eapply Forall_impl; [| eassumption]); intros q Hq;
    right; right; eexists; eexists; (split; [| exact Hq]); cbn; auto.
Qed.

(** [generate] computes the quotas first: it raises what they raise, which
    no count up to [quota_bound] does. *)
Lemma generate_quotas (job_role difficulty : string)
    (resume_data : option ResumeData) (question_count : Z) (t : tape) :
  (exists e,
      generate job_role difficulty resume_data question_count t = Raise e
      /\ quota_bound < question_count)
  \/ (exists d,
         _get_question_distribution question_count t = Ok (d, t)
         /\ 1 <= technical d /\ 1 <= behavioral d /\ 1 <= situational d
         /\ 0 <= general d).
Proof.
  destruct (distribution_run question_count)
    as [(e & Hgt & H) | (d & H & Hb)].
  - left. exists e. split.
    + unfold generate. cbv zeta. unfold bind at 1. now rewrite H.
    + destruct (Z.le_gt_cases question_count quota_bound) as [Hle | Hlt];
        [| lia].
      destruct (distribution_exact question_count) as (d & H' & _);
        [lia |].
      specialize (H' t). rewrite H in H'. discriminate.
  - right. exists d. split; [apply H | exact Hb].
Qed.

(** A run of [generate] for a count that is not negative.  The quotas are
    computed first, the products of a count above 5 in binary64: that step
    raises for no count up to [quota_bound].  When it does not raise,
    [generate] returns, and never more than the count asked for, more than
    the quotas add up to, or more than the technical quota and 15, as the
    behavioral, situational and general pools hold 5 questions each. *)
Theorem generate_at_most (job_role difficulty : string)
    (resume_data : option ResumeData) (question_count : Z) (t : tape) :
  0 <= question_count ->
  (exists e,
      generate job_role difficulty resume_data question_count t = Raise e
      /\ quota_bound < question_count)
  \/ (exists d questions t',
         _get_question_distribution question_count t = Ok (d, t)
         /\ generate job_role difficulty resume_data question_count t
            = Ok (questions, t')
         /\ len questions <= question_count
         /\ len questions <= quota_sum d
         /\ len questions <= technical d + 15).
Proof.
  intros Hn.
  destruct (generate_quotas job_role difficulty resume_data question_count t)
    as [Hraise | (d & Hd & Ht & Hb & Hs & Hg)]; [left; exact Hraise | right].
  destruct (generate_parts job_role difficulty resume_data question_count d t
              Hd) as (tech & rq & bq & sq & gq & shuffled & t' & Hrun & Hperm
                      & H1 & _ & H2 & _ & H3 & H4 & H5 & _); try lia.
  exists d, (slice_to question_count shuffled), t'.
  split; [exact Hd |]. split; [exact Hrun |].
  rewrite slice_to_length by exact Hn.
  assert (len shuffled = len tech + len rq + len bq + len sq + len gq)
    as Hlen.
  { unfold len. rewrite <- (Permutation_length Hperm), !length_app. lia. }
  assert (0 <= len tech) by (unfold len; lia).
  unfold quota_sum. repeat split; lia.
Qed.

Lemma generate_at_most_witness :
  (exists e,
      generate "software engineer" "advanced" python_react 7 [] = Raise e
      /\ quota_bound < 7)
  \/ (exists d questions t',
         _get_question_distribution 7 [] = Ok (d, [])
         /\ generate "software engineer" "advanced" python_react 7 []
            = Ok (questions, t')
         /\ len questions <= 7
         /\ len questions <= quota_sum d
         /\ len questions <= technical d + 15).
Proof.
  apply (generate_at_most "software engineer" "advanced" python_react 7 []).
  lia.
Defined.

(** Every question [generate] returns is of one of five kinds: a question
    on a skill of the resume, of the mapped level; a curated question of
    the role, of the level medium whatever was asked for; or a behavioral,
    situational or general template, of the mapped level.  The mapped level
    is easy, medium or hard, medium standing for any difficulty other than
    beginner, intermediate and advanced.  [generate] returns unless the
    float products of the quotas raise, which they do for no count up to
    [quota_bound]. *)
Theorem generate_kinds (job_role difficulty : string)
    (resume_data : option ResumeData) (question_count : Z) (t : tape) :
  let level := Dict.get difficulty difficulty_map "medium" in
  In level levels
  /\ (~ In difficulty (map fst difficulty_map) -> level = "medium")
  /\ ((exists e,
          generate job_role difficulty resume_data question_count t = Raise e
          /\ quota_bound < question_count)
      \/ (exists questions t',
             generate job_role difficulty resume_data question_count t
             = Ok (questions, t')
             /\ Forall (generated job_role level) questions)).
Proof.
  cbv zeta. split; [apply diff_level_cases |]. split.
  { intros Hno. unfold Dict.get.
    destruct (find _ difficulty_map) as [kv |] eqn:E; [| reflexivity].
    apply find_some in E. destruct E as [Hin E].
    apply String.eqb_eq in E. exfalso. apply Hno. rewrite <- E.
    now apply in_map. }
  destruct (generate_quotas job_role difficulty resume_data question_count t)
    as [Hraise | (d & Hd & Ht & Hb & Hs & Hg)]; [left; exact Hraise | right].
  destruct (generate_parts job_role difficulty resume_data question_count d t
              Hd) as (tech & rq & bq & sq & gq & shuffled & t' & Hrun & Hperm
                      & _ & H1 & _ & H2 & _ & _ & _ & H3); try lia.
  exists (slice_to question_count shuffled), t'.
  split; [exact Hrun |].
  apply Forall_slice_to.
  apply Forall_forall. intros q Hq.
  apply (Permutation_in _ (Permutation_sym Hperm)) in Hq.
  rewrite <- !app_assoc in Hq.
  apply in_app_or in Hq. destruct Hq as [Hq | Hq].
  - left. now apply (proj1 (Forall_forall _ _) H1).
  - apply in_app_or in Hq. destruct Hq as [Hq | Hq].
    + right. left. now apply (proj1 (Forall_forall _ _) H2).
    + apply (proj1 (Forall_forall _ _) H3). now rewrite <- app_assoc.
Qed.

Lemma generate_kinds_witness :
  Dict.get "expert" difficulty_map "medium" = "medium".
Proof.
  apply (proj1 (proj2 (generate_kinds "tester" "expert" None 3 []))).
  cbn. intros [H | [H | [H | []]]]; discriminate.
Defined.

End GenerationFacts.

(** ** The interview summary *)

Module SummaryFacts.

Import InterviewSummary AnalyzerFacts PipelineFacts.

Section Facts.

Variable set_order : list string -> list string.
Variable format_0f : Q -> string.

(** Iterating over a set yields each of its elements once. *)
Hypothesis set_order_spec :
  forall l, Permutation (set_order l) (nodup string_dec l).

Definition answered (data : InterviewData) : list StoredFeedback :=
  answered_feedbacks
    (match questions data with Some qs => qs | None => [] end).

Lemma of_int_succ (n : nat) :
  of_int (Z.of_nat (S n)) == of_int (Z.of_nat n) + 1.
Proof.
  unfold of_int. rewrite Nat2Z.inj_succ, <- Z.add_1_r, inject_Z_plus.
  reflexivity.
Qed.

Lemma answered_le (qs : list InterviewQuestion) :
  (List.length (answered_feedbacks qs) <= List.length qs)%nat.
Proof.
  induction qs as [|q qs IH]; cbn [answered_feedbacks List.length];
    [lia |].
  destruct (feedback q); cbn [List.length]; lia.
Qed.

Lemma sum_scores_missing (acc : Q) (fs : list StoredFeedback) :
  match sum_scores acc fs with
  | Ok _ => Forall (fun f => stored_score f <> None) fs
  | Raise e =>
      e = KeyError /\ exists f, In f fs /\ stored_score f = None
  end.
Proof.
  revert acc. induction fs as [|f fs IH]; intros acc; cbn [sum_scores].
  - constructor.
  - destruct (stored_score f) as [x |] eqn:E.
    + specialize (IH (acc + x)). destruct (sum_scores (acc + x) fs).
      * constructor; [congruence | exact IH].
      * destruct IH as (-> & g & Hin & Hg). split; [reflexivity |].
        exists g. split; [now right | exact Hg].
    + split; [reflexivity |]. exists f. split; [now left | exact E].
Qed.

(** The only error of the summary.  [generate_interview_summary] raises
    exactly when an answered question's feedback has no ['score'], and the
    error is then [KeyError]; the keys read with a default never make it
    fail, and an interview without an answered question (or without the
    key ['questions']) gets the summary "Interview not completed" with the
    score 0 and empty lists instead of a division by zero. *)
Theorem summary_errors (data : InterviewData) :
  match generate_interview_summary set_order format_0f data with
  | Raise e =>
      e = KeyError
      /\ exists f, In f (answered data) /\ stored_score f = None
  | Ok (NotCompleted text score strs imps recs) =>
      answered data = []
      /\ text = "Interview not completed" /\ score = 0%Z
      /\ strs = [] /\ imps = [] /\ recs = []
  | Ok (Completed _ _ _ _ _ _ _ _ n total) =>
      Forall (fun f => stored_score f <> None) (answered data)
      /\ n = Z.of_nat (List.length (answered data))
      /\ (1 <= n <= total)%Z
  end.
Proof.
  unfold generate_interview_summary, answered.
  set (qs := match questions data with Some qs => qs | None => [] end).
  pose proof (answered_le qs) as Hle.
  destruct (answered_feedbacks qs) as [|f fs] eqn:E.
  - repeat split; reflexivity.
  - pose proof (sum_scores_missing 0 (f :: fs)) as H.
    destruct (sum_scores 0 (f :: fs)) as [total | e].
    + split; [exact H |]. split; [reflexivity |].
      cbn [List.length] in *. lia.
    + exact H.
Qed.

(** A feedback whose numbers are percentages. *)
Definition percent (x : option Q) : Prop :=
  match x with Some v => 0 <= v <= 100 | None => True end.

Definition well_scored (f : StoredFeedback) : Prop :=
  (exists x, stored_score f = Some x /\ 0 <= x <= 100)
  /\ percent (stored_technicalAccuracy f)
  /\ percent (stored_communication f)
  /\ percent (stored_confidence f).

Lemma sum_scores_range (acc : Q) (fs : list StoredFeedback) :
  Forall (fun f => exists x, stored_score f = Some x /\ 0 <= x <= 100) fs ->
  exists total,
    sum_scores acc fs = Ok total
    /\ acc <= total
    /\ total <= acc + 100 * of_int (Z.of_nat (List.length fs)).
Proof.
  intros H. revert acc.
  induction H as [|f fs (x & Hx & Hr) _ IH]; intros acc.
  - exists acc. cbn [sum_scores List.length]. split; [reflexivity |].
    change (of_int (Z.of_nat 0)) with 0. split; lra.
  - cbn [sum_scores]. rewrite Hx.
    destruct (IH (acc + x)) as (total & -> & Hlo & Hhi).
    exists total. split; [reflexivity |].
    cbn [List.length]. rewrite of_int_succ. split; lra.
Qed.

Lemma sum_get_range (key : StoredFeedback -> option Q)
    (fs : list StoredFeedback) :
  Forall (fun f => percent (key f)) fs ->
  0 <= sum_get key fs
  /\ sum_get key fs <= 100 * of_int (Z.of_nat (List.length fs)).
Proof.
  intros H. unfold sum_get.
  assert (forall acc,
             acc <= fold_left
                      (fun a f => a + match key f with
                                      | Some x => x
                                      | None => 0
                                      end) fs acc
             /\ fold_left
                  (fun a f => a + match key f with
                                  | Some x => x
                                  | None => 0
                                  end) fs acc
                <= acc + 100 * of_int (Z.of_nat (List.length fs))) as Hacc.
  { induction H as [|f fs Hf _ IH]; intros acc.
    - cbn [fold_left List.length].
      change (of_int (Z.of_nat 0)) with 0. split; lra.
    - cbn [fold_left List.length]. rewrite of_int_succ.
      specialize (IH (acc + match key f with Some x => x | None => 0 end)).
      unfold percent in Hf. destruct (key f) as [x |]; split; lra. }
  specialize (Hacc 0). split; lra.
Qed.

Lemma average_percent (total : Q) (n : nat) :
  (0 < n)%nat ->
  0 <= total -> total <= 100 * of_int (Z.of_nat n) ->
  0 <= total / of_int (Z.of_nat n) <= of_int 100.
Proof.
  intros Hn H0 H1.
  assert (0 < of_int (Z.of_nat n)) as Hpos by (apply of_int_pos; lia).
  change (of_int 100) with 100.
  split; [apply Qle_shift_div_l | apply Qle_shift_div_r]; lra.
Qed.

(** When the numbers of every answered question's feedback are between 0
    and 100, the summary is the completed one and its four scores are
    integers between 0 and 100. *)
Theorem summary_scores_in_range (data : InterviewData) :
  answered data <> [] ->
  Forall well_scored (answered data) ->
  exists text overall technical communication confidence strs imps recs n
         total,
    generate_interview_summary set_order format_0f data
    = Ok (Completed text overall technical communication confidence strs
                    imps recs n total)
    /\ (0 <= overall <= 100 /\ 0 <= technical <= 100
        /\ 0 <= communication <= 100 /\ 0 <= confidence <= 100)%Z.
Proof.
  intros Hne Hall. unfold generate_interview_summary.
  unfold answered in *.
  set (qs := match questions data with Some qs => qs | None => [] end) in *.
  set (fs := answered_feedbacks qs) in *.
  assert (0 < List.length fs)%nat as Hn.
  { destruct fs; [contradiction | cbn; lia]. }
  destruct (sum_scores_range 0 fs) as (total & Hsum & Hlo & Hhi).
  { eapply Forall_impl; [| exact Hall]. now intros f (H & _). }
  assert (Forall (fun f => percent (stored_technicalAccuracy f)) fs) as Ht
      by (eapply Forall_impl; [| exact Hall]; now intros f (_ & H & _)).
  assert (Forall (fun f => percent (stored_communication f)) fs) as Hc
      by (eapply Forall_impl; [| exact Hall]; now intros f (_ & _ & H & _)).
  assert (Forall (fun f => percent (stored_confidence f)) fs) as Hf
      by (eapply Forall_impl; [| exact Hall]; now intros f (_ & _ & _ & H)).
  apply sum_get_range in Ht, Hc, Hf.
  destruct fs as [|f rest] eqn:E; [contradiction |].
  rewrite Hsum. do 10 eexists. split; [reflexivity |].
  split; [| split; [| split]];
    (apply (int_range _ 100); apply average_percent; [exact Hn | lra | lra]).
Qed.

Lemma sum_scores_present (acc : Q) (fs : list StoredFeedback) :
  Forall (fun f => stored_score f <> None) fs ->
  exists total, sum_scores acc fs = Ok total.
Proof.
  intros H. revert acc. induction H as [|f fs Hf _ IH]; intros acc.
  - now exists acc.
  - cbn [sum_scores]. destruct (stored_score f) as [x |]; [| contradiction].
    apply IH.
Qed.

Lemma NoDup_firstn {A} (n : nat) (l : list A) :
  NoDup l -> NoDup (firstn n l).
Proof.
  intros H. rewrite <- (firstn_skipn n l) in H.
  now apply NoDup_app_remove_r in H.
Qed.

Lemma unique_list (key : StoredFeedback -> option (list string))
    (fs : list StoredFeedback) :
  let unique := firstn 5 (set_order (collect key fs)) in
  List.length unique
  = Nat.min 5 (List.length (nodup string_dec (collect key fs)))
  /\ NoDup unique
  /\ forall s, In s unique ->
               exists f l, In f fs /\ key f = Some l /\ In s l.
Proof.
  cbv zeta. pose proof (set_order_spec (collect key fs)) as Hp.
  split; [| split].
  - rewrite length_firstn, (Permutation_length Hp). reflexivity.
  - apply NoDup_firstn.
    apply (Permutation_NoDup (Permutation_sym Hp)). apply NoDup_nodup.
  - intros s Hs.
    assert (In s (set_order (collect key fs))) as Hin.
    { rewrite <- (firstn_skipn 5). apply in_or_app. now left. }
    apply (Permutation_in _ Hp) in Hin. apply nodup_In in Hin.
    unfold collect in Hin. apply in_flat_map in Hin.
    destruct Hin as (f & Hf & Hl).
    destruct (key f) as [l |] eqn:E; [| contradiction].
    now exists f, l.
Qed.

(** The strengths and the areas for improvement of a completed summary:
    at most 5 each (all of them when no more than 5 different ones were
    given), without repetition, every one taken from the feedback of an
    answered question. *)
Theorem summary_lists (data : InterviewData) :
  answered data <> [] ->
  Forall (fun f => stored_score f <> None) (answered data) ->
  exists text overall technical communication confidence strs imps recs n
         total,
    generate_interview_summary set_order format_0f data
    = Ok (Completed text overall technical communication confidence strs
                    imps recs n total)
    /\ List.length strs
       = Nat.min 5 (List.length
                      (nodup string_dec
                         (collect stored_strengths (answered data))))
    /\ NoDup strs
    /\ (forall s, In s strs ->
          exists f l, In f (answered data)
                      /\ stored_strengths f = Some l /\ In s l)
    /\ List.length imps
       = Nat.min 5 (List.length
                      (nodup string_dec
                         (collect stored_improvements (answered data))))
    /\ NoDup imps
    /\ (forall s, In s imps ->
          exists f l, In f (answered data)
                      /\ stored_improvements f = Some l /\ In s l).
Proof.
  intros Hne Hall. unfold generate_interview_summary.
  unfold answered in *.
  set (qs := match questions data with Some qs => qs | None => [] end) in *.
  set (fs := answered_feedbacks qs) in *.
  destruct (sum_scores_present 0 fs Hall) as (total & Hsum).
  destruct (unique_list stored_strengths fs) as (Hs1 & Hs2 & Hs3).
  destruct (unique_list stored_improvements fs) as (Hi1 & Hi2 & Hi3).
  destruct fs as [|f rest] eqn:E; [contradiction |].
  rewrite Hsum. do 10 eexists. split; [reflexivity |].
  repeat split; assumption.
Qed.

Lemma Qltb_spec (x y : Q) : Qltb x y = true <-> x < y.
Proof.
  unfold Qltb. rewrite negb_true_iff. split.
  - intros H. apply Qnot_le_lt. intros Hle.
    apply Qle_bool_iff in Hle. congruence.
  - intros H. destruct (Qle_bool y x) eqn:E; [| reflexivity].
    apply Qle_bool_iff in E. lra.
Qed.

(** The word of the summary text and the opening recommendation of each
    tier. *)
Definition tiers : list (string * string) :=
  [ ("excellent",
     "Excellent performance! You're well-prepared for interviews at this level.");
    ("good",
     "Good performance with room for improvement in specific areas.");
    ("satisfactory",
     "Solid foundation but focus on strengthening weaker areas.");
    ("needs improvement",
     "Significant improvement needed. Consider more practice and preparation.") ].

(** The recommendations open with the sentence of the tier whose word the
    summary text uses for the same average, close with the advice to keep
    practising, and hold in between the technical advice exactly when the
    technical average is below 70 and the communication advice exactly when
    the communication average is below 70. *)
Theorem recommendations_shape (avg_score avg_technical avg_communication : Q) :
  exists opening middle,
    _generate_interview_recommendations avg_score avg_technical
                                        avg_communication
    = (opening :: middle
       ++ ["Continue practicing with mock interviews to build confidence."])%list
    /\ In (performance avg_score, opening) tiers
    /\ (In "Focus on strengthening technical knowledge and practice coding problems."
           middle <-> avg_technical < 70)
    /\ (In "Work on communication skills and practice explaining concepts clearly."
           middle <-> avg_communication < 70)
    /\ (List.length middle <= 2)%nat.
Proof.
  exists (if Qleb 80 avg_score then snd (nth 0 tiers ("", ""))
          else if Qleb 70 avg_score then snd (nth 1 tiers ("", ""))
          else if Qleb 60 avg_score then snd (nth 2 tiers ("", ""))
          else snd (nth 3 tiers ("", ""))),
         ((if Qltb avg_technical 70
           then ["Focus on strengthening technical knowledge and practice coding problems."]
           else [])
          ++ (if Qltb avg_communication 70
              then ["Work on communication skills and practice explaining concepts clearly."]
              else []))%list.
  unfold _generate_interview_recommendations, performance,
    FeedbackGenerator.append_if. cbv zeta.
  rewrite <- !Qltb_spec.
  split; [| split; [| split; [| split]]].
  - destruct (Qleb 80 avg_score), (Qleb 70 avg_score), (Qleb 60 avg_score),
      (Qltb avg_technical 70), (Qltb avg_communication 70); reflexivity.
  - destruct (Qleb 80 avg_score), (Qleb 70 avg_score), (Qleb 60 avg_score);
      cbn; tauto.
  - destruct (Qltb avg_technical 70), (Qltb avg_communication 70);
      cbn [app In]; split; intros H; try reflexivity; try tauto;
      try discriminate H; destruct H as [H | H];
      try discriminate H; contradiction.
  - destruct (Qltb avg_technical 70), (Qltb avg_communication 70);
      cbn [app In]; split; intros H; try reflexivity; try tauto;
      try discriminate H; destruct H as [H | H];
      try discriminate H; contradiction.
  - destruct (Qltb avg_technical 70), (Qltb avg_communication 70);
      cbn; lia.
Qed.

End Facts.

(** An interview of three questions, two of them answered. *)
Definition sample_interview : InterviewData :=
  {| questions :=
       Some [ {| feedback :=
                   Some (mkStored (Some 80) (Some 70) None (Some 90)
                                  (Some ["Clear logical flow in your explanation"])
                                  (Some ["Be more assertive in your responses"])) |};
              {| feedback := None |};
              {| feedback :=
                   Some (mkStored (Some (125 # 2)) None (Some 55) None
                                  (Some ["Clear logical flow in your explanation";
                                         "Thorough exploration of the topic"])
                                  None) |} ] |}.

Lemma nodup_order (l : list string) :
  Permutation (nodup string_dec l) (nodup string_dec l).
Proof. reflexivity. Qed.

Lemma sample_interview_scored :
  answered sample_interview <> []
  /\ Forall well_scored (answered sample_interview).
Proof.
  split; [discriminate |].
  unfold answered, sample_interview.
  cbn [questions answered_feedbacks feedback].
  repeat constructor; cbn;
    try (eexists; split; [reflexivity |]);
    unfold Qle; cbn; lia.
Qed.

Lemma summary_scores_in_range_witness :
  exists text overall technical communication confidence strs imps recs n
         total,
    generate_interview_summary (nodup string_dec) (fun _ => "")
                               sample_interview
    = Ok (Completed text overall technical communication confidence strs
                    imps recs n total)
    /\ (0 <= overall <= 100 /\ 0 <= technical <= 100
        /\ 0 <= communication <= 100 /\ 0 <= confidence <= 100)%Z.
Proof.
  apply (summary_scores_in_range (nodup string_dec) (fun _ => "")
           sample_interview);
    apply sample_interview_scored.
Defined.

Lemma summary_lists_witness :
  exists text overall technical communication confidence strs imps recs n
         total,
    generate_interview_summary (nodup string_dec) (fun _ => "")
                               sample_interview
    = Ok (Completed text overall technical communication confidence strs
                    imps recs n total)
    /\ List.length strs = 2%nat /\ NoDup strs.
Proof.
  destruct (summary_lists (nodup string_dec) (fun _ => "") nodup_order
              sample_interview)
    as (text & overall & technical & communication & confidence & strs
        & imps & recs & n & total & Hrun & Hlen & Hnd & _).
  - discriminate.
  - unfold answered, sample_interview.
    cbn [questions answered_feedbacks feedback].
    repeat constructor; discriminate.
  - do 10 eexists. split; [exact Hrun |]. split; [| exact Hnd].
    rewrite Hlen. vm_compute. reflexivity.
Defined.

End SummaryFacts.

(** ** The endpoints *)

Module ServiceFacts.

Import Str AnswerAnalyzer FeedbackGenerator RandomFacts FeedbackFacts.
Import ScoringFacts PipelineFacts Main.

(** A text of ASCII characters: on such a text the string operations of
    this development are those of Python. *)
Fixpoint is_ascii (s : string) : bool :=
  match s with
  | EmptyString => true
  | String c t => (code c <? 128)%nat && is_ascii t
  end.

(** What the pipeline raises on a text, if it does. *)
Definition pipeline_error (nlp : option (string -> result SpacyDoc))
    (text : string) : option exn :=
  match nlp with
  | Some pipeline =>
      match pipeline text with
      | Ok _ => None
      | Raise e => Some e
      end
  | None => None
  end.

(** The answer endpoint, on an answer of ASCII characters.  A request whose
    trimmed answer has fewer than 10 characters is answered by the HTTP
    error 500 carrying the text of a [KeyError]; so is, with the text of
    its exception, a longer answer on which the spaCy pipeline raises;
    every other request succeeds, with one to three strengths, at most
    three improvements and one to four suggestions. *)
Theorem analyze_answer_status
    (flesch_reading_ease flesch_kincaid_grade : string -> option Q)
    (nlp : option (string -> result SpacyDoc))
    (sentiment_analyzer : option (string -> option Q))
    (str_exception : exn -> string)
    (request : AnswerAnalysisRequest) (t : tape) :
  is_ascii (answer request) = true ->
  let trimmed := String.length (strip (answer request)) in
  match analyze_answer flesch_reading_ease flesch_kincaid_grade nlp
                       sentiment_analyzer str_exception request t with
  | Success fb =>
      (10 <= trimmed)%nat
      /\ pipeline_error nlp (answer request) = None
      /\ (1 <= List.length (strengths fb) <= 3)%nat
      /\ (List.length (improvements fb) <= 3)%nat
      /\ (1 <= List.length (suggestions fb) <= 4)%nat
  | HTTPException status_code detail =>
      status_code = 500%Z
      /\ ((trimmed < 10)%nat
          /\ detail = "Answer analysis failed: " ++ str_exception KeyError
          \/ (10 <= trimmed)%nat
             /\ exists e, pipeline_error nlp (answer request) = Some e
                          /\ detail
                             = "Answer analysis failed: " ++ str_exception e)
  end.
Proof.
  intros _. cbv zeta.
  assert (forall doc,
             (10 <= String.length (strip (answer request)))%nat ->
             exists fb t',
               generate_feedback
                 (AnswerAnalyzer.analyze flesch_reading_ease
                    flesch_kincaid_grade doc sentiment_analyzer
                    (question request) (answer request) (category request)
                    (jobRole request)) t = Ok (fb, t')
               /\ (1 <= List.length (strengths fb) <= 3)%nat
               /\ (List.length (improvements fb) <= 3)%nat
               /\ (1 <= List.length (suggestions fb) <= 4)%nat) as Hlong.
  { intros doc Hlen. unfold AnswerAnalyzer.analyze.
    rewrite (strip_nonempty _ Hlen).
    set (a := FullAnalysis _ _).
    destruct (identify_strengths_run a t) as (strs & t1 & Hs & Hl & _).
    destruct (identify_improvements_run a t1) as (imps & t2 & Hi & Hfa).
    destruct (generate_suggestions_run a t2) as (sugg & t3 & Hg & Hsugg).
    unfold generate_feedback. cbv zeta.
    unfold bind at 1. rewrite Hs. unfold bind at 1. rewrite Hi.
    unfold bind at 1. rewrite Hg. unfold ret.
    eexists; eexists. split; [reflexivity |].
    cbn [strengths improvements suggestions].
    split; [exact Hl |]. split; [| exact Hsugg].
    apply Forall2_length in Hfa. rewrite Hfa, length_firstn. lia. }
  assert (forall doc,
             (String.length (strip (answer request)) < 10)%nat ->
             generate_feedback
               (AnswerAnalyzer.analyze flesch_reading_ease
                  flesch_kincaid_grade doc sentiment_analyzer
                  (question request) (answer request) (category request)
                  (jobRole request)) t = Raise KeyError) as Hshort.
  { intros doc Hlen. unfold AnswerAnalyzer.analyze.
    replace (String.length (strip (answer request)) <? 10)%nat with true
      by (symmetry; now apply Nat.ltb_lt).
    rewrite orb_true_r. apply feedback_on_short_answer. }
  unfold analyze_answer, Main.analyze, pipeline_error. cbv zeta.
  destruct (Nat.lt_ge_cases (String.length (strip (answer request))) 10)
    as [Hlt | Hge].
  - replace (String.length (strip (answer request)) <? 10)%nat with true
      by (symmetry; now apply Nat.ltb_lt).
    rewrite orb_true_r.
    destruct nlp as [pipeline |]; rewrite (Hshort None Hlt);
      (split; [reflexivity | left; split; [exact Hlt | reflexivity]]).
  - rewrite (strip_nonempty _ Hge).
    destruct nlp as [pipeline |].
    + destruct (pipeline (answer request)) as [doc | e].
      * destruct (Hlong (Some (fun _ => doc)) Hge) as (fb & t' & -> & H).
        split; [exact Hge |]. split; [reflexivity | exact H].
      * split; [reflexivity |]. right. split; [exact Hge |].
        exists e. split; reflexivity.
    + destruct (Hlong None Hge) as (fb & t' & -> & H).
      split; [exact Hge |]. split; [reflexivity | exact H].
Qed.

Lemma analyze_answer_status_witness :
  exists detail,
    analyze_answer (fun _ => None) (fun _ => None) None None
                   (fun _ => "'star_score'")
                   (mkAnswerRequest "Why Rocq?" "  It is.  " "general"
                                    "software engineer") []
    = HTTPException 500 detail.
Proof.
  pose proof (analyze_answer_status (fun _ => None) (fun _ => None) None None
                (fun _ => "'star_score'")
                (mkAnswerRequest "Why Rocq?" "  It is.  " "general"
                                 "software engineer") []
                ltac:(reflexivity)) as H.
  cbv zeta in H.
  destruct (analyze_answer _ _ _ _ _ _ _) as [fb | status detail].
  - destruct H as (H & _). vm_compute in H. lia.
  - destruct H as (-> & _). now exists detail.
Defined.

End ServiceFacts.

(** ** Sample runs *)

Module Runs.

Example split_words : Str.split "  a bc  d " = ["a"; "bc"; "d"].
Proof. reflexivity. Qed.

Example split_on_stop :
  Str.split_on "." "a.b..c." = ["a"; "b"; ""; "c"; ""].
Proof. reflexivity. Qed.

Example findall_words_run :
  Str.findall_words "what is x_1, and-why?"
  = ["what"; "is"; "x_1"; "and"; "why"].
Proof. reflexivity. Qed.

Example count_overlapping : Str.count "aa" "aaaaa" = 2%Z.
Proof. reflexivity. Qed.

Example strip_run : Str.strip "  a b  " = "a b".
Proof. reflexivity. Qed.

Example last_chars_run :
  Str.last_chars 3 "abcdef" = "def" /\ Str.last_chars 30 "abc" = "abc".
Proof. split; reflexivity. Qed.

Example lower_run : Str.lower "Hello, WORLD_z[@" = "hello, world_z[@".
Proof. reflexivity. Qed.

Example format_skill_run :
  QuestionGenerator.format_skill "Explain the basics of {skill}." "Rocq" 0
  = "Explain the basics of Rocq.".
Proof. reflexivity. Qed.

(** [random.sample([1, 2, 3, 4, 5], 5)] when every draw is 0. *)
Example sample_run_zero :
  sample [1; 2; 3; 4; 5]%Z 5 [0; 0; 0; 0; 0]%nat
  = Ok ([1; 5; 4; 3; 2]%Z, []).
Proof. reflexivity. Qed.

(** [random.shuffle] of five items with the draws 2, 2, 1, 0. *)
Example shuffle_run_draws :
  shuffle [1; 2; 3; 4; 5]%Z [2; 2; 1; 0]%nat = Ok ([4; 1; 2; 5; 3]%Z, []).
Proof. reflexivity. Qed.

Example confidence_run :
  confidence_score (AnswerAnalyzer._analyze_confidence None "Maybe I think so")
  = 20%Z.
Proof. vm_compute. reflexivity. Qed.

Example slice_negative :
  QuestionGenerator.slice_to (-2) [1; 2; 3; 4; 5]%Z = [1; 2; 3]%Z.
Proof. reflexivity. Qed.

(** For 25 questions the quotas are 10, 7, 5 and 2: one less than asked
    for. *)
Example distribution_25 :
  QuestionGenerator._get_question_distribution 25 []
  = Ok (QuestionGenerator.mkDistribution 10 7 5 2, []).
Proof. vm_compute. reflexivity. Qed.

(** Beyond the integers a float holds exactly the products are rounded: for
    2^63 questions the quotas add up to 256 more than the count. *)
Example distribution_rounding :
  exists d,
    QuestionGenerator._get_question_distribution (2 ^ 63) [] = Ok (d, [])
    /\ GenerationFacts.quota_sum d = (2 ^ 63 + 256)%Z.
Proof. eexists. split; vm_compute; reflexivity. Qed.

(** The largest float is 2^1024 - 2^971; a count half a step above it no
    longer converts, and [generate] raises before any draw. *)
Example distribution_overflow :
  (exists d,
      QuestionGenerator._get_question_distribution
        (2 ^ 1024 - 2 ^ 970 - 1) [] = Ok (d, []))
  /\ QuestionGenerator._get_question_distribution (2 ^ 1024 - 2 ^ 970) []
     = Raise OverflowError
  /\ QuestionGenerator.generate "tester" "beginner" None
       (2 ^ 1024 - 2 ^ 970) [1; 2; 3]%nat
     = Raise OverflowError.
Proof. split; [eexists |]; vm_compute; repeat split; reflexivity. Qed.

End Runs.

(** ** The same constants in binary64 arithmetic *)

Module Binary64.

Import PrimInt63 PrimFloat.
Local Open Scope float_scope.
Local Set Warnings "-inexact-float".

(** [(100 + 20) / 1.2] is exactly [100.0]; [100 / 1.2] is below it. *)
Example completeness_quotients :
  eqb ((100 + 20) / 1.2) 100 = true /\ ltb (100 / 1.2) 100 = true.
Proof. split; reflexivity. Qed.

(** The products of [_get_question_distribution] for 10 questions. *)
Example distribution_products :
  eqb (10 * 0.4) 4 = true /\ eqb (10 * 0.3) 3 = true
  /\ eqb (10 * 0.2) 2 = true /\ eqb (10 * 0.1) 1 = true.
Proof. repeat split; reflexivity. Qed.

(** The float literals of [Float64] are the ones the parser reads. *)
Example literals :
  FloatOps.Prim2SF 0.4 = Float64.lit_0_4
  /\ FloatOps.Prim2SF 0.3 = Float64.lit_0_3
  /\ FloatOps.Prim2SF 0.2 = Float64.lit_0_2
  /\ FloatOps.Prim2SF 0.1 = Float64.lit_0_1.
Proof. repeat split; reflexivity. Qed.

(** The hardware product and the specified one agree on a large count. *)
Example product_of_large_count :
  FloatOps.Prim2SF (of_uint63 9007199254740993%uint63 * 0.3)
  = Float64.mul (binary_normalize 53 1024 9007199254740993 0 false)
                Float64.lit_0_3.
Proof. vm_compute. reflexivity. Qed.

(** The weighted sum of five scores of 100 does not exceed 100. *)
Example full_marks_overall :
  leb (100 * 0.25 + 100 * 0.25 + 100 * 0.20 + 100 * 0.15 + 100 * 0.15) 100
  = true.
Proof. reflexivity. Qed.

End Binary64.
